(** * win32utils: window-procedure dispatch, message loop and modal dialog

    A shallow embedding of the dispatch core of the Go package
    [win32utils] (window.go and the dialog file), with the properties of
    its handle registry, global trampoline, message loop, class
    registration and modal text dialog.

    Conventions of the embedding.
    - Go integers are [Z]; the conversions [uint32], [int32], [uint16],
      [uintptr] write the wrap-around out (64-bit target).
    - A Go function value of type [WndProc] held by a client is a
      reference (a [nat]); [code] gives the behaviour of the closure a
      reference names, as a transformation of the client-visible
      [World]: the registry, the client's own variables and the OS.
      [nil] is [None].
    - The operating system is an abstract state [OS] with one transition
      per entry point ([syscall]); the Go wrappers are translated over
      it.  A system call changes the OS state only, except where the OS
      calls a window procedure back: [DispatchMessageW] calls the
      procedure of the target window's class, and [DestroyWindow] sends
      [WM_DESTROY] and [WM_NCDESTROY] to the procedure of the window it
      destroys.
    - The package-level maps are written only by [setWndProc] and
      [setDialogWndProc], which never store [nil]; their entries are
      therefore non-nil procedures, and [m !! hwnd] is the two-valued
      lookup [proc, ok := m[hwnd]].
    - [dialogWndProcs] and the variables captured by the dialog's
      function literal are not reachable from client closures; one
      dialog call is modelled at a time.
    - The mutexes only serialise access; the embedding is sequential.
    - The two message loops take fuel: [None] is a loop still running
      when the fuel is spent. *)

From stdpp Require Import base option gmap strings list.

Local Open Scope Z_scope.

(** ** Integer types *)

Definition uint32 (z : Z) : Z := z mod 2 ^ 32.
Definition int32 (z : Z) : Z := (z + 2 ^ 31) mod 2 ^ 32 - 2 ^ 31.
Definition uint16 (z : Z) : Z := z mod 2 ^ 16.

(** ** Constants of window.go *)

Definition WM_DESTROY : Z := 0x0002.
Definition WM_NCDESTROY : Z := 0x0082.
Definition WM_CLOSE : Z := 0x0010.
Definition WM_COMMAND : Z := 0x0111.
Definition WM_SETFONT : Z := 0x0030.
Definition WM_USER : Z := 0x0400.
Definition IDOK : Z := 1.
Definition IDCANCEL : Z := 2.

Definition WS_OVERLAPPED : Z := 0x00000000.
Definition WS_CHILD : Z := 0x40000000.
Definition WS_VISIBLE : Z := 0x10000000.
Definition WS_CAPTION : Z := 0x00C00000.
Definition WS_SYSMENU : Z := 0x00080000.
Definition WS_TABSTOP : Z := 0x00010000.
Definition WS_EX_DLGMODALFRAME : Z := 0x00000001.
Definition WS_EX_TOPMOST : Z := 0x00000008.
Definition WS_EX_CLIENTEDGE : Z := 0x00000200.

Definition FW_NORMAL : Z := 400.
Definition DEFAULT_CHARSET : Z := 1.
Definition OUT_DEFAULT_PRECIS : Z := 0.
Definition CLIP_DEFAULT_PRECIS : Z := 0.
Definition PROOF_QUALITY : Z := 2.
Definition FF_DONTCARE : Z := 0.

(** [ERROR_CLASS_ALREADY_EXISTS], the literal of [registerClassExW]. *)
Definition ERROR_CLASS_ALREADY_EXISTS : Z := 1410.

(** ** Data *)

(** Go [error] values: [nil] is [None]. *)
Inductive Err : Type :=
| Errno (code : Z)                      (* syscall.Errno *)
| ErrorString (s : string)              (* errors.New *)
| Wrapped (prefix : string) (e : Err).  (* fmt.Errorf("...: %w", e) *)

Abbreviation error := (option Err).

Record POINT := mkPOINT { X : Z; Y : Z }.

Record MSG := mkMSG {
  HWnd : Z;
  Message : Z;
  WParam : Z;
  LParam : Z;
  Time : Z;
  Pt : POINT;
  LPrivate : Z
}.

(** [var msg MSG]: the zero value. *)
Definition MSG_zero : MSG := mkMSG 0 0 0 0 0 (mkPOINT 0 0) 0.

Record WNDCLASSEXW := mkWNDCLASSEXW {
  CbSize : Z;
  Style : Z;
  LpfnWndProc : Z;
  CbClsExtra : Z;
  CbWndExtra : Z;
  HInstance : Z;
  HIcon : Z;
  HCursor : Z;
  HbrBackground : Z;
  LpszMenuName : option string;
  LpszClassName : option string;
  HIconSm : Z
}.

Definition set_CbSize (n : Z) (w : WNDCLASSEXW) : WNDCLASSEXW :=
  mkWNDCLASSEXW n (Style w) (LpfnWndProc w) (CbClsExtra w) (CbWndExtra w)
    (HInstance w) (HIcon w) (HCursor w) (HbrBackground w)
    (LpszMenuName w) (LpszClassName w) (HIconSm w).

(** [unsafe.Sizeof(WNDCLASSEXW{})] on a 64-bit target. *)
Definition sizeof_WNDCLASSEXW : Z := 80.

(** Arguments of one [CreateWindowExW] system call. *)
Record CREATESTRUCT := mkCREATE {
  cs_exStyle : Z;
  cs_className : string;
  cs_windowName : string;
  cs_style : Z;
  cs_x : Z; cs_y : Z; cs_width : Z; cs_height : Z;
  cs_parent : Z;
  cs_menu : Z;
  cs_instance : Z;
  cs_param : Z
}.

(** Which procedure the OS calls for a window: the address its class was
    registered with.  The package registers [globalWndProc]
    (CreateMessageOnlyWindow), [dialogGlobalWndProc] (the dialog class)
    and [DefWindowProcW] (CreateCurrentProcessWindow); every other window
    has a procedure inside the OS. *)
Inductive ClassProc : Type :=
| ProcGlobalWndProc
| ProcDialogGlobalWndProc
| ProcNative.

(** ** The operating system

    One constructor per entry point the modelled code calls; the index
    is what the call hands back (its [r1], and what it writes through
    pointer arguments). *)
Inductive syscall : Type → Type :=
| SysDefWindowProcW (hwnd msg wParam lParam : Z) : syscall Z
| SysGetModuleHandleW : syscall Z
| SysGetLastError : syscall Z
| SysRegisterClassExW (wcx : WNDCLASSEXW) : syscall Z
| SysCreateWindowExW (cs : CREATESTRUCT) : syscall Z
| SysGetMessageW (cur : MSG) (hwnd msgFilterMin msgFilterMax : Z) : syscall (Z * MSG)
| SysTranslateMessage (msg : MSG) : syscall Z
| SysWindowProc (hwnd : Z) : syscall ClassProc
| SysNativeWndProc (hwnd msg wParam lParam : Z) : syscall Z
| SysDestroyWindow (hwnd : Z) : syscall Z
| SysIsWindow (hwnd : Z) : syscall Z
| SysGetTickCount : syscall Z
| SysShowWindow (hwnd cmdShow : Z) : syscall Z
| SysSetFocus (hwnd : Z) : syscall Z
| SysPostMessageW (hwnd msg wParam lParam : Z) : syscall Z
| SysGetWindowTextW (hwnd : Z) : syscall (Z * string)
| SysCreateFontW (height width escapement orientation weight
                  italic underline strikeOut charset outPrecision
                  clipPrecision quality pitchAndFamily : Z)
                 (faceName : string) : syscall Z
| SysSendMessageW (hwnd msg wParam lParam : Z) : syscall Z
| SysDpiScale (v : Z) : syscall Z.

(** ** State monad *)

Definition St (S A : Type) : Type := S → A * S.

Global Instance St_ret {S} : MRet (St S) := λ A a s, (a, s).
Global Instance St_bind {S} : MBind (St S) :=
  λ A B f m s, let '(a, s') := m s in f a s'.

Ltac st_unfold := unfold mbind, mret, St_bind, St_ret in *.

(** ** The client-visible world: the handle registry, the clients' own
    variables and the OS *)

Record World (U OS : Type) := mkWorld {
  wndProcByHWND : gmap Z nat;
  heap : U;
  os : OS
}.
Arguments mkWorld {U OS} _ _ _.
Arguments wndProcByHWND {U OS} _.
Arguments heap {U OS} _.
Arguments os {U OS} _.

Section Registry.
Context {U OS : Type}.

(** Behaviour of the OS and of the closures clients register. *)
Variable os_call : ∀ T, syscall T → OS → T * OS.
Variable code : nat → Z → Z → Z → Z → St (World U OS) Z.

Definition sys {T} (c : syscall T) : St (World U OS) T :=
  λ w, let '(r, o) := os_call T c (os w) in
       (r, mkWorld (wndProcByHWND w) (heap w) o).

Definition setWndProc (hwnd : Z) (proc : option nat) : St (World U OS) () :=
  λ w, match proc with
       | None => ((), mkWorld (delete hwnd (wndProcByHWND w)) (heap w) (os w))
       | Some p => ((), mkWorld (<[hwnd := p]> (wndProcByHWND w)) (heap w) (os w))
       end.

Definition deleteWndProc (hwnd : Z) : St (World U OS) () :=
  λ w, ((), mkWorld (delete hwnd (wndProcByHWND w)) (heap w) (os w)).

Definition getWndProc (hwnd : Z) : St (World U OS) (option nat) :=
  λ w, (wndProcByHWND w !! hwnd, w).

Definition DefWindowProcW (hwnd msg wParam lParam : Z) : St (World U OS) Z :=
  sys (SysDefWindowProcW hwnd msg wParam lParam).

Definition globalWndProc (hwnd msg wParam lParam : Z) : St (World U OS) Z :=
  o ← getWndProc hwnd;
  match o with
  | Some proc =>
      ret ← code proc hwnd msg wParam lParam;
      if msg =? WM_NCDESTROY
      then deleteWndProc hwnd;; mret ret
      else mret ret
  | None => DefWindowProcW hwnd msg wParam lParam
  end.

(** [windows.GetLastError]: a zero code is the nil error. *)
Definition GetLastError : St (World U OS) error :=
  r0 ← sys SysGetLastError;
  mret (if r0 =? 0 then None else Some (Errno r0)).

Definition registerClassExW (wcx : option WNDCLASSEXW)
  : St (World U OS) (Z * error) :=
  match wcx with
  | None => mret (0, Some (ErrorString "registerClassExW: nil WNDCLASSEXW"))
  | Some wcx0 =>
      let wcx1 := if CbSize wcx0 =? 0
                  then set_CbSize (uint32 sizeof_WNDCLASSEXW) wcx0
                  else wcx0 in
      r1 ← sys (SysRegisterClassExW wcx1);
      if negb (r1 =? 0) then mret (uint16 r1, None)
      else
        err ← GetLastError;
        match err with
        | Some (Errno errno) =>
            if errno =? ERROR_CLASS_ALREADY_EXISTS
            then mret (1, None)
            else mret (0, err)
        | _ => mret (0, err)
        end
  end.

End Registry.

(** ** Wrappers of window.go over the OS (no Go state involved) *)

Definition uintptr (z : Z) : Z := z mod 2 ^ 64.

(** [syscall.EINVAL], what [windows.UTF16PtrFromString] reports for a
    string with a NUL byte. *)
Definition EINVAL : Err := Errno 536870951.

Fixpoint has_nul (s : string) : bool :=
  match s with
  | EmptyString => false
  | String c s' => if Ascii.eqb c Ascii.zero then true else has_nul s'
  end.

Definition UTF16PtrFromString (s : string) : error :=
  if has_nul s then Some EINVAL else None.

(** [WindowStyle{}.With(bits)] and [WindowExStyle{}.With(bits)]. *)
Definition With (s bits : Z) : Z := Z.lor s bits.

Section Wrappers.
Context {U OS : Type}.
Variable os_call : ∀ T, syscall T → OS → T * OS.

Local Abbreviation W := (World U OS).
Local Abbreviation sys := (sys os_call).
Local Abbreviation GetLastError := (GetLastError os_call).

Definition getModuleHandleCurrentProcess : St W (Z * error) :=
  r1 ← sys SysGetModuleHandleW;
  if r1 =? 0 then err ← GetLastError; mret (0, err)
  else mret (r1, None).

Definition CreateWindowExW (exStyle : Z) (className windowName : string)
    (style x y width height parent menu instance param : Z)
  : St W (Z * error) :=
  match UTF16PtrFromString className with
  | Some e => mret (0, Some e)
  | None =>
    match UTF16PtrFromString windowName with
    | Some e => mret (0, Some e)
    | None =>
        r1 ← sys (SysCreateWindowExW
                    (mkCREATE (uint32 exStyle) className windowName
                       (uint32 style) (uintptr x) (uintptr y)
                       (uintptr width) (uintptr height)
                       parent menu instance param));
        if r1 =? 0 then err ← GetLastError; mret (0, err)
        else mret (r1, None)
    end
  end.

(** Returns the message written through [msg] and the two results. *)
Definition GetMessageW (msg : MSG) (hwnd msgFilterMin msgFilterMax : Z)
  : St W (MSG * (Z * error)) :=
  '(r1, msg') ← sys (SysGetMessageW msg hwnd msgFilterMin msgFilterMax);
  let ret := int32 r1 in
  if ret =? -1 then err ← GetLastError; mret (msg', (ret, err))
  else mret (msg', (ret, None)).

Definition TranslateMessage (msg : MSG) : St W () :=
  sys (SysTranslateMessage msg);; mret ().

(** [UTF16ToString(buf[:r1])] is the text the OS hands back. *)
Definition GetWindowTextW (hwnd : Z) : St W (string * error) :=
  '(r1, text) ← sys (SysGetWindowTextW hwnd);
  if r1 =? 0 then err ← GetLastError; mret (EmptyString, err)
  else mret (text, None).

Definition SetFocus (hwnd : Z) : St W Z := sys (SysSetFocus hwnd).

Definition PostMessageW (hwnd msg wParam lParam : Z) : St W error :=
  r1 ← sys (SysPostMessageW hwnd msg wParam lParam);
  if r1 =? 0 then GetLastError else mret None.

Definition ShowWindowW (hwnd cmdShow : Z) : St W error :=
  r1 ← sys (SysShowWindow hwnd (uintptr cmdShow));
  if r1 =? 0 then GetLastError else mret None.

Definition IsWindowW (hwnd : Z) : St W bool :=
  r1 ← sys (SysIsWindow hwnd);
  mret (negb (r1 =? 0)).

Definition GetTickCount : St W Z :=
  r1 ← sys SysGetTickCount;
  mret (uint32 r1).

(** [int32(float64(v) * GetDPIScaleFactor())]: the DPI queries and the
    floating-point product are the OS's answer [SysDpiScale v]. *)
Definition ScaleX (x : Z) : St W Z := sys (SysDpiScale x).
Definition ScaleY (y : Z) : St W Z := sys (SysDpiScale y).
Definition ScaleSize (size : Z) : St W Z := sys (SysDpiScale size).

Definition CreateFontW (height width escapement orientation weight : Z)
    (italic underline strikeOut : bool)
    (charset outPrecision clipPrecision quality pitchAndFamily : Z)
    (faceName : string) : St W (Z * error) :=
  let italicVal := if italic then 1 else 0 in
  let underlineVal := if underline then 1 else 0 in
  let strikeOutVal := if strikeOut then 1 else 0 in
  r1 ← sys (SysCreateFontW (uintptr height) (uintptr width)
              (uintptr escapement) (uintptr orientation) (uintptr weight)
              italicVal underlineVal strikeOutVal
              charset outPrecision clipPrecision quality pitchAndFamily
              faceName);
  if r1 =? 0 then mret (0, Some (ErrorString "CreateFontW failed"))
  else mret (r1, None).

Definition SetWindowFontW (hwnd hFont : Z) (redraw : bool) : St W () :=
  let redrawVal := if redraw then 1 else 0 in
  sys (SysSendMessageW hwnd WM_SETFONT hFont redrawVal);; mret ().

End Wrappers.

(** ** The dialog side: its own procedure table and the variables of the
    running dialog call *)

(** What [dialogWndProcs] can hold: the function literal of
    [TwoTextInputDialog], which captures the two edit controls by value,
    or some other procedure, named by a reference. *)
Inductive DlgProc : Type :=
| DialogClosure (edit1Hwnd edit2Hwnd : Z)
| ClientClosure (ref : nat).

(** The variables the function literal captures by reference. *)
Record Locals := mkLocals {
  result1 : string;
  result2 : string;
  cancelled : bool;
  done : Z
}.

Record Machine (U OS : Type) := mkMachine {
  world : World U OS;
  dialogWndProcs : gmap Z DlgProc;
  locals : Locals
}.
Arguments mkMachine {U OS} _ _ _.
Arguments world {U OS} _.
Arguments dialogWndProcs {U OS} _.
Arguments locals {U OS} _.

(** Code that can run out of fuel: the two message loops. *)
Definition Partial (S A : Type) : Type := S → option (A * S).

Global Instance Partial_ret {S} : MRet (Partial S) := λ A a s, Some (a, s).
Global Instance Partial_bind {S} : MBind (Partial S) :=
  λ A B f m s, match m s with
               | Some (a, s') => f a s'
               | None => None
               end.

Definition total {S A} (m : St S A) : Partial S A := λ s, Some (m s).

Section Dialog.
Context {U OS : Type}.
Variable os_call : ∀ T, syscall T → OS → T * OS.
Variable code : nat → Z → Z → Z → Z → St (World U OS) Z.

Local Abbreviation M := (Machine U OS).

(** Code of window.go runs on the world inside the machine. *)
Definition inWorld {A} (m : St (World U OS) A) : St M A :=
  λ s, let '(a, w) := m (world s) in
       (a, mkMachine w (dialogWndProcs s) (locals s)).

Definition setDialogWndProc (hwnd : Z) (proc : option DlgProc)
  : St M (option DlgProc) :=
  λ s, let old := dialogWndProcs s !! hwnd in
       match proc with
       | None =>
           (old, mkMachine (world s) (delete hwnd (dialogWndProcs s)) (locals s))
       | Some p =>
           (old, mkMachine (world s) (<[hwnd := p]> (dialogWndProcs s)) (locals s))
       end.

Definition getDialogWndProc (hwnd : Z) : St M (option DlgProc) :=
  λ s, (dialogWndProcs s !! hwnd, s).

Definition set_locals (f : Locals → Locals) : St M () :=
  λ s, ((), mkMachine (world s) (dialogWndProcs s) (f (locals s))).

Definition get_locals : St M Locals := λ s, (locals s, s).

(** *** Procedures the OS calls back

    [DestroyWindow] notifies the procedure of the window it destroys,
    and the dialog's procedure calls [DestroyWindow]: the definitions
    below are written over the [DestroyWindow] a procedure reaches,
    and closed further down. *)
Section Callbacks.
Variable DestroyWindow : Z → St M error.

(** The function literal installed by [TwoTextInputDialog]. *)
Definition TwoTextInputDialog_func (edit1Hwnd edit2Hwnd : Z)
    (hwnd msg wParam lParam : Z) : St M Z :=
  if msg =? WM_COMMAND then
    let id := int32 (Z.land wParam 0xFFFF) in
    if id =? IDOK then
      '(text1, _) ← inWorld (GetWindowTextW os_call edit1Hwnd);
      '(text2, _) ← inWorld (GetWindowTextW os_call edit2Hwnd);
      set_locals (λ l, mkLocals text1 (result2 l) (cancelled l) (done l));;
      set_locals (λ l, mkLocals (result1 l) text2 (cancelled l) (done l));;
      set_locals (λ l, mkLocals (result1 l) (result2 l) (cancelled l) 1);;
      inWorld (PostMessageW os_call hwnd WM_CLOSE 0 0);;
      mret 0
    else if id =? IDCANCEL then
      set_locals (λ l, mkLocals (result1 l) (result2 l) true (done l));;
      set_locals (λ l, mkLocals (result1 l) (result2 l) (cancelled l) 1);;
      inWorld (PostMessageW os_call hwnd WM_CLOSE 0 0);;
      mret 0
    else inWorld (DefWindowProcW os_call hwnd msg wParam lParam)
  else if msg =? WM_CLOSE then
    DestroyWindow hwnd;;
    mret 0
  else if msg =? WM_DESTROY then
    set_locals (λ l, mkLocals (result1 l) (result2 l) (cancelled l) 1);;
    mret 0
  else inWorld (DefWindowProcW os_call hwnd msg wParam lParam).

(** Calling a value of [dialogWndProcs]. *)
Definition call_DlgProc (proc : DlgProc) (hwnd msg wParam lParam : Z)
  : St M Z :=
  match proc with
  | DialogClosure edit1Hwnd edit2Hwnd =>
      TwoTextInputDialog_func edit1Hwnd edit2Hwnd hwnd msg wParam lParam
  | ClientClosure ref => inWorld (code ref hwnd msg wParam lParam)
  end.

Definition dialogGlobalWndProc_ (hwnd msg wParam lParam : Z) : St M Z :=
  o ← getDialogWndProc hwnd;
  match o with
  | Some proc => call_DlgProc proc hwnd msg wParam lParam
  | None => inWorld (DefWindowProcW os_call hwnd msg wParam lParam)
  end.

(** The OS calling the procedure of a window's class. *)
Definition call_ClassProc (cp : ClassProc) (hwnd msg wParam lParam : Z)
  : St M Z :=
  match cp with
  | ProcGlobalWndProc =>
      inWorld (globalWndProc os_call code hwnd msg wParam lParam)
  | ProcDialogGlobalWndProc => dialogGlobalWndProc_ hwnd msg wParam lParam
  | ProcNative =>
      inWorld (sys os_call (SysNativeWndProc hwnd msg wParam lParam))
  end.

(** user32's DestroyWindow: on success the window's procedure has
    received [WM_DESTROY] and then [WM_NCDESTROY] by the time the
    call is back. *)
Definition user32_DestroyWindow_ (hwnd : Z) : St M Z :=
  cp ← inWorld (sys os_call (SysWindowProc hwnd));
  r1 ← inWorld (sys os_call (SysDestroyWindow hwnd));
  if r1 =? 0 then mret r1
  else
    call_ClassProc cp hwnd WM_DESTROY 0 0;;
    call_ClassProc cp hwnd WM_NCDESTROY 0 0;;
    mret r1.

Definition DestroyWindow_ (hwnd : Z) : St M error :=
  r1 ← user32_DestroyWindow_ hwnd;
  if r1 =? 0 then inWorld (GetLastError os_call) else mret None.

(** user32's DispatchMessageW: the procedure of the target window is
    called with the message, and its result handed back. *)
Definition user32_DispatchMessageW_ (msg : MSG) : St M Z :=
  cp ← inWorld (sys os_call (SysWindowProc (HWnd msg)));
  call_ClassProc cp (HWnd msg) (Message msg) (WParam msg) (LParam msg).

End Callbacks.

(** A [DestroyWindow] whose notifications are not delivered: what a
    procedure would reach from inside a destroy notification.  The
    dialog's procedure destroys nothing there ([destroy_notify_closed]
    below), so one level closes the definitions. *)
Definition DestroyWindow_quiet (hwnd : Z) : St M error :=
  r1 ← inWorld (sys os_call (SysDestroyWindow hwnd));
  if r1 =? 0 then inWorld (GetLastError os_call) else mret None.

Definition DestroyWindow : Z → St M error :=
  DestroyWindow_ DestroyWindow_quiet.

Definition dialogGlobalWndProc : Z → Z → Z → Z → St M Z :=
  dialogGlobalWndProc_ DestroyWindow.

Definition DispatchMessageW (msg : MSG) : St M Z :=
  user32_DispatchMessageW_ DestroyWindow msg.

(** *** MessageLoop *)

Fixpoint MessageLoop_from (fuel : nat) (msg : MSG) : Partial M (Z * error) :=
  match fuel with
  | O => λ _, None
  | S fuel' =>
      '(msg', (ret, err)) ← total (inWorld (GetMessageW os_call msg 0 0 0));
      if ret =? -1 then mret (0, err)
      else if ret =? 0 then mret (int32 (WParam msg'), None)
      else
        total (inWorld (TranslateMessage os_call msg'));;
        total (DispatchMessageW msg');;
        MessageLoop_from fuel' msg'
  end.

Definition MessageLoop (fuel : nat) : Partial M (Z * error) :=
  MessageLoop_from fuel MSG_zero.

(** *** TwoTextInputDialog *)

Definition timeoutMs : Z := 30000.

(** The modal loop, [for atomic.LoadInt32(&done) == 0 { ... }]. *)
Fixpoint modal_loop (fuel : nat) (startTick : Z) : Partial M () :=
  match fuel with
  | O => λ _, None
  | S fuel' =>
      l ← total get_locals;
      if negb (done l =? 0) then mret ()
      else
        now ← total (inWorld (GetTickCount os_call));
        let elapsed := uint32 (now - startTick) in
        if timeoutMs <? elapsed then mret ()
        else
          '(msg, (ret, _)) ← total (inWorld (GetMessageW os_call MSG_zero 0 0 0));
          if ret =? 0 then mret ()
          else if ret =? -1 then mret ()
          else
            total (inWorld (TranslateMessage os_call msg));;
            total (DispatchMessageW msg);;
            modal_loop fuel' startTick
  end.

Definition TwoTextInputDialog (fuel : nat)
    (title label1 label2 defaultValue1 defaultValue2 : string)
  : Partial M (string * string * bool * error) :=
  '(hInstance, err) ← total (inWorld (getModuleHandleCurrentProcess os_call));
  match err with
  | Some e =>
      mret (EmptyString, EmptyString, false,
            Some (Wrapped "failed to get module handle" e))
  | None =>
  dialogWidth ← total (inWorld (ScaleSize os_call 380));
  dialogHeight ← total (inWorld (ScaleSize os_call 260));
  x ← total (inWorld (ScaleX os_call 100));
  y ← total (inWorld (ScaleY os_call 100));
  '(dialogHWnd, err) ← total (inWorld (CreateWindowExW os_call
      (With 0 (Z.lor WS_EX_DLGMODALFRAME WS_EX_TOPMOST))
      "dialog_input" title
      (With 0 (Z.lor (Z.lor WS_OVERLAPPED WS_SYSMENU) WS_CAPTION))
      x y dialogWidth dialogHeight 0 0 hInstance 0));
  match err with
  | Some e =>
      mret (EmptyString, EmptyString, false,
            Some (Wrapped "failed to create dialog" e))
  | None =>
  x ← total (inWorld (ScaleX os_call 10));
  y ← total (inWorld (ScaleY os_call 10));
  w ← total (inWorld (ScaleX os_call 100));
  h ← total (inWorld (ScaleY os_call 20));
  '(label1Hwnd, _) ← total (inWorld (CreateWindowExW os_call
      0 "STATIC" label1 (With 0 (Z.lor WS_VISIBLE WS_CHILD))
      x y w h dialogHWnd 0 hInstance 0));
  x ← total (inWorld (ScaleX os_call 120));
  y ← total (inWorld (ScaleY os_call 10));
  w ← total (inWorld (ScaleX os_call 245));
  h ← total (inWorld (ScaleY os_call 26));
  '(edit1Hwnd, _) ← total (inWorld (CreateWindowExW os_call
      (With 0 WS_EX_CLIENTEDGE) "EDIT" defaultValue1
      (With 0 (Z.lor (Z.lor WS_VISIBLE WS_CHILD) WS_TABSTOP))
      x y w h dialogHWnd 1001 hInstance 0));
  x ← total (inWorld (ScaleX os_call 10));
  y ← total (inWorld (ScaleY os_call 50));
  w ← total (inWorld (ScaleX os_call 100));
  h ← total (inWorld (ScaleY os_call 20));
  '(label2Hwnd, _) ← total (inWorld (CreateWindowExW os_call
      0 "STATIC" label2 (With 0 (Z.lor WS_VISIBLE WS_CHILD))
      x y w h dialogHWnd 0 hInstance 0));
  x ← total (inWorld (ScaleX os_call 120));
  y ← total (inWorld (ScaleY os_call 50));
  w ← total (inWorld (ScaleX os_call 245));
  h ← total (inWorld (ScaleY os_call 26));
  '(edit2Hwnd, _) ← total (inWorld (CreateWindowExW os_call
      (With 0 WS_EX_CLIENTEDGE) "EDIT" defaultValue2
      (With 0 (Z.lor (Z.lor WS_VISIBLE WS_CHILD) WS_TABSTOP))
      x y w h dialogHWnd 1002 hInstance 0));
  x ← total (inWorld (ScaleX os_call 120));
  y ← total (inWorld (ScaleY os_call 110));
  w ← total (inWorld (ScaleX os_call 110));
  h ← total (inWorld (ScaleY os_call 30));
  '(okHwnd, _) ← total (inWorld (CreateWindowExW os_call
      0 "BUTTON" "OK" (With 0 (Z.lor WS_VISIBLE WS_CHILD))
      x y w h dialogHWnd IDOK hInstance 0));
  x ← total (inWorld (ScaleX os_call 240));
  y ← total (inWorld (ScaleY os_call 110));
  w ← total (inWorld (ScaleX os_call 110));
  h ← total (inWorld (ScaleY os_call 30));
  '(cancelHwnd, _) ← total (inWorld (CreateWindowExW os_call
      0 "BUTTON" "Cancel" (With 0 (Z.lor WS_VISIBLE WS_CHILD))
      x y w h dialogHWnd IDCANCEL hInstance 0));
  fontHeight ← total (inWorld (ScaleSize os_call (-14)));
  '(uiFont, fontErr) ← total (inWorld (CreateFontW os_call
      fontHeight 0 0 0 FW_NORMAL false false false
      DEFAULT_CHARSET OUT_DEFAULT_PRECIS CLIP_DEFAULT_PRECIS
      PROOF_QUALITY FF_DONTCARE "Segoe UI"));
  (if bool_decide (fontErr = None) && negb (uiFont =? 0) then
     total (inWorld (SetWindowFontW os_call label1Hwnd uiFont false));;
     total (inWorld (SetWindowFontW os_call edit1Hwnd uiFont false));;
     total (inWorld (SetWindowFontW os_call label2Hwnd uiFont false));;
     total (inWorld (SetWindowFontW os_call edit2Hwnd uiFont false));;
     total (inWorld (SetWindowFontW os_call okHwnd uiFont false));;
     total (inWorld (SetWindowFontW os_call cancelHwnd uiFont false))
   else mret () : Partial M ());;
  total (set_locals (λ _, mkLocals EmptyString EmptyString false 0));;
  oldProc ← total (setDialogWndProc dialogHWnd
                     (Some (DialogClosure edit1Hwnd edit2Hwnd)));
  total (inWorld (ShowWindowW os_call dialogHWnd 5));;
  total (inWorld (SetFocus os_call okHwnd));;
  startTick ← total (inWorld (GetTickCount os_call));
  modal_loop fuel startTick;;
  alive ← total (inWorld (IsWindowW os_call dialogHWnd));
  (if (alive : bool) then total (DestroyWindow dialogHWnd);; mret ()
   else mret () : Partial M ());;
  total (setDialogWndProc dialogHWnd None);;
  l ← total get_locals;
  (* the deferred call *)
  total (setDialogWndProc dialogHWnd oldProc);;
  mret (result1 l, result2 l, cancelled l, None)
  end
  end.

End Dialog.

(** ** A scripted OS, for running the code on concrete inputs *)

Record Desk := mkDesk {
  d_lasterr : Z;              (* what GetLastError reports *)
  d_module : Z;               (* what GetModuleHandleW returns *)
  d_atom : Z;                 (* what RegisterClassExW returns *)
  d_created : list Z;         (* results of the coming CreateWindowExW calls *)
  d_ticks : list Z;           (* the coming GetTickCount readings *)
  d_queue : list (Z * MSG);   (* the coming GetMessageW results *)
  d_dialogs : list Z;         (* windows whose class procedure is dialogGlobalWndProc *)
  d_trampolined : list Z;     (* windows whose class procedure is globalWndProc *)
  d_alive : list Z;           (* windows that exist *)
  d_texts : list (Z * string) (* text of the edit controls *)
}.

Definition mem (h : Z) (l : list Z) : bool := existsb (Z.eqb h) l.

Fixpoint text_of (h : Z) (l : list (Z * string)) : string :=
  match l with
  | [] => EmptyString
  | (k, t) :: l' => if k =? h then t else text_of h l'
  end.

Definition desk_call (T : Type) (c : syscall T) : Desk → T * Desk :=
  match c in syscall T return Desk → T * Desk with
  | SysDefWindowProcW _ _ _ _ => λ d, (0, d)
  | SysGetModuleHandleW => λ d, (d_module d, d)
  | SysGetLastError => λ d, (d_lasterr d, d)
  | SysRegisterClassExW _ => λ d, (d_atom d, d)
  | SysCreateWindowExW _ => λ d,
      match d_created d with
      | h :: rest =>
          (h, mkDesk (d_lasterr d) (d_module d) (d_atom d) rest (d_ticks d)
                (d_queue d) (d_dialogs d) (d_trampolined d)
                (if h =? 0 then d_alive d else h :: d_alive d) (d_texts d))
      | [] => (0, d)
      end
  | SysGetMessageW cur _ _ _ => λ d,
      match d_queue d with
      | r :: rest =>
          (r, mkDesk (d_lasterr d) (d_module d) (d_atom d) (d_created d)
                (d_ticks d) rest (d_dialogs d) (d_trampolined d)
                (d_alive d) (d_texts d))
      | [] => ((2 ^ 64 - 1, cur), d)
      end
  | SysTranslateMessage _ => λ d, (0, d)
  | SysWindowProc h => λ d,
      (if mem h (d_dialogs d) then ProcDialogGlobalWndProc
       else if mem h (d_trampolined d) then ProcGlobalWndProc
       else ProcNative, d)
  | SysNativeWndProc _ _ _ _ => λ d, (0, d)
  | SysDestroyWindow h => λ d,
      if mem h (d_alive d)
      then (1, mkDesk (d_lasterr d) (d_module d) (d_atom d) (d_created d)
                 (d_ticks d) (d_queue d) (d_dialogs d) (d_trampolined d)
                 (filter (λ k, k ≠ h) (d_alive d)) (d_texts d))
      else (0, d)
  | SysIsWindow h => λ d, (if mem h (d_alive d) then 1 else 0, d)
  | SysGetTickCount => λ d,
      match d_ticks d with
      | t :: rest =>
          (t, mkDesk (d_lasterr d) (d_module d) (d_atom d) (d_created d)
                rest (d_queue d) (d_dialogs d) (d_trampolined d)
                (d_alive d) (d_texts d))
      | [] => (0, d)
      end
  | SysShowWindow _ _ => λ d, (0, d)
  | SysSetFocus _ => λ d, (0, d)
  | SysPostMessageW h msg wParam lParam => λ d,
      (1, mkDesk (d_lasterr d) (d_module d) (d_atom d) (d_created d)
            (d_ticks d)
            (d_queue d ++ [(1, mkMSG h msg wParam lParam 0 (mkPOINT 0 0) 0)])
            (d_dialogs d) (d_trampolined d) (d_alive d) (d_texts d))
  | SysGetWindowTextW h => λ d,
      (Z.of_nat (String.length (text_of h (d_texts d))), text_of h (d_texts d), d)
  | SysCreateFontW _ _ _ _ _ _ _ _ _ _ _ _ _ _ => λ d, (0x0F0A, d)
  | SysSendMessageW _ _ _ _ => λ d, (0, d)
  | SysDpiScale v => λ d, (v, d)
  end.

(** The procedure of TestGlobalWndProcDispatchAndCleanup: it counts its
    calls in [called] and answers 99 to message 0x0400. *)
Record TestVars := mkTestVars { called : Z; fatal : bool }.

Definition test_hwnd : Z := 0x1234.

Definition test_code (ref : nat) (h msg wParam lParam : Z)
  : St (World TestVars Desk) Z :=
  λ w, let w1 := mkWorld (wndProcByHWND w)
                   (mkTestVars (called (heap w) + 1) (fatal (heap w))) (os w) in
       if negb (h =? test_hwnd)
       then (0, mkWorld (wndProcByHWND w1)
                  (mkTestVars (called (heap w1)) true) (os w1))
       else if msg =? 0x0400 then (99, w1)
       else (0, w1).

Definition desk0 : Desk := mkDesk 0 0x400000 0xC001 [] [] [] [] [] [] [].

(** The test's state after its [setWndProc(hwnd, ...)]. *)
Definition test_world : World TestVars Desk :=
  (setWndProc test_hwnd (Some 0%nat) (mkWorld ∅ (mkTestVars 0 false) desk0)).2.

Definition msg_to (h msg wParam : Z) : MSG :=
  mkMSG h msg wParam 0 0 (mkPOINT 0 0) 0.

(** A desk on which the dialog window 0x5000 and its six controls are
    created, the edit controls hold the two texts, the clock reads
    [ticks] and the queue delivers [queue]. *)
Definition dialog_desk (ticks : list Z) (queue : list (Z * MSG)) : Desk :=
  mkDesk 0 0x400000 0xC001
    [0x5000; 0x5001; 0x5002; 0x5003; 0x5004; 0x5005; 0x5006]
    ticks queue [0x5000] [] []
    [(0x5002, "alice"); (0x5004, "secret")].

Definition dialog_machine (d : Desk) (tbl : gmap Z DlgProc)
  : Machine TestVars Desk :=
  mkMachine (mkWorld ∅ (mkTestVars 0 false) d) tbl
    (mkLocals EmptyString EmptyString false 0).

Definition wcx_test : WNDCLASSEXW :=
  mkWNDCLASSEXW 0 0 0 0 0 0x400000 0 0 0 None (Some "win32utils.MessageOnlyWindow") 0.

Definition world_err (code : Z) : World TestVars Desk :=
  mkWorld ∅ (mkTestVars 0 false) (mkDesk code 0x400000 0 [] [] [] [] [] [] []).

(** The dialog window is created, every control is refused with error
    1400, and nothing arrives for more than 30 seconds. *)
Definition controls_refused_desk : Desk :=
  mkDesk 1400 0x400000 0xC001 [0x5000] [1000; 31001] [] [0x5000] [] [] [].

(** The dialog window itself is refused with error 1407. *)
Definition window_refused_desk : Desk :=
  mkDesk 1407 0x400000 0xC001 [] [] [] [] [] [] [].

(** [TwoTextInputDialog("t", "a", "b", "x", "y")] on a desk. *)
Definition run_dialog (fuel : nat) (d : Desk) (tbl : gmap Z DlgProc)
  : option (string * string * bool * error * Machine TestVars Desk) :=
  TwoTextInputDialog desk_call test_code fuel "t" "a" "b" "x" "y"
    (dialog_machine d tbl).

(** A desk with the test's trampolined window and a queue. *)
Definition loop_machine (lasterr : Z) (queue : list (Z * MSG))
  : Machine TestVars Desk :=
  mkMachine
    (mkWorld (wndProcByHWND test_world) (mkTestVars 0 false)
       (mkDesk lasterr 0x400000 0xC001 [] [] queue [] [test_hwnd]
          [test_hwnd] []))
    ∅ (mkLocals EmptyString EmptyString false 0).

(** ** Notions the statements use *)

Section Notions.
Context {U OS : Type}.
Variable os_call : ∀ T, syscall T → OS → T * OS.
Variable code : nat → Z → Z → Z → Z → St (World U OS) Z.

(** [pumps k msg s msg' s']: from [s], with [msg] in the loop's
    variable, [k] rounds each retrieve a message that is neither the
    quit sentinel nor an error, translate it and dispatch it, and
    leave [msg'] and [s']. *)
Inductive pumps : nat → MSG → Machine U OS → MSG → Machine U OS → Prop :=
| pumps_O msg s : pumps O msg s msg s
| pumps_S k msg s msg1 ret err s1 msg' s' :
    inWorld (GetMessageW os_call msg 0 0 0) s = ((msg1, (ret, err)), s1) →
    ret ≠ -1 →
    ret ≠ 0 →
    pumps k msg1
      (DispatchMessageW os_call code msg1
         (inWorld (TranslateMessage os_call msg1) s1).2).2
      msg' s' →
    pumps (S k) msg s msg' s'.

(** The machine with the OS in state [o]. *)
Definition set_os (o : OS) (s : Machine U OS) : Machine U OS :=
  mkMachine (mkWorld (wndProcByHWND (world s)) (heap (world s)) o)
    (dialogWndProcs s) (locals s).

(** [loop_rounds k msg s msg' s']: the same [k] rounds in terms of the
    calls made to the OS.  In each round the system call GetMessageW,
    given the loop's variable and three zeros, hands back [r1] with
    [int32 r1] neither -1 nor 0 and writes [msg1]; the system call
    TranslateMessage is made on [msg1]; and [msg1] is dispatched. *)
Inductive loop_rounds
  : nat → MSG → Machine U OS → MSG → Machine U OS → Prop :=
| loop_rounds_O msg s : loop_rounds O msg s msg s
| loop_rounds_S k msg s r1 msg1 o1 r2 o2 msg' s' :
    os_call (Z * MSG)%type (SysGetMessageW msg 0 0 0) (os (world s))
    = ((r1, msg1), o1) →
    int32 r1 ≠ -1 →
    int32 r1 ≠ 0 →
    os_call Z (SysTranslateMessage msg1) o1 = (r2, o2) →
    loop_rounds k msg1 (DispatchMessageW os_call code msg1 (set_os o2 s)).2
      msg' s' →
    loop_rounds (S k) msg s msg' s'.

(** The first steps of [TwoTextInputDialog], up to the creation of
    the dialog window: the module handle with its error, then (when
    that succeeded) the window handle with its error. *)
Definition open_dialog_window (title : string)
  : St (Machine U OS) (Z * error * option (Z * error)) :=
  '(hInstance, err) ← inWorld (getModuleHandleCurrentProcess os_call);
  match err with
  | Some e => mret (hInstance, err, None)
  | None =>
      dialogWidth ← inWorld (ScaleSize os_call 380);
      dialogHeight ← inWorld (ScaleSize os_call 260);
      x ← inWorld (ScaleX os_call 100);
      y ← inWorld (ScaleY os_call 100);
      r ← inWorld (CreateWindowExW os_call
             (With 0 (Z.lor WS_EX_DLGMODALFRAME WS_EX_TOPMOST))
             "dialog_input" title
             (With 0 (Z.lor (Z.lor WS_OVERLAPPED WS_SYSMENU) WS_CAPTION))
             x y dialogWidth dialogHeight 0 0 hInstance 0);
      mret (hInstance, err, Some r)
  end.

(** [modal_rounds k startTick s s']: [k] full rounds of the modal loop
    lead from [s] to [s']; in each, the dialog is not done, the deadline
    has not passed, and the message retrieved is neither the quit
    sentinel nor an error, so it is translated and dispatched. *)
Inductive modal_rounds (startTick : Z)
  : nat → Machine U OS → Machine U OS → Prop :=
| modal_rounds_O s : modal_rounds startTick O s s
| modal_rounds_S k s now s1 msg ret err s2 s' :
    done (locals s) = 0 →
    inWorld (GetTickCount os_call) s = (now, s1) →
    uint32 (now - startTick) ≤ timeoutMs →
    inWorld (GetMessageW os_call MSG_zero 0 0 0) s1 = ((msg, (ret, err)), s2) →
    ret ≠ 0 →
    ret ≠ -1 →
    modal_rounds startTick k
      (DispatchMessageW os_call code msg
         (inWorld (TranslateMessage os_call msg) s2).2).2 s' →
    modal_rounds startTick (S k) s s'.

(** The ways out of the modal loop. *)
Inductive ModalExit : Type :=
| ExitDone            (* the procedure set [done]: accept, cancel, destroy *)
| ExitTimeout
| ExitQuit
| ExitRetrievalError.

(** [modal_exit startTick s s' why]: from [s] the loop condition or the
    round's checks end the loop, leaving [s']. *)
Inductive modal_exit (startTick : Z)
  : Machine U OS → Machine U OS → ModalExit → Prop :=
| modal_exit_done s :
    done (locals s) ≠ 0 →
    modal_exit startTick s s ExitDone
| modal_exit_timeout s now s1 :
    done (locals s) = 0 →
    inWorld (GetTickCount os_call) s = (now, s1) →
    timeoutMs < uint32 (now - startTick) →
    modal_exit startTick s s1 ExitTimeout
| modal_exit_retrieval s now s1 msg ret err s2 :
    done (locals s) = 0 →
    inWorld (GetTickCount os_call) s = (now, s1) →
    uint32 (now - startTick) ≤ timeoutMs →
    inWorld (GetMessageW os_call MSG_zero 0 0 0) s1 = ((msg, (ret, err)), s2) →
    ret = 0 ∨ ret = -1 →
    modal_exit startTick s s2 (if ret =? 0 then ExitQuit else ExitRetrievalError).

(** [m] leaves the dialog table as it found it. *)
Definition keeps_tbl {A} (m : St (Machine U OS) A) : Prop :=
  ∀ s, dialogWndProcs (m s).2 = dialogWndProcs s.

(** From a dialog table satisfying [R], every result [a] of [m] comes
    with a table satisfying [Q a]. *)
Definition tbl_triple {A} (R : gmap Z DlgProc → Prop)
    (m : Partial (Machine U OS) A) (Q : A → gmap Z DlgProc → Prop) : Prop :=
  ∀ s a s', R (dialogWndProcs s) → m s = Some (a, s') → Q a (dialogWndProcs s').

(** Every result of [m] satisfies [P]. *)
Definition returns {A} (P : A → Prop) (m : Partial (Machine U OS) A) : Prop :=
  ∀ s a s', m s = Some (a, s') → P a.

(** [m] returns from every state. *)
Definition always_returns {A} (m : Partial (Machine U OS) A) : Prop :=
  ∀ s, m s ≠ None.

(** From [s], either [m] returns whatever the fuel, or it has reached
    the modal loop, with [startTick] and state [s0], and returns with
    exactly the fuel with which that loop returns. *)
Definition loops_or_returns {A} (m : nat → Partial (Machine U OS) A)
    (s : Machine U OS) : Prop :=
  (∀ fuel, m fuel s ≠ None)
  ∨ ∃ startTick s0, ∀ fuel,
      m fuel s = None ↔ modal_loop os_call code fuel startTick s0 = None.

(** For the frame of the main registry over a whole dialog call:
    [calm] is a condition on the OS under which no window of the thread
    has [globalWndProc] as its class procedure. *)

(** [m] keeps the OS calm and the registry as it is. *)
Definition stays (calm : OS → Prop) {A} (m : St (World U OS) A) : Prop :=
  ∀ w, calm (os w) →
       calm (os (m w).2) ∧ wndProcByHWND (m w).2 = wndProcByHWND w.

(** The dialog table holds no client closure. *)
Definition no_client (T : gmap Z DlgProc) : Prop :=
  ∀ h ref, T !! h ≠ Some (ClientClosure ref).

(** The OS is calm, the registry is [reg], the table has no client
    closure. *)
Definition settled (calm : OS → Prop) (reg : gmap Z nat) (s : Machine U OS)
  : Prop :=
  calm (os (world s))
  ∧ wndProcByHWND (world s) = reg
  ∧ no_client (dialogWndProcs s).

(** A step keeps the machine settled. *)
Definition steady (calm : OS → Prop) (reg : gmap Z nat) {A}
    (m : St (Machine U OS) A) : Prop :=
  ∀ s, settled calm reg s → settled calm reg (m s).2.

(** From a settled machine, every result of [m] comes with a settled
    machine and satisfies [P]. *)
Definition holds (calm : OS → Prop) (reg : gmap Z nat) {A}
    (m : Partial (Machine U OS) A) (P : A → Prop) : Prop :=
  ∀ s a s', settled calm reg s → m s = Some (a, s') →
            settled calm reg s' ∧ P a.

(** A step of window.go keeps the property [I] of the world. *)
Definition keeps_inv (I : World U OS → Prop) {A} (m : St (World U OS) A)
  : Prop :=
  ∀ w, I w → I (m w).2.




End Notions.

(** A desk without trampolined windows. *)
Definition no_trampolined (d : Desk) : Prop := d_trampolined d = [].


(** * Further code of the package

    The rest of window.go, the menu and tray-icon callers of the
    dispatch core, and [ShellNotifyIconW]. *)

(** ** Window styles

    [WindowStyle] and [WindowExStyle] have the same three methods over
    a [uint32] of flag bits. *)

(** [s.Bits &^ bits] *)
Definition Without (s bits : Z) : Z := Z.ldiff s bits.

(** [s.Bits&bits == bits] *)
Definition Has (s bits : Z) : bool := Z.land s bits =? bits.

Definition WS_BORDER : Z := 0x00800000.
Definition WS_DLGFRAME : Z := 0x00400000.
Definition WS_EX_TOOLWINDOW : Z := 0x00000080.

(** ** Creating a window with a procedure *)

(** [HWND_MESSAGE], [^uintptr(2)]. *)
Definition HWND_MESSAGE : Z := 2 ^ 64 - 3.

Definition isEmpty (s : string) : bool :=
  match s with
  | EmptyString => true
  | String _ _ => false
  end.

(** A step that leaves the registry as it was. *)
Definition keeps_registry {U OS A} (m : St (World U OS) A) : Prop :=
  ∀ w, wndProcByHWND (m w).2 = wndProcByHWND w.

Section MessageWindow.
Context {U OS : Type}.
Variable os_call : ∀ T, syscall T → OS → T * OS.

(** The address [ensureGlobalWndProc] hands out: [syscall.NewCallback]
    of [globalWndProc], made once and kept. *)
Variable globalWndProcPtr : Z.

Definition CreateMessageOnlyWindow (className windowName : string)
    (proc : option nat) : St (World U OS) (Z * error) :=
  if isEmpty className then
    mret (0, Some (ErrorString "CreateMessageOnlyWindow: className is empty"))
  else
    '(hInstance, err) ← getModuleHandleCurrentProcess os_call;
    match err with
    | Some _ => mret (0, err)
    | None =>
    match UTF16PtrFromString className with
    | Some e => mret (0, Some e)
    | None =>
    '(_, err) ← registerClassExW os_call
        (Some (mkWNDCLASSEXW (uint32 sizeof_WNDCLASSEXW) 0 globalWndProcPtr
                 0 0 hInstance 0 0 0 None (Some className) 0));
    match err with
    | Some _ => mret (0, err)
    | None =>
    '(hwnd, err) ← CreateWindowExW os_call 0 className windowName 0
        0 0 0 0 HWND_MESSAGE 0 hInstance 0;
    match err with
    | Some _ => mret (0, err)
    | None =>
        (match proc with
         | Some _ => setWndProc hwnd proc
         | None => mret ()
         end);;
        mret (hwnd, None)
    end
    end
    end
    end.

End MessageWindow.

(** ** Further entry points of the OS

    Menus, the cursor, the quit message and the shell's notification
    area; same OS state as [syscall]. *)

Record NOTIFYICONDATAW := mkNOTIFYICONDATAW {
  nid_CbSize : Z;
  nid_HWnd : Z;
  nid_UID : Z;
  nid_UFlags : Z;
  nid_UCallbackMessage : Z;
  nid_HIcon : Z;
  nid_SzTip : list Z;            (* [128]uint16 *)
  nid_DwState : Z;
  nid_DwStateMask : Z;
  nid_SzInfo : list Z;           (* [256]uint16 *)
  nid_TimeoutOrVersion : Z;
  nid_SzInfoTitle : list Z;      (* [64]uint16 *)
  nid_DwInfoFlags : Z;
  nid_GUIDItem : Z;
  nid_HBalloonIcon : Z
}.

Definition set_nid_CbSize (n : Z) (d : NOTIFYICONDATAW) : NOTIFYICONDATAW :=
  mkNOTIFYICONDATAW n (nid_HWnd d) (nid_UID d) (nid_UFlags d)
    (nid_UCallbackMessage d) (nid_HIcon d) (nid_SzTip d) (nid_DwState d)
    (nid_DwStateMask d) (nid_SzInfo d) (nid_TimeoutOrVersion d)
    (nid_SzInfoTitle d) (nid_DwInfoFlags d) (nid_GUIDItem d)
    (nid_HBalloonIcon d).

(** [unsafe.Sizeof(NOTIFYICONDATAW{})] on a 64-bit target. *)
Definition sizeof_NOTIFYICONDATAW : Z := 976.

Definition NIM_ADD : Z := 0x00000000.
Definition NIM_MODIFY : Z := 0x00000001.
Definition NIM_DELETE : Z := 0x00000002.
Definition NIF_MESSAGE : Z := 0x00000001.
Definition NIF_ICON : Z := 0x00000002.
Definition NIF_TIP : Z := 0x00000004.

(** [windows.ERROR_SUCCESS], a [syscall.Errno]. *)
Definition ERROR_SUCCESS : Z := 0.

Inductive syscall_more : Type → Type :=
| SysCreatePopupMenu : syscall_more Z
| SysAppendMenuW (hMenu flags id : Z) (label : string) : syscall_more Z
| SysTrackPopupMenuEx (hMenu flags x y hwnd : Z) : syscall_more Z
| SysDestroyMenu (hMenu : Z) : syscall_more Z
| SysGetCursorPos : syscall_more (Z * POINT)
| SysPostQuitMessage (exitCode : Z) : syscall_more Z
| SysShellNotifyIconW (dwMessage : Z) (lpData : option NOTIFYICONDATAW)
    : syscall_more Z.

Definition MFT_STRING : Z := 0x00000000.
Definition MF_ENABLED : Z := 0x00000000.
Definition MFT_SEPARATOR : Z := 0x00000800.
Definition TPM_RIGHTALIGN : Z := 0x0008.
Definition TPM_TOPALIGN : Z := 0x0000.
Definition TPM_RETURNCMD : Z := 0x0100.
Definition WM_RBUTTONDOWN : Z := 0x0204.

Section MoreWrappers.
Context {U OS : Type}.
Variable os_call : ∀ T, syscall T → OS → T * OS.
Variable os_more : ∀ T, syscall_more T → OS → T * OS.

Definition sys_more {T} (c : syscall_more T) : St (World U OS) T :=
  λ w, let '(r, o) := os_more T c (os w) in
       (r, mkWorld (wndProcByHWND w) (heap w) o).

Definition PostQuitMessage (exitCode : Z) : St (World U OS) () :=
  sys_more (SysPostQuitMessage (uintptr exitCode));; mret ().

Definition CreatePopupMenu : St (World U OS) (Z * error) :=
  r1 ← sys_more SysCreatePopupMenu;
  if r1 =? 0 then err ← GetLastError os_call; mret (0, err)
  else mret (r1, None).

Definition AppendMenuW (hMenu flags id : Z) (label : string)
  : St (World U OS) error :=
  match UTF16PtrFromString label with
  | Some e => mret (Some e)
  | None =>
      r1 ← sys_more (SysAppendMenuW hMenu flags id label);
      if r1 =? 0 then GetLastError os_call else mret None
  end.

Definition TrackPopupMenuEx (hMenu flags x y hwnd : Z)
  : St (World U OS) (Z * error) :=
  r1 ← sys_more (SysTrackPopupMenuEx hMenu flags (uintptr x) (uintptr y) hwnd);
  mret (int32 r1, None).

Definition DestroyMenu (hMenu : Z) : St (World U OS) error :=
  r1 ← sys_more (SysDestroyMenu hMenu);
  if r1 =? 0 then GetLastError os_call else mret None.

(** [if lpData != nil && lpData.CbSize == 0 { lpData.CbSize = ... }] *)
Definition fill_CbSize (lpData : option NOTIFYICONDATAW)
  : option NOTIFYICONDATAW :=
  match lpData with
  | Some d =>
      if nid_CbSize d =? 0
      then Some (set_nid_CbSize (uint32 sizeof_NOTIFYICONDATAW) d)
      else Some d
  | None => None
  end.

(** [err != windows.ERROR_SUCCESS] for an [err] of type [error]: the
    two are equal when [err] holds the [syscall.Errno] 0; the nil
    error is different from it. *)
Definition ne_ERROR_SUCCESS (err : error) : bool :=
  match err with
  | Some (Errno e) => negb (e =? ERROR_SUCCESS)
  | _ => true
  end.

(** Returns the structure behind [lpData] after the call, and the
    error. *)
Definition ShellNotifyIconW (dwMessage : Z) (lpData : option NOTIFYICONDATAW)
  : St (World U OS) (option NOTIFYICONDATAW * error) :=
  let lpData := fill_CbSize lpData in
  r1 ← sys_more (SysShellNotifyIconW (uintptr dwMessage) lpData);
  if negb (r1 =? 0) then mret (lpData, None)
  else
    err ← GetLastError os_call;
    if ne_ERROR_SUCCESS err then mret (lpData, err)
    else mret (lpData, Some (ErrorString "ShellNotifyIconW failed")).

(** The function literal of [CreateWindowInstance]. *)
Definition CreateWindowInstance_func (hwnd msg wParam lParam : Z)
  : St (World U OS) Z :=
  if msg =? WM_DESTROY then PostQuitMessage 0;; mret 0
  else DefWindowProcW os_call hwnd msg wParam lParam.

(** [proc] is the reference of the function literal. *)
Definition CreateWindowInstance (globalWndProcPtr : Z) (proc : nat)
  : St (World U OS) (Z * error) :=
  CreateMessageOnlyWindow os_call globalWndProcPtr
    "win32utils.MessageOnlyWindow" "win32utils" (Some proc).

End MoreWrappers.

(** ** Popup menus and tray icons

    [PopupMenu] and [TrayIcon] values are reached through pointers,
    by the package and by the client alike: they live in two stores,
    beside the client's own variables.  A pointer outside its store
    does not occur; the zero value stands for what it would read.
    System calls are taken to return without running code of the
    program, as for [syscall]. *)

Record PopupMenu := mkPopupMenu {
  hMenu : Z;
  items : option (gmap Z nat);   (* nil after [Destroy] *)
  nextID : Z
}.

Record TrayIcon := mkTrayIcon {
  ti_hwnd : Z;
  ti_uid : Z;
  ti_callback : option nat;
  ti_msgID : Z;
  ti_menu : option nat           (* *PopupMenu *)
}.

Record TrayHeap (V : Type) := mkTrayHeap {
  menus : gmap nat PopupMenu;
  trays : gmap nat TrayIcon;
  vars : V
}.
Arguments mkTrayHeap {V} _ _ _.
Arguments menus {V} _.
Arguments trays {V} _.
Arguments vars {V} _.

Definition PopupMenu_zero : PopupMenu := mkPopupMenu 0 None 0.
Definition TrayIcon_zero : TrayIcon := mkTrayIcon 0 0 None 0 None.

Definition NOTIFYICONDATAW_zero : NOTIFYICONDATAW :=
  mkNOTIFYICONDATAW 0 0 0 0 0 0 (replicate 128 0) 0 0 (replicate 256 0) 0
    (replicate 64 0) 0 0 0.

(** [config.MenuItems] of trayapp.go. *)
Record TrayMenuItem := mkTrayMenuItem {
  Label : string;
  OnClick : option nat;
  IsSeparator : bool;
  Icon : string
}.

Section Tray.
Context {V OS : Type}.
Variable os_call : ∀ T, syscall T → OS → T * OS.
Variable os_more : ∀ T, syscall_more T → OS → T * OS.
Variable globalWndProcPtr : Z.

Local Abbreviation W := (World (TrayHeap V) OS).

(** Calling a [MenuItemCallback] and a [TrayIconCallback] of the
    client. *)
Variable item_code : nat → Z → St W ().
Variable tray_code : nat → Z → St W ().

(** The reference of the function literal of [NewTrayIcon] closed
    over the tray icon at [ti], and of the one of [buildMenu] and
    [AddMenuItem] closed over [onClick]. *)
Variable tray_proc : nat → nat.
Variable onClick_func : option nat → nat.

(** [windows.UTF16FromString]: the UTF-16 units of a string and the
    terminating NUL, or an error. *)
Variable UTF16FromString : string → option (list Z).

Definition load_menu (m : nat) : St W PopupMenu :=
  λ w, (default PopupMenu_zero (menus (heap w) !! m), w).

Definition store_menu (m : nat) (pm : PopupMenu) : St W () :=
  λ w, ((), mkWorld (wndProcByHWND w)
              (mkTrayHeap (<[m := pm]> (menus (heap w))) (trays (heap w))
                 (vars (heap w)))
              (os w)).

(** [&PopupMenu{...}] *)
Definition new_menu (pm : PopupMenu) : St W nat :=
  λ w, let m := fresh (dom (menus (heap w))) in (m, (store_menu m pm w).2).

Definition load_tray (ti : nat) : St W TrayIcon :=
  λ w, (default TrayIcon_zero (trays (heap w) !! ti), w).

Definition store_tray (ti : nat) (t : TrayIcon) : St W () :=
  λ w, ((), mkWorld (wndProcByHWND w)
              (mkTrayHeap (menus (heap w)) (<[ti := t]> (trays (heap w)))
                 (vars (heap w)))
              (os w)).

(** [&TrayIcon{...}] *)
Definition new_tray (t : TrayIcon) : St W nat :=
  λ w, let ti := fresh (dom (trays (heap w))) in (ti, (store_tray ti t w).2).

(** *** PopupMenu *)

Definition NewPopupMenu : St W (option nat * error) :=
  '(h, err) ← CreatePopupMenu os_call os_more;
  match err with
  | Some e => mret (None, Some (Wrapped "failed to create popup menu" e))
  | None =>
      m ← new_menu (mkPopupMenu h (Some ∅) 1000);
      mret (Some m, None)
  end.

(** [None] is the panic of an assignment to an entry of a nil map. *)
Definition PopupMenu_AddItem (m : nat) (label : string) (callback : option nat)
  : St W (option (Z * error)) :=
  pm ← load_menu m;
  let id := nextID pm in
  let pm := mkPopupMenu (hMenu pm) (items pm) (int32 (nextID pm + 1)) in
  store_menu m pm;;
  err ← AppendMenuW os_call os_more (hMenu pm)
          (Z.lor MFT_STRING MF_ENABLED) (uint32 id) label;
  match err with
  | Some _ => mret (Some (0, err))
  | None =>
      match callback with
      | Some cb =>
          match items pm with
          | Some it =>
              store_menu m (mkPopupMenu (hMenu pm) (Some (<[id := cb]> it))
                              (nextID pm));;
              mret (Some (id, None))
          | None => mret None
          end
      | None => mret (Some (id, None))
      end
  end.

Definition PopupMenu_AddSeparator (m : nat) : St W error :=
  pm ← load_menu m;
  AppendMenuW os_call os_more (hMenu pm) MFT_SEPARATOR 0 EmptyString.

(** [callback, ok := m.items[itemID]]: a callback stored is not nil,
    so the pair is an option. *)
Definition PopupMenu_GetCallback (m : nat) (itemID : Z) : St W (option nat) :=
  pm ← load_menu m;
  mret (match items pm with
        | Some it => it !! itemID
        | None => None
        end).

Definition PopupMenu_Show (m : nat) (hwnd x y : Z) : St W (Z * error) :=
  pm ← load_menu m;
  TrackPopupMenuEx os_more (hMenu pm)
    (Z.lor (Z.lor TPM_RIGHTALIGN TPM_TOPALIGN) TPM_RETURNCMD) x y hwnd.

Definition PopupMenu_Destroy (m : nat) : St W error :=
  pm ← load_menu m;
  err ← DestroyMenu os_call os_more (hMenu pm);
  match err with
  | Some _ => mret err
  | None =>
      store_menu m (mkPopupMenu 0 None (nextID pm));;
      mret None
  end.

(** *** TrayIcon *)

Definition NewTrayIcon (uid : Z) (callback : option nat)
  : St W (option nat * error) :=
  let uid := if uid =? 0 then 1 else uid in
  let msgID := WM_USER + 1 in
  ti ← new_tray (mkTrayIcon 0 uid callback msgID None);
  '(hwnd, err) ← CreateMessageOnlyWindow os_call globalWndProcPtr
                   "win32utils.TrayIcon" "Tray Icon" (Some (tray_proc ti));
  match err with
  | Some e => mret (None, Some (Wrapped "failed to create message window" e))
  | None =>
      store_tray ti (mkTrayIcon hwnd uid callback msgID None);;
      mret (Some ti, None)
  end.

Definition buildNotifyIconData (ti : nat) : St W NOTIFYICONDATAW :=
  t ← load_tray ti;
  mret (mkNOTIFYICONDATAW 0 (ti_hwnd t) (ti_uid t) 0 0 0 (replicate 128 0)
          0 0 (replicate 256 0) 0 (replicate 64 0) 0 0 0).

(** [for i, ch := range tipUtf16 { if i >= len(SzTip) { break };
    SzTip[i] = ch }]; on an error [tipUtf16] is nil. *)
Definition copy_tip (tip : string) (SzTip : list Z) : list Z :=
  match UTF16FromString tip with
  | Some tipUtf16 =>
      take (length SzTip) tipUtf16 ++ drop (length tipUtf16) SzTip
  | None => SzTip
  end.

Definition TrayIcon_Add (ti : nat) (hIcon : Z) (tip : string) : St W error :=
  d ← buildNotifyIconData ti;
  t ← load_tray ti;
  let d := mkNOTIFYICONDATAW (nid_CbSize d) (nid_HWnd d) (nid_UID d)
             (Z.lor (Z.lor NIF_MESSAGE NIF_ICON) NIF_TIP) (ti_msgID t) hIcon
             (copy_tip tip (nid_SzTip d)) (nid_DwState d) (nid_DwStateMask d)
             (nid_SzInfo d) (nid_TimeoutOrVersion d) (nid_SzInfoTitle d)
             (nid_DwInfoFlags d) (nid_GUIDItem d) (nid_HBalloonIcon d) in
  '(_, err) ← ShellNotifyIconW os_call os_more NIM_ADD (Some d);
  mret err.

Definition TrayIcon_Remove (ti : nat) : St W error :=
  d ← buildNotifyIconData ti;
  '(_, err) ← ShellNotifyIconW os_call os_more NIM_DELETE (Some d);
  mret err.

Definition TrayIcon_Update (ti : nat) (hIcon : Z) (tip : string)
  : St W error :=
  d ← buildNotifyIconData ti;
  let d := mkNOTIFYICONDATAW (nid_CbSize d) (nid_HWnd d) (nid_UID d)
             (Z.lor NIF_ICON NIF_TIP) (nid_UCallbackMessage d) hIcon
             (copy_tip tip (nid_SzTip d)) (nid_DwState d) (nid_DwStateMask d)
             (nid_SzInfo d) (nid_TimeoutOrVersion d) (nid_SzInfoTitle d)
             (nid_DwInfoFlags d) (nid_GUIDItem d) (nid_HBalloonIcon d) in
  '(_, err) ← ShellNotifyIconW os_call os_more NIM_MODIFY (Some d);
  mret err.

Definition TrayIcon_SetupMenu (ti : nat) : St W (option nat * error) :=
  t ← load_tray ti;
  match ti_menu t with
  | Some m => mret (Some m, None)
  | None =>
      '(menu, err) ← NewPopupMenu;
      match err with
      | Some _ => mret (None, err)
      | None =>
          store_tray ti (mkTrayIcon (ti_hwnd t) (ti_uid t) (ti_callback t)
                           (ti_msgID t) menu);;
          mret (menu, None)
      end
  end.

(** The part of [Close] before its [DestroyWindow]. *)
Definition TrayIcon_Close_cleanup (ti : nat) : St W () :=
  TrayIcon_Remove ti;;
  t ← load_tray ti;
  match ti_menu t with
  | Some m =>
      PopupMenu_Destroy m;;
      store_tray ti (mkTrayIcon (ti_hwnd t) (ti_uid t) (ti_callback t)
                       (ti_msgID t) None)
  | None => mret ()
  end.

Definition defaultTrayWndProc (hwnd msg wParam lParam : Z) (ti : nat)
  : St W Z :=
  t ← load_tray ti;
  if msg =? ti_msgID t then
    match ti_callback t with
    | Some callback =>
        let mouseMsg := uint32 lParam in
        tray_code callback mouseMsg;;
        (* the callback has run: [ti.menu] is read now *)
        t ← load_tray ti;
        match (if mouseMsg =? WM_RBUTTONDOWN then ti_menu t else None) with
        | Some m =>
            '(r1, pt) ← sys_more os_more SysGetCursorPos;
            if negb (r1 =? 0) then
              '(selectedID, _) ← PopupMenu_Show m hwnd (X pt) (Y pt);
              if negb (selectedID =? 0) then
                callback ← PopupMenu_GetCallback m selectedID;
                match callback with
                | Some cb => item_code cb selectedID
                | None => mret ()
                end
              else mret ()
            else mret ()
        | None => mret ()
        end;;
        mret 0
    | None => mret 0
    end
  else if msg =? WM_COMMAND then
    let cmd := int32 (Z.land wParam 0xFFFF) in
    match ti_menu t with
    | Some m =>
        callback ← PopupMenu_GetCallback m cmd;
        match callback with
        | Some cb => item_code cb cmd
        | None => mret ()
        end
    | None => mret ()
    end;;
    mret 0
  else if msg =? WM_DESTROY then
    PostQuitMessage os_more 0;;
    mret 0
  else DefWindowProcW os_call hwnd msg wParam lParam.

(** *** buildMenu of trayapp.go, over [app.menu] and
    [app.config.MenuItems] *)

Fixpoint buildMenu_range (m : nat) (MenuItems : list TrayMenuItem)
  : St W (option error) :=
  match MenuItems with
  | [] => mret (Some None)
  | item :: rest =>
      if IsSeparator item then
        err ← PopupMenu_AddSeparator m;
        match err with
        | Some _ => mret (Some err)
        | None => buildMenu_range m rest
        end
      else
        let label := if isEmpty (Icon item) then Label item
                     else Icon item +:+ " " +:+ Label item in
        r ← PopupMenu_AddItem m label (Some (onClick_func (OnClick item)));
        match r with
        | None => mret None
        | Some (_, Some e) => mret (Some (Some e))
        | Some (_, None) => buildMenu_range m rest
        end
  end.

(** [None] is a panic. *)
Definition buildMenu (menu : option nat) (MenuItems : list TrayMenuItem)
  : St W (option error) :=
  match menu with
  | None => mret (Some (Some (ErrorString "menu not initialized")))
  | Some m => buildMenu_range m MenuItems
  end.

End Tray.

Section TrayClose.
Context {V OS : Type}.
Variable os_call : ∀ T, syscall T → OS → T * OS.
Variable os_more : ∀ T, syscall_more T → OS → T * OS.
Variable code : nat → Z → Z → Z → Z → St (World (TrayHeap V) OS) Z.

Definition TrayIcon_Close (ti : nat)
  : St (Machine (TrayHeap V) OS) error :=
  inWorld (TrayIcon_Close_cleanup os_call os_more ti);;
  t ← inWorld (load_tray ti);
  DestroyWindow os_call code (ti_hwnd t).

End TrayClose.

(** The identifiers in use in a menu are those handed out so far:
    from 1000 up to, and without, [nextID]. *)
Definition ids_below (pm : PopupMenu) : Prop :=
  ∀ it id, items pm = Some it → is_Some (it !! id) → 1000 ≤ id < nextID pm.

(** A step that leaves the client's variables and the two stores as
    they were. *)
Definition keeps_heap {U OS A} (m : St (World U OS) A) : Prop :=
  ∀ w, heap (m w).2 = heap w.

(** The items of [config.MenuItems] that [buildMenu] gives an
    identifier. *)
Definition commands (MenuItems : list TrayMenuItem) : list TrayMenuItem :=
  filter (λ item, IsSeparator item = false) MenuItems.

(** ** The dialog's variables across a callback *)

(** From [l] to [l']: [done] is as it was or 1, and [cancelled] is as
    it was or true. *)
Definition locals_step (l l' : Locals) : Prop :=
  (done l' = done l ∨ done l' = 1)
  ∧ (cancelled l' = cancelled l ∨ cancelled l' = true).

(** Every run of [m] takes the dialog's variables by [R]. *)
Definition moves {U OS A} (R : Locals → Locals → Prop)
    (m : St (Machine U OS) A) : Prop :=
  ∀ s, R (locals s) (locals (m s).2).

(** ** Further scripted states *)

(** A desk that grants one window, 0x7000, of a trampolined class. *)
Definition msgwin_desk : Desk :=
  mkDesk 0 0x400000 0xC001 [0x7000] [] [] [] [0x7000] [] [].

Definition msgwin_world : World TestVars Desk :=
  mkWorld ∅ (mkTestVars 0 false) msgwin_desk.

(** The test's window, alive and of a trampolined class, with the
    test's registration. *)
Definition trampolined_machine : Machine TestVars Desk :=
  mkMachine
    (mkWorld (wndProcByHWND test_world) (mkTestVars 0 false)
       (mkDesk 0 0x400000 0xC001 [] [] [] [] [test_hwnd] [test_hwnd] []))
    ∅ (mkLocals EmptyString EmptyString false 0).

(** A queue holding the quit message posted by [PostQuitMessage(-1)]. *)
Definition quit_machine : Machine TestVars Desk :=
  dialog_machine (dialog_desk [] [(0, msg_to 0 0x0012 (uintptr (-1)))]) ∅.

Definition nul_name : string := String Ascii.zero "x".

(** A dialog on screen: window 0x5000 alive, of the dialog class, with
    the dialog's closure in the table. *)
Definition open_dialog_machine : Machine TestVars Desk :=
  mkMachine
    (mkWorld ∅ (mkTestVars 0 false)
       (mkDesk 0 0x400000 0xC001 [] [] [] [0x5000] [] [0x5000]
          [(0x5002, "alice"); (0x5004, "secret")]))
    {[ 0x5000 := DialogClosure 0x5002 0x5004 ]}
    (mkLocals EmptyString EmptyString false 0).

(** A dialog call that is accepted, made with the test's registration
    in place. *)
Definition accepted_machine : Machine TestVars Desk :=
  mkMachine
    (mkWorld (wndProcByHWND test_world) (mkTestVars 0 false)
       (dialog_desk [0; 1; 2] [(1, msg_to 0x5000 WM_COMMAND IDOK)]))
    ∅ (mkLocals EmptyString EmptyString false 0).



(** The further entry points on a desk: menus are granted, a menu
    shown returns the command 1000, the cursor is at (10, 20), a quit
    message joins the queue, and the shell refuses an icon without a
    window. *)
Definition shell_call (T : Type) (c : syscall_more T) : Desk → T * Desk :=
  match c in syscall_more T return Desk → T * Desk with
  | SysCreatePopupMenu => λ d, (0x9000, d)
  | SysAppendMenuW h _ _ _ => λ d, (if h =? 0 then 0 else 1, d)
  | SysTrackPopupMenuEx _ _ _ _ _ => λ d, (1000, d)
  | SysDestroyMenu h => λ d, (if h =? 0 then 0 else 1, d)
  | SysGetCursorPos => λ d, ((1, mkPOINT 10 20), d)
  | SysPostQuitMessage exitCode => λ d,
      (0, mkDesk (d_lasterr d) (d_module d) (d_atom d) (d_created d)
            (d_ticks d)
            (d_queue d ++ [(0, mkMSG 0 0x0012 exitCode 0 0 (mkPOINT 0 0) 0)])
            (d_dialogs d) (d_trampolined d) (d_alive d) (d_texts d))
  | SysShellNotifyIconW _ lpData => λ d,
      (match lpData with
       | Some x => if nid_HWnd x =? 0 then 0 else 1
       | None => 0
       end, d)
  end.

Definition TrayWorld : Type := World (TrayHeap TestVars) Desk.

(** Callbacks of a client: each adds its argument to [called]. *)
Definition count_code (ref : nat) (arg : Z) : St TrayWorld () :=
  λ w, ((), mkWorld (wndProcByHWND w)
              (mkTrayHeap (menus (heap w)) (trays (heap w))
                 (mkTestVars (called (vars (heap w)) + arg)
                    (fatal (vars (heap w)))))
              (os w)).

Definition test_onClick_func (onClick : option nat) : nat :=
  match onClick with
  | Some c => S c
  | None => O
  end.

(** [windows.UTF16FromString] on strings of ASCII characters. *)
Definition ascii_UTF16FromString (s : string) : option (list Z) :=
  if has_nul s then None
  else Some (map (λ c, Z.of_nat (Ascii.nat_of_ascii c))
               (String.list_ascii_of_string s) ++ [0]).

(** Window procedures: reference 0 is the function literal of
    [CreateWindowInstance], reference [S ti] the one of [NewTrayIcon]
    for the tray icon at [ti]. *)
Definition shell_code (ref : nat) (hwnd msg wParam lParam : Z)
  : St TrayWorld Z :=
  match ref with
  | O => CreateWindowInstance_func desk_call shell_call hwnd msg wParam lParam
  | S ti =>
      defaultTrayWndProc desk_call shell_call count_code count_code
        hwnd msg wParam lParam ti
  end.

Definition tray_world (d : Desk) : TrayWorld :=
  mkWorld ∅ (mkTrayHeap ∅ ∅ (mkTestVars 0 false)) d.

(** The window 0x7000 of [CreateWindowInstance], alive and registered. *)
Definition instance_machine : Machine (TrayHeap TestVars) Desk :=
  mkMachine
    (mkWorld {[ 0x7000 := O ]} (mkTrayHeap ∅ ∅ (mkTestVars 0 false))
       (mkDesk 0 0x400000 0xC001 [] [] [] [] [0x7000] [0x7000] []))
    ∅ (mkLocals EmptyString EmptyString false 0).

(** A tray icon at 0 with window 0x7000 and the menu at 0, which holds
    the callback 5 under 1000. *)
Definition menu_world : TrayWorld :=
  mkWorld {[ 0x7000 := 1%nat ]}
    (mkTrayHeap {[ O := mkPopupMenu 0x9000 (Some {[ 1000 := 5%nat ]}) 1001 ]}
       {[ O := mkTrayIcon 0x7000 1 None (WM_USER + 1) (Some O) ]}
       (mkTestVars 0 false))
    msgwin_desk.

(** A menu as [NewPopupMenu] makes it, at 0. *)
Definition new_menu_world : TrayWorld :=
  mkWorld ∅
    (mkTrayHeap {[ O := mkPopupMenu 0x9000 (Some ∅) 1000 ]} ∅
       (mkTestVars 0 false))
    msgwin_desk.

Definition test_MenuItems : list TrayMenuItem :=
  [ mkTrayMenuItem "Open" (Some 1%nat) false EmptyString;
    mkTrayMenuItem EmptyString None true EmptyString;
    mkTrayMenuItem "Quit" None false "x" ].

(** The tray icon of [menu_world], its window alive. *)
Definition tray_machine : Machine (TrayHeap TestVars) Desk :=
  mkMachine
    (mkWorld (wndProcByHWND menu_world) (heap menu_world)
       (mkDesk 0 0x400000 0xC001 [] [] [] [] [0x7000] [0x7000] []))
    ∅ (mkLocals EmptyString EmptyString false 0).

(** * Properties *)

(** ** The handle registry and the global trampoline *)

Section RegistryFacts.
Context {U OS : Type}.
Variable os_call : ∀ T, syscall T → OS → T * OS.
Variable code : nat → Z → Z → Z → Z → St (World U OS) Z.

Lemma sys_wndProcByHWND {T} (c : syscall T) (w : World U OS) :
  wndProcByHWND (sys os_call c w).2 = wndProcByHWND w.
Proof. unfold sys. by destruct (os_call T c (os w)). Qed.

Lemma sys_heap {T} (c : syscall T) (w : World U OS) :
  heap (sys os_call c w).2 = heap w.
Proof. unfold sys. by destruct (os_call T c (os w)). Qed.

Lemma getWndProc_deleteWndProc (hwnd : Z) (w : World U OS) :
  (getWndProc hwnd (deleteWndProc hwnd w).2).1 = None.
Proof. apply lookup_delete_eq. Qed.

Lemma getWndProc_setWndProc (hwnd : Z) (proc : nat) (w : World U OS) :
  (getWndProc hwnd (setWndProc hwnd (Some proc) w).2).1 = Some proc.
Proof. apply lookup_insert_eq. Qed.

(** Registry isolation: writing at one handle leaves the others. *)
Lemma getWndProc_setWndProc_ne (h1 h2 : Z) (proc : option nat)
    (w : World U OS) :
  h1 ≠ h2 →
  (getWndProc h2 (setWndProc h1 proc w).2).1 = (getWndProc h2 w).1.
Proof.
  intros Hne. destruct proc; simpl.
  - by apply lookup_insert_ne.
  - by apply lookup_delete_ne.
Qed.

(** C8.  [setWndProc] with a nil procedure does what [deleteWndProc]
    does; [deleteWndProc] on a handle without an entry leaves the
    world as it is; and doing either operation a second time gives the
    state the first application gave.  Both are total and return no
    error. *)
Theorem setWndProc_nil_deleteWndProc_idempotent (hwnd : Z) (w : World U OS) :
  setWndProc hwnd None w = deleteWndProc hwnd w
  ∧ (wndProcByHWND w !! hwnd = None → deleteWndProc hwnd w = ((), w))
  ∧ deleteWndProc hwnd (deleteWndProc hwnd w).2 = deleteWndProc hwnd w
  ∧ (∀ proc : option nat,
       setWndProc hwnd proc (setWndProc hwnd proc w).2 = setWndProc hwnd proc w).
Proof.
  destruct w as [reg u o]. repeat split.
  - intros Hnone. unfold deleteWndProc; simpl in *. by rewrite delete_id.
  - unfold deleteWndProc; simpl. by rewrite delete_delete_eq.
  - intros [p|]; unfold setWndProc; simpl.
    + by rewrite insert_insert_eq.
    + by rewrite delete_delete_eq.
Qed.

(** C6.  For a handle without a registered procedure the trampoline
    is [DefWindowProcW]: it returns the OS's default result, and the
    registry after the dispatch is the registry before it. *)
Theorem globalWndProc_unregistered (hwnd msg wParam lParam : Z)
    (w : World U OS) :
  wndProcByHWND w !! hwnd = None →
  globalWndProc os_call code hwnd msg wParam lParam w
    = DefWindowProcW os_call hwnd msg wParam lParam w
  ∧ (globalWndProc os_call code hwnd msg wParam lParam w).1
    = (os_call Z (SysDefWindowProcW hwnd msg wParam lParam) (os w)).1
  ∧ wndProcByHWND (globalWndProc os_call code hwnd msg wParam lParam w).2
    = wndProcByHWND w.
Proof.
  intros Hnone.
  assert (Heq : globalWndProc os_call code hwnd msg wParam lParam w
                = DefWindowProcW os_call hwnd msg wParam lParam w).
  { unfold globalWndProc, getWndProc. st_unfold. by rewrite Hnone. }
  rewrite Heq. split; [done|]. unfold DefWindowProcW. split.
  - unfold sys. by destruct (os_call Z _ (os w)).
  - apply sys_wndProcByHWND.
Qed.

(** C2.  For a registered handle and a message other than
    [WM_NCDESTROY], a dispatch through the trampoline is one call of
    the registered procedure on the same four arguments: same return
    value, same effect on the state. *)
Theorem globalWndProc_forwards (hwnd msg wParam lParam : Z) (proc : nat)
    (w : World U OS) :
  wndProcByHWND w !! hwnd = Some proc →
  msg ≠ WM_NCDESTROY →
  globalWndProc os_call code hwnd msg wParam lParam w
    = code proc hwnd msg wParam lParam w.
Proof.
  intros Hreg Hmsg.
  unfold globalWndProc, getWndProc. st_unfold. rewrite Hreg.
  destruct (code proc hwnd msg wParam lParam w) as [ret w1].
  by destruct (Z.eqb_spec msg WM_NCDESTROY).
Qed.

(** C1.  For a registered handle, dispatching [WM_NCDESTROY] is one
    call of the registered procedure, made on the state in which the
    handle is still registered, followed by the removal of the entry
    from the state the procedure left; the procedure's result is
    returned and [getWndProc] then finds nothing. *)
Theorem globalWndProc_WM_NCDESTROY (hwnd wParam lParam : Z) (proc : nat)
    (w : World U OS) :
  wndProcByHWND w !! hwnd = Some proc →
  ∃ (ret : Z) (w1 : World U OS),
    (getWndProc hwnd w).1 = Some proc
    ∧ code proc hwnd WM_NCDESTROY wParam lParam w = (ret, w1)
    ∧ globalWndProc os_call code hwnd WM_NCDESTROY wParam lParam w
      = (ret, (deleteWndProc hwnd w1).2)
    ∧ (getWndProc hwnd
         (globalWndProc os_call code hwnd WM_NCDESTROY wParam lParam w).2).1
      = None.
Proof.
  intros Hreg.
  destruct (code proc hwnd WM_NCDESTROY wParam lParam w) as [ret w1] eqn:Hcall.
  exists ret, w1.
  assert (Hrun : globalWndProc os_call code hwnd WM_NCDESTROY wParam lParam w
                 = (ret, (deleteWndProc hwnd w1).2)).
  { unfold globalWndProc, getWndProc. st_unfold. rewrite Hreg, Hcall.
    by rewrite Z.eqb_refl. }
  repeat split; [done | done |].
  rewrite Hrun. apply getWndProc_deleteWndProc.
Qed.

(** C9.  [registerClassExW] on the results of the OS, case by case.
    A non-zero atom is success.  Atom 0 with error code 1410 (class
    already exists) is returned as success, atom 1 and no error.
    Atom 0 with another non-zero error code is returned as that error.
    Atom 0 with [GetLastError] reading 0 is returned as atom 0 and the
    nil error: the error is read by a separate [windows.GetLastError],
    which turns the code 0 into nil, so this failed registration
    reaches the caller without an error. *)
Theorem registerClassExW_results (wcx : WNDCLASSEXW) (w : World U OS)
    (r1 e : Z) (o1 o2 : OS) :
  os_call Z (SysRegisterClassExW
               (if CbSize wcx =? 0
                then set_CbSize (uint32 sizeof_WNDCLASSEXW) wcx
                else wcx)) (os w) = (r1, o1) →
  os_call Z SysGetLastError o1 = (e, o2) →
  (r1 ≠ 0 →
     registerClassExW os_call (Some wcx) w
     = ((uint16 r1, None), mkWorld (wndProcByHWND w) (heap w) o1))
  ∧ (r1 = 0 → e = ERROR_CLASS_ALREADY_EXISTS →
     registerClassExW os_call (Some wcx) w
     = ((1, None), mkWorld (wndProcByHWND w) (heap w) o2))
  ∧ (r1 = 0 → e ≠ ERROR_CLASS_ALREADY_EXISTS → e ≠ 0 →
     registerClassExW os_call (Some wcx) w
     = ((0, Some (Errno e)), mkWorld (wndProcByHWND w) (heap w) o2))
  ∧ (r1 = 0 → e = 0 →
     registerClassExW os_call (Some wcx) w
     = ((0, None), mkWorld (wndProcByHWND w) (heap w) o2)).
Proof.
  intros Hreg Herr.
  unfold registerClassExW, GetLastError, sys. st_unfold. rewrite Hreg.
  repeat split.
  - intros Hr. by destruct (Z.eqb_spec r1 0).
  - intros -> ->. simpl. by rewrite Herr.
  - intros -> Hne Hnz. simpl. rewrite Herr.
    destruct (Z.eqb_spec e 0); [done|]. simpl.
    by destruct (Z.eqb_spec e ERROR_CLASS_ALREADY_EXISTS).
  - intros -> ->. simpl. by rewrite Herr.
Qed.

(** A nil [*WNDCLASSEXW] is refused before the OS is asked. *)
Lemma registerClassExW_nil (w : World U OS) :
  registerClassExW os_call None w
  = ((0, Some (ErrorString "registerClassExW: nil WNDCLASSEXW")), w).
Proof. done. Qed.

End RegistryFacts.

(** The acceptance test TestGlobalWndProcDispatchAndCleanup, run. *)
Example TestGlobalWndProcDispatchAndCleanup :
  let '(ret, w1) := globalWndProc desk_call test_code test_hwnd 0x0400 1 2 test_world in
  let '(_, w2) := globalWndProc desk_call test_code test_hwnd WM_NCDESTROY 0 0 w1 in
  ret = 99
  ∧ called (heap w1) = 1
  ∧ called (heap w2) = 2
  ∧ fatal (heap w2) = false
  ∧ (getWndProc test_hwnd w2).1 = None.
Proof. vm_compute. repeat split. Qed.

Lemma setWndProc_nil_deleteWndProc_idempotent_witness :
  wndProcByHWND (deleteWndProc test_hwnd test_world).2 !! test_hwnd = None
  ∧ deleteWndProc test_hwnd (deleteWndProc test_hwnd test_world).2
    = ((), (deleteWndProc test_hwnd test_world).2).
Proof.
  split; [reflexivity|].
  apply (proj1 (proj2 (setWndProc_nil_deleteWndProc_idempotent test_hwnd
                         (deleteWndProc test_hwnd test_world).2))).
  reflexivity.
Defined.

Lemma globalWndProc_unregistered_witness :
  wndProcByHWND test_world !! 0x4321 = None
  ∧ (globalWndProc desk_call test_code 0x4321 0x0400 1 2 test_world).1 = 0
  ∧ wndProcByHWND (globalWndProc desk_call test_code 0x4321 0x0400 1 2 test_world).2
    = wndProcByHWND test_world.
Proof.
  split; [reflexivity|].
  apply (globalWndProc_unregistered desk_call test_code 0x4321 0x0400 1 2 test_world).
  reflexivity.
Defined.

Lemma globalWndProc_forwards_witness :
  wndProcByHWND test_world !! test_hwnd = Some 0%nat
  ∧ 0x0400 ≠ WM_NCDESTROY
  ∧ (globalWndProc desk_call test_code test_hwnd 0x0400 1 2 test_world).1 = 99
  ∧ called (heap (globalWndProc desk_call test_code test_hwnd 0x0400 1 2 test_world).2)
    = called (heap test_world) + 1.
Proof.
  split; [reflexivity|]. split; [discriminate|].
  rewrite (globalWndProc_forwards desk_call test_code test_hwnd 0x0400 1 2 0%nat
             test_world); [|reflexivity|discriminate].
  split; reflexivity.
Defined.

Lemma globalWndProc_WM_NCDESTROY_witness :
  wndProcByHWND test_world !! test_hwnd = Some 0%nat
  ∧ ∃ (ret : Z) (w1 : World TestVars Desk),
      (getWndProc test_hwnd test_world).1 = Some 0%nat
      ∧ test_code 0%nat test_hwnd WM_NCDESTROY 0 0 test_world = (ret, w1)
      ∧ globalWndProc desk_call test_code test_hwnd WM_NCDESTROY 0 0 test_world
        = (ret, (deleteWndProc test_hwnd w1).2)
      ∧ (getWndProc test_hwnd
           (globalWndProc desk_call test_code test_hwnd WM_NCDESTROY 0 0 test_world).2).1
        = None.
Proof.
  split; [reflexivity|].
  apply (globalWndProc_WM_NCDESTROY desk_call test_code test_hwnd 0 0 0%nat test_world).
  reflexivity.
Defined.

Lemma registerClassExW_results_witness :
  registerClassExW desk_call (Some wcx_test) (world_err 1410)
  = ((1, None), world_err 1410)
  ∧ registerClassExW desk_call (Some wcx_test) (world_err 5)
    = ((0, Some (Errno 5)), world_err 5)
  ∧ registerClassExW desk_call (Some wcx_test) (world_err 0)
    = ((0, None), world_err 0).
Proof.
  split; [|split].
  - apply (registerClassExW_results desk_call wcx_test (world_err 1410)
             0 1410 (os (world_err 1410)) (os (world_err 1410)));
      reflexivity.
  - apply (registerClassExW_results desk_call wcx_test (world_err 5)
             0 5 (os (world_err 5)) (os (world_err 5)));
      [reflexivity | reflexivity | reflexivity | discriminate | discriminate].
  - apply (registerClassExW_results desk_call wcx_test (world_err 0)
             0 0 (os (world_err 0)) (os (world_err 0)));
      reflexivity.
Defined.

(** ** The message loop *)

Section LoopFacts.
Context {U OS : Type}.
Variable os_call : ∀ T, syscall T → OS → T * OS.
Variable code : nat → Z → Z → Z → Z → St (World U OS) Z.

Local Abbreviation M := (Machine U OS).

Lemma bind_total {S A B} (m : St S A) (f : A → Partial S B) (s : S) :
  (total m ≫= f) s = f (m s).1 (m s).2.
Proof. unfold mbind, Partial_bind, total. by destruct (m s). Qed.

Lemma bind_St {S A B} (m : St S A) (f : A → St S B) (s : S) :
  (m ≫= f) s = f (m s).1 (m s).2.
Proof. unfold mbind, St_bind. by destruct (m s). Qed.

Lemma bind_Some {S A B} (m : Partial S A) (f : A → Partial S B) (s s' : S)
    (b : B) :
  (m ≫= f) s = Some (b, s') ↔
  ∃ a s1, m s = Some (a, s1) ∧ f a s1 = Some (b, s').
Proof.
  unfold mbind, Partial_bind. split.
  - destruct (m s) as [[a s1]|]; [eauto | done].
  - intros (a & s1 & -> & Hf). done.
Qed.

(** [GetMessageW] reports an error only together with [ret = -1]. *)
Lemma GetMessageW_error (msg : MSG) (hwnd lo hi : Z) (w : World U OS) :
  (GetMessageW os_call msg hwnd lo hi w).1.2.1 ≠ -1 →
  (GetMessageW os_call msg hwnd lo hi w).1.2.2 = None.
Proof.
  unfold GetMessageW. rewrite bind_St.
  destruct (sys os_call (SysGetMessageW msg hwnd lo hi) w) as [[r1 msg'] w1].
  simpl. destruct (Z.eqb_spec (int32 r1) (-1)) as [Heq|Hne].
  - rewrite bind_St. simpl. by rewrite Heq.
  - done.
Qed.

(** One round of [MessageLoop], by the result of the retrieval. *)
Lemma MessageLoop_from_S (fuel : nat) (msg : MSG) (s : M) :
  MessageLoop_from os_call code (S fuel) msg s =
  let '(msg', (ret, err), s1) := inWorld (GetMessageW os_call msg 0 0 0) s in
  if ret =? -1 then Some (0, err, s1)
  else if ret =? 0 then Some (int32 (WParam msg'), None, s1)
  else MessageLoop_from os_call code fuel msg'
         (DispatchMessageW os_call code msg'
            (inWorld (TranslateMessage os_call msg') s1).2).2.
Proof.
  simpl. rewrite bind_total.
  destruct (inWorld (GetMessageW os_call msg 0 0 0) s) as [[msg' [ret err]] s1].
  simpl. destruct (ret =? -1); [done|]. destruct (ret =? 0); [done|].
  by rewrite !bind_total.
Qed.

Lemma MessageLoop_from_exits (fuel : nat) (msg : MSG) (s : M)
    (res : Z * error) (s' : M) :
  MessageLoop_from os_call code fuel msg s = Some (res, s') ↔
  ∃ (k : nat) (msgk : MSG) (sk : M) (m1 : MSG) (ret : Z) (err : error),
    (k < fuel)%nat
    ∧ pumps os_call code k msg s msgk sk
    ∧ inWorld (GetMessageW os_call msgk 0 0 0) sk = ((m1, (ret, err)), s')
    ∧ ((ret = 0 ∧ res = (int32 (WParam m1), None))
       ∨ (ret = -1 ∧ res = (0, err))).
Proof.
  revert msg s. induction fuel as [|fuel IH]; intros msg s.
  - split; [done|]. intros (k & ? & ? & ? & ? & ? & Hk & _). lia.
  - rewrite MessageLoop_from_S.
    destruct (inWorld (GetMessageW os_call msg 0 0 0) s)
      as [[msg1 [ret err]] s1] eqn:Hget.
    destruct (Z.eqb_spec ret (-1)) as [->|Hne1];
      [|destruct (Z.eqb_spec ret 0) as [->|Hne0]].
    + split.
      * intros [= <- <-]. exists O, msg, s, msg1, (-1), err.
        repeat split; [lia | constructor | done | by right].
      * intros (k & msgk & sk & m1 & ret & err' & _ & Hp & Hg & Hres).
        inversion Hp; subst.
        -- rewrite Hget in Hg. injection Hg as <- <- <- <-.
           by destruct Hres as [[? _]|[_ ->]].
        -- congruence.
    + split.
      * intros [= <- <-]. exists O, msg, s, msg1, 0, err.
        repeat split; [lia | constructor | done | by left].
      * intros (k & msgk & sk & m1 & ret & err' & _ & Hp & Hg & Hres).
        inversion Hp; subst.
        -- rewrite Hget in Hg. injection Hg as <- <- <- <-.
           by destruct Hres as [[_ ->]|[? _]].
        -- congruence.
    + rewrite IH. split.
      * intros (k & msgk & sk & m1 & ret' & err' & Hk & Hp & Hg & Hres).
        exists (S k), msgk, sk, m1, ret', err'.
        repeat split; [lia | | done | done].
        by eapply pumps_S.
      * intros (k & msgk & sk & m1 & ret' & err' & Hk & Hp & Hg & Hres).
        inversion Hp; subst.
        -- rewrite Hget in Hg. injection Hg as <- <- <- <-.
           destruct Hres as [[? _]|[? _]]; congruence.
        -- match goal with
           | H : inWorld _ s = _ |- _ =>
               rewrite Hget in H; injection H as <- <- <- <-
           end.
           eexists _, msgk, sk, m1, ret', err'.
           repeat split; [| eassumption | done | done]. lia.
Qed.

(** One retrieval, in terms of the calls made to the OS. *)
Lemma inWorld_GetMessageW (msg : MSG) (s : M) (r1 : Z) (m1 : MSG) (o1 : OS) :
  os_call (Z * MSG)%type (SysGetMessageW msg 0 0 0) (os (world s))
  = ((r1, m1), o1) →
  inWorld (GetMessageW os_call msg 0 0 0) s
  = if int32 r1 =? -1
    then let '(e, o2) := os_call Z SysGetLastError o1 in
         ((m1, (int32 r1, if e =? 0 then None else Some (Errno e))),
          set_os o2 s)
    else ((m1, (int32 r1, None)), set_os o1 s).
Proof.
  intros Hget. unfold inWorld, GetMessageW, GetLastError, sys. st_unfold.
  rewrite Hget. destruct (int32 r1 =? -1); [|done]. simpl.
  by destruct (os_call Z SysGetLastError o1) as [e o2].
Qed.

Lemma inWorld_TranslateMessage (msg : MSG) (s : M) :
  (inWorld (TranslateMessage os_call msg) s).2
  = set_os (os_call Z (SysTranslateMessage msg) (os (world s))).2 s.
Proof.
  unfold inWorld, TranslateMessage, sys. st_unfold.
  by destruct (os_call Z (SysTranslateMessage msg) (os (world s))).
Qed.

Lemma pumps_loop_rounds (k : nat) (msg : MSG) (s : M) (msg' : MSG) (s' : M) :
  pumps os_call code k msg s msg' s' ↔ loop_rounds os_call code k msg s msg' s'.
Proof.
  split.
  - induction 1 as [|k msg s msg1 ret err s1 msg' s' Hget Hne1 Hne0 _ IH];
      [constructor|].
    destruct (os_call (Z * MSG)%type (SysGetMessageW msg 0 0 0) (os (world s)))
      as [[r1 m1] o1] eqn:Hos.
    rewrite (inWorld_GetMessageW msg s r1 m1 o1 Hos) in Hget.
    destruct (Z.eqb_spec (int32 r1) (-1)) as [Heq|Hne].
    { destruct (os_call Z SysGetLastError o1) as [e o2].
      injection Hget as _ Hret _ _. congruence. }
    injection Hget as <- <- <- <-.
    rewrite inWorld_TranslateMessage in IH. cbn [set_os world os] in IH.
    destruct (os_call Z (SysTranslateMessage m1) o1) as [r2 o2] eqn:Htr.
    by eapply loop_rounds_S.
  - induction 1 as [|k msg s r1 msg1 o1 r2 o2 msg' s' Hos Hne1 Hne0 Htr _ IH];
      [constructor|].
    pose proof (inWorld_GetMessageW msg s r1 msg1 o1 Hos) as Hget.
    destruct (Z.eqb_spec (int32 r1) (-1)) as [|_]; [done|].
    eapply pumps_S; [exact Hget | done | done |].
    rewrite inWorld_TranslateMessage. cbn [set_os world os]. by rewrite Htr.
Qed.

(** C7.  [MessageLoop], in terms of the calls made to the OS.  It
    returns exactly when, after some number of rounds that each
    retrieved an ordinary message, translated it and dispatched it,
    the system call GetMessageW hands back [r1] with

    - [int32 r1 = 0], the quit sentinel: the result is the [WParam] of
      the message written, as [int32], and no error; or
    - [int32 r1 = -1], an error: the loop stops without another
      retrieval and the result is 0 with what a separate
      [windows.GetLastError] reads: the error [Errno e] when the code
      [e] read is not 0, and the nil error when it is 0.  In that last
      case the caller receives (0, nil), which is also the result of a
      quit with exit code 0: the failed retrieval is not propagated.

    The state returned is the one the last system call left, so
    nothing runs after it. *)
Theorem MessageLoop_returns (fuel : nat) (s : M) (res : Z * error) (s' : M) :
  MessageLoop os_call code fuel s = Some (res, s') ↔
  ∃ (k : nat) (msgk : MSG) (sk : M) (r1 : Z) (m1 : MSG) (o1 : OS),
    (k < fuel)%nat
    ∧ loop_rounds os_call code k MSG_zero s msgk sk
    ∧ os_call (Z * MSG)%type (SysGetMessageW msgk 0 0 0) (os (world sk))
      = ((r1, m1), o1)
    ∧ ((int32 r1 = 0 ∧ res = (int32 (WParam m1), None) ∧ s' = set_os o1 sk)
       ∨ (int32 r1 = -1
          ∧ ∃ (e : Z) (o2 : OS),
              os_call Z SysGetLastError o1 = (e, o2)
              ∧ s' = set_os o2 sk
              ∧ ((e ≠ 0 ∧ res = (0, Some (Errno e)))
                 ∨ (e = 0 ∧ res = (0, None))))).
Proof.
  unfold MessageLoop. rewrite MessageLoop_from_exits. split.
  - intros (k & msgk & sk & m1 & ret & err & Hk & Hp & Hget & Hres).
    apply pumps_loop_rounds in Hp.
    destruct (os_call (Z * MSG)%type (SysGetMessageW msgk 0 0 0)
                (os (world sk))) as [[r1 m1'] o1] eqn:Hos.
    rewrite (inWorld_GetMessageW msgk sk r1 m1' o1 Hos) in Hget.
    exists k, msgk, sk, r1, m1', o1. repeat split; [done..|].
    destruct (Z.eqb_spec (int32 r1) (-1)) as [Heq|Hne].
    + destruct (os_call Z SysGetLastError o1) as [e o2] eqn:Herr.
      injection Hget as <- <- <- <-.
      destruct Hres as [[? _]|[_ ->]]; [lia|].
      right. split; [done|]. exists e, o2. repeat split.
      destruct (Z.eqb_spec e 0); [by right | by left].
    + injection Hget as <- <- <- <-.
      destruct Hres as [[? ->]|[? _]]; [by left | done].
  - intros (k & msgk & sk & r1 & m1 & o1 & Hk & Hp & Hos & Hres).
    apply pumps_loop_rounds in Hp.
    pose proof (inWorld_GetMessageW msgk sk r1 m1 o1 Hos) as Hget.
    destruct Hres as [(Hr & -> & ->)|(Hr & e & o2 & Herr & -> & Hres)].
    + rewrite Hr in Hget. simpl in Hget.
      exists k, msgk, sk, m1, 0, None. repeat split; [done..|by left].
    + rewrite Hr, Herr in Hget. simpl in Hget.
      eexists k, msgk, sk, m1, (-1), _. repeat split; [done..|].
      right. split; [done|].
      destruct Hres as [[Hne ->]|[-> ->]]; [|done].
      by destruct (Z.eqb_spec e 0).
Qed.

(** More fuel does not change a result. *)
Lemma MessageLoop_fuel_mono (fuel fuel' : nat) (s : M) (r : Z * error * M) :
  (fuel ≤ fuel')%nat →
  MessageLoop os_call code fuel s = Some r →
  MessageLoop os_call code fuel' s = Some r.
Proof.
  intros Hle. destruct r as [res s']. unfold MessageLoop.
  rewrite !MessageLoop_from_exits.
  intros (k & msgk & sk & m1 & ret & err & Hk & H).
  exists k, msgk, sk, m1, ret, err. split; [lia | done].
Qed.

End LoopFacts.

(** [MessageLoop] on the desk: the retrieval fails (the system call
    hands back [2 ^ 64 - 1], which is -1 as [int32]) with the error
    code 5, and with the error code 0; and a quit message with exit
    code 0 is retrieved. *)
Lemma MessageLoop_returns_witness :
  MessageLoop desk_call test_code 1 (loop_machine 5 [])
  = Some ((0, Some (Errno 5)), loop_machine 5 [])
  ∧ MessageLoop desk_call test_code 1 (loop_machine 0 [])
    = Some ((0, None), loop_machine 0 [])
  ∧ MessageLoop desk_call test_code 1
      (loop_machine 0 [(0, msg_to 0 0x0012 0)])
    = Some ((0, None), loop_machine 0 []).
Proof.
  split; [|split].
  - apply (proj2 (MessageLoop_returns desk_call test_code 1
                    (loop_machine 5 []) (0, Some (Errno 5))
                    (loop_machine 5 []))).
    exists O, MSG_zero, (loop_machine 5 []), (2 ^ 64 - 1), MSG_zero,
      (os (world (loop_machine 5 []))).
    split; [lia|]. split; [constructor|]. split; [reflexivity|].
    right. split; [reflexivity|].
    exists 5, (os (world (loop_machine 5 []))).
    split; [reflexivity|]. split; [reflexivity|]. left. by split.
  - apply (proj2 (MessageLoop_returns desk_call test_code 1
                    (loop_machine 0 []) (0, None) (loop_machine 0 []))).
    exists O, MSG_zero, (loop_machine 0 []), (2 ^ 64 - 1), MSG_zero,
      (os (world (loop_machine 0 []))).
    split; [lia|]. split; [constructor|]. split; [reflexivity|].
    right. split; [reflexivity|].
    exists 0, (os (world (loop_machine 0 []))).
    split; [reflexivity|]. split; [reflexivity|]. right. by split.
  - apply (proj2 (MessageLoop_returns desk_call test_code 1
                    (loop_machine 0 [(0, msg_to 0 0x0012 0)]) (0, None)
                    (loop_machine 0 []))).
    exists O, MSG_zero, (loop_machine 0 [(0, msg_to 0 0x0012 0)]), 0,
      (msg_to 0 0x0012 0), (os (world (loop_machine 0 []))).
    split; [lia|]. split; [constructor|]. split; [reflexivity|].
    left. split; [reflexivity|]. split; reflexivity.
Defined.

(** ** The modal dialog *)

Create HintDb keeps discriminated.

Section DialogFacts.
Context {U OS : Type}.
Variable os_call : ∀ T, syscall T → OS → T * OS.
Variable code : nat → Z → Z → Z → Z → St (World U OS) Z.

Local Abbreviation M := (Machine U OS).

(** *** What leaves the dialog table alone *)

Lemma keeps_inWorld {A} (m : St (World U OS) A) : keeps_tbl (inWorld m).
Proof. intros s. unfold inWorld. by destruct (m (world s)). Qed.

Lemma keeps_ret {A} (a : A) : keeps_tbl (mret a : St M A).
Proof. by intros s. Qed.

Lemma keeps_bind {A B} (m : St M A) (f : A → St M B) :
  keeps_tbl m → (∀ a, keeps_tbl (f a)) → keeps_tbl (m ≫= f).
Proof.
  intros Hm Hf s. unfold mbind, St_bind.
  specialize (Hm s). destruct (m s) as [a s1]. simpl in Hm.
  by rewrite Hf.
Qed.

Lemma keeps_set_locals (f : Locals → Locals) :
  keeps_tbl (set_locals f : St M ()).
Proof. by intros s. Qed.

Lemma keeps_get_locals : keeps_tbl (get_locals : St M Locals).
Proof. by intros s. Qed.

Lemma keeps_getDialogWndProc (hwnd : Z) :
  keeps_tbl (getDialogWndProc hwnd : St M (option DlgProc)).
Proof. by intros s. Qed.

Hint Resolve keeps_inWorld keeps_ret keeps_set_locals keeps_get_locals
  keeps_getDialogWndProc : keeps.

Ltac keeps_step :=
  repeat first
    [ progress auto with keeps
    | apply keeps_bind; [|intros ?]
    | match goal with
      | |- keeps_tbl (match ?e with _ => _ end) => destruct e
      end ].

Section KeepsCallbacks.
Variable D : Z → St M error.
Hypothesis keeps_D : ∀ hwnd, keeps_tbl (D hwnd).

Lemma keeps_TwoTextInputDialog_func (e1 e2 hwnd msg wParam lParam : Z) :
  keeps_tbl (TwoTextInputDialog_func os_call D e1 e2 hwnd msg wParam lParam).
Proof. unfold TwoTextInputDialog_func. keeps_step. Qed.

Lemma keeps_call_ClassProc (cp : ClassProc) (hwnd msg wParam lParam : Z) :
  keeps_tbl (call_ClassProc os_call code D cp hwnd msg wParam lParam).
Proof.
  unfold call_ClassProc, dialogGlobalWndProc_, call_DlgProc.
  pose proof keeps_TwoTextInputDialog_func. keeps_step.
Qed.

Lemma keeps_DestroyWindow_ (hwnd : Z) :
  keeps_tbl (DestroyWindow_ os_call code D hwnd).
Proof.
  unfold DestroyWindow_, user32_DestroyWindow_.
  pose proof keeps_call_ClassProc. keeps_step.
Qed.

Lemma keeps_user32_DispatchMessageW_ (msg : MSG) :
  keeps_tbl (user32_DispatchMessageW_ os_call code D msg).
Proof.
  unfold user32_DispatchMessageW_.
  pose proof keeps_call_ClassProc. keeps_step.
Qed.
End KeepsCallbacks.

Lemma keeps_DestroyWindow_quiet (hwnd : Z) :
  keeps_tbl (DestroyWindow_quiet os_call hwnd : St M error).
Proof. unfold DestroyWindow_quiet. keeps_step. Qed.

Lemma keeps_DestroyWindow (hwnd : Z) :
  keeps_tbl (DestroyWindow os_call code hwnd).
Proof. apply keeps_DestroyWindow_, keeps_DestroyWindow_quiet. Qed.

Lemma keeps_DispatchMessageW (msg : MSG) :
  keeps_tbl (DispatchMessageW os_call code msg).
Proof. apply keeps_user32_DispatchMessageW_, keeps_DestroyWindow. Qed.

Hint Resolve keeps_DestroyWindow keeps_DispatchMessageW : keeps.

(** *** Rules for [tbl_triple] *)

Lemma triple_ret {A} (R : gmap Z DlgProc → Prop) (a : A)
    (Q : A → gmap Z DlgProc → Prop) :
  (∀ T, R T → Q a T) → tbl_triple R (mret a : Partial M A) Q.
Proof. intros HQ s a' s' HR [= <- <-]. by apply HQ. Qed.

Lemma triple_bind {A B} (R : gmap Z DlgProc → Prop)
    (R' : A → gmap Z DlgProc → Prop) (m : Partial M A) (f : A → Partial M B)
    (Q : B → gmap Z DlgProc → Prop) :
  tbl_triple R m R' → (∀ a, tbl_triple (R' a) (f a) Q) →
  tbl_triple R (m ≫= f) Q.
Proof.
  intros Hm Hf s b s' HR Hrun. unfold mbind, Partial_bind in Hrun.
  destruct (m s) as [[a s1]|] eqn:Hms; [|done].
  eapply Hf; [|exact Hrun]. by eapply Hm.
Qed.

Lemma triple_total {A} (R : gmap Z DlgProc → Prop) (m : St M A) :
  keeps_tbl m → tbl_triple R (total m) (λ _, R).
Proof.
  intros Hm s a s' HR [= Hrun]. specialize (Hm s). rewrite Hrun in Hm.
  simpl in Hm. by rewrite Hm.
Qed.

Lemma triple_bind_total {A B} (R : gmap Z DlgProc → Prop) (m : St M A)
    (f : A → Partial M B) (Q : B → gmap Z DlgProc → Prop) :
  keeps_tbl m → (∀ a, tbl_triple R (f a) Q) →
  tbl_triple R (total m ≫= f) Q.
Proof.
  intros Hm Hf. eapply triple_bind; [by apply triple_total | done].
Qed.

Lemma triple_bind_setDialogWndProc {B} (R : gmap Z DlgProc → Prop)
    (hwnd : Z) (proc : option DlgProc) (f : option DlgProc → Partial M B)
    (Q : B → gmap Z DlgProc → Prop) :
  (∀ T, R T →
     tbl_triple (eq (match proc with
                     | None => delete hwnd T
                     | Some p => <[hwnd := p]> T
                     end)) (f (T !! hwnd)) Q) →
  tbl_triple R (total (setDialogWndProc hwnd proc) ≫= f) Q.
Proof.
  intros Hf s b s' HR Hrun. rewrite bind_total in Hrun.
  assert (Hold : (setDialogWndProc hwnd proc s).1 = dialogWndProcs s !! hwnd)
    by (by destruct proc).
  rewrite Hold in Hrun.
  eapply (Hf _ HR); [|exact Hrun]. by destruct proc.
Qed.

Lemma triple_bind_ret {A B} (R : gmap Z DlgProc → Prop) (a : A)
    (f : A → Partial M B) (Q : B → gmap Z DlgProc → Prop) :
  tbl_triple R (f a) Q → tbl_triple R (mret a ≫= f) Q.
Proof. intros Hf s b s' HR Hrun. by eapply Hf. Qed.

Lemma triple_bind_assoc {A B C} (R : gmap Z DlgProc → Prop)
    (m : Partial M A) (g : A → Partial M B) (f : B → Partial M C)
    (Q : C → gmap Z DlgProc → Prop) :
  tbl_triple R (m ≫= λ a, g a ≫= f) Q → tbl_triple R ((m ≫= g) ≫= f) Q.
Proof.
  intros H s c s' HR Hrun. eapply H; [done|].
  unfold mbind, Partial_bind in *. by destruct (m s) as [[a s1]|].
Qed.

Ltac triple_step :=
  lazymatch goal with
  | |- tbl_triple _ (mret _) _ => apply triple_ret
  | |- tbl_triple _ (mret _ ≫= _) _ => apply triple_bind_ret
  | |- tbl_triple _ ((_ ≫= _) ≫= _) _ => apply triple_bind_assoc
  | |- tbl_triple _ (total (setDialogWndProc _ _) ≫= _) _ =>
      apply triple_bind_setDialogWndProc; intros ? <-
  | |- tbl_triple _ (total _ ≫= _) _ =>
      apply triple_bind_total; [solve [auto with keeps] | intros ?]
  | |- tbl_triple _ ((if ?c then _ else _) ≫= _) _ => destruct c
  | |- tbl_triple _ (match ?e with _ => _ end) _ => destruct e
  | |- tbl_triple _ (total _) _ =>
      apply triple_total; solve [auto with keeps]
  end.

Lemma triple_modal_loop (R : gmap Z DlgProc → Prop) (fuel : nat)
    (startTick : Z) :
  tbl_triple R (modal_loop os_call code fuel startTick) (λ _, R).
Proof.
  induction fuel as [|fuel IH]; [by intros s a s' _ ?|].
  cbn [modal_loop]. repeat triple_step; done.
Qed.

(** *** The modal loop *)

(** Two runs of the same call from the same state agree. *)
Ltac same_call :=
  repeat match goal with
         | H1 : ?m ?st = _, H2 : ?m ?st = _ |- _ =>
             rewrite H1 in H2; injection H2 as ?; subst
         end.

Lemma modal_loop_S (fuel : nat) (startTick : Z) (s : M) :
  modal_loop os_call code (S fuel) startTick s =
  if negb (done (locals s) =? 0) then Some ((), s)
  else
    let '(now, s1) := inWorld (GetTickCount os_call) s in
    if timeoutMs <? uint32 (now - startTick) then Some ((), s1)
    else
      let '(msg, (ret, _), s2) :=
        inWorld (GetMessageW os_call MSG_zero 0 0 0) s1 in
      if ret =? 0 then Some ((), s2)
      else if ret =? -1 then Some ((), s2)
      else modal_loop os_call code fuel startTick
             (DispatchMessageW os_call code msg
                (inWorld (TranslateMessage os_call msg) s2).2).2.
Proof.
  cbn [modal_loop]. rewrite bind_total. simpl.
  destruct (negb (done (locals s) =? 0)); [done|].
  rewrite bind_total.
  destruct (inWorld (GetTickCount os_call) s) as [now s1]. simpl.
  destruct (timeoutMs <? uint32 (now - startTick)); [done|].
  rewrite bind_total.
  destruct (inWorld (GetMessageW os_call MSG_zero 0 0 0) s1)
    as [[msg [ret err]] s2]. simpl.
  destruct (ret =? 0); [done|]. destruct (ret =? -1); [done|].
  by rewrite !bind_total.
Qed.

(** The modal loop returns exactly when, after some number of full
    rounds, the dialog is done, the deadline has passed, or the
    retrieval reports the quit sentinel or an error. *)
Lemma modal_loop_exits (fuel : nat) (startTick : Z) (s s' : M) :
  modal_loop os_call code fuel startTick s = Some ((), s') ↔
  ∃ (k : nat) (sk : M) (why : ModalExit),
    (k < fuel)%nat
    ∧ modal_rounds os_call code startTick k s sk
    ∧ modal_exit os_call startTick sk s' why.
Proof.
  revert s. induction fuel as [|fuel IH]; intros s.
  - split; [done|]. intros (k & ? & ? & Hk & _). lia.
  - rewrite modal_loop_S.
    destruct (Z.eqb_spec (done (locals s)) 0) as [Hdone|Hdone]; simpl.
    2:{ split.
        - intros [= <-]. exists O, s, ExitDone.
          repeat split; [lia | constructor | by constructor].
        - intros (k & sk & why & _ & Hr & He).
          inversion Hr; subst; [|done].
          inversion He; subst; done. }
    destruct (inWorld (GetTickCount os_call) s) as [now s1] eqn:Htick.
    destruct (Z.ltb_spec timeoutMs (uint32 (now - startTick))) as [Hlate|Hintime].
    { split.
      - intros [= <-]. exists O, s, ExitTimeout.
        repeat split; [lia | constructor | by econstructor].
      - intros (k & sk & why & _ & Hr & He).
        inversion Hr; subst; [inversion He; subst|];
          same_call; try done; lia. }
    destruct (inWorld (GetMessageW os_call MSG_zero 0 0 0) s1)
      as [[msg [ret err]] s2] eqn:Hget.
    destruct (Z.eqb_spec ret 0) as [->|Hne0];
      [|destruct (Z.eqb_spec ret (-1)) as [->|Hne1]].
    + split.
      * intros [= <-]. exists O, s, ExitQuit.
        repeat split; [lia | constructor |].
        by apply (modal_exit_retrieval os_call startTick s now s1 msg 0 err s2);
          [..|left].
      * intros (k & sk & why & _ & Hr & He).
        inversion Hr; subst; [inversion He; subst|];
          same_call; try done; lia.
    + split.
      * intros [= <-]. exists O, s, ExitRetrievalError.
        repeat split; [lia | constructor |].
        by apply (modal_exit_retrieval os_call startTick s now s1 msg (-1) err s2);
          [..|right].
      * intros (k & sk & why & _ & Hr & He).
        inversion Hr; subst; [inversion He; subst|];
          same_call; try done; lia.
    + rewrite IH. split.
      * intros (k & sk & why & Hk & Hr & He).
        exists (S k), sk, why. repeat split; [lia | | done].
        by eapply modal_rounds_S.
      * intros (k & sk & why & Hk & Hr & He).
        inversion Hr; subst; [inversion He; subst|]; same_call; try done;
          try lia.
        eexists _, sk, why. repeat split; [|eassumption|done]. lia.
Qed.

(** The closing sequence of [TwoTextInputDialog] undoes its
    registration. *)
Lemma restore_table (T : gmap Z DlgProc) (hwnd : Z) (p : DlgProc) :
  match T !! hwnd with
  | None => delete hwnd (delete hwnd (<[hwnd := p]> T))
  | Some old => <[hwnd := old]> (delete hwnd (<[hwnd := p]> T))
  end = T.
Proof.
  destruct (T !! hwnd) as [old|] eqn:Hold.
  - by rewrite insert_delete_eq, insert_insert_eq, insert_id.
  - by rewrite delete_delete_eq, delete_insert_eq, delete_id.
Qed.

(** C5.  Whatever way a call of [TwoTextInputDialog] returns, the
    dialog table it leaves is the table it found: the entry it wrote
    for its window is replaced by the procedure that was registered
    before, or removed when there was none. *)
Theorem TwoTextInputDialog_restores_dialogWndProcs (fuel : nat)
    (title label1 label2 defaultValue1 defaultValue2 : string)
    (s s' : M) (res : string * string * bool * error) :
  TwoTextInputDialog os_call code fuel title label1 label2
    defaultValue1 defaultValue2 s = Some (res, s') →
  dialogWndProcs s' = dialogWndProcs s.
Proof.
  intros Hrun.
  cut (tbl_triple (eq (dialogWndProcs s))
         (TwoTextInputDialog os_call code fuel title label1 label2
            defaultValue1 defaultValue2)
         (λ _ T, T = dialogWndProcs s)).
  { intros H. by eapply H. }
  clear Hrun. unfold TwoTextInputDialog.
  repeat triple_step; try by intros ? <-.
  all: (eapply triple_bind; [apply triple_modal_loop | intros ?]).
  all: repeat triple_step.
  all: intros ? <-; apply restore_table.
Qed.

(** *** Results *)

Lemma returns_ret {A} (P : A → Prop) (a : A) :
  P a → returns P (mret a : Partial M A).
Proof. by intros HP s a' s' [= <- <-]. Qed.

Lemma returns_bind {A B} (P : B → Prop) (m : Partial M A)
    (f : A → Partial M B) :
  (∀ a, returns P (f a)) → returns P (m ≫= f).
Proof.
  intros Hf s b s' Hrun. apply bind_Some in Hrun as (a & s1 & _ & Hfa).
  by eapply Hf.
Qed.

Ltac returns_step :=
  lazymatch goal with
  | |- returns _ (mret _) => apply returns_ret
  | |- returns _ (_ ≫= _) => apply returns_bind; intros ?
  | |- returns _ (match ?e with _ => _ end) => destruct e
  end.

(** C4, amended.  When the module-handle lookup or the creation of
    the dialog window reports an error, [TwoTextInputDialog] returns
    that error wrapped, with empty texts and cancelled = false, in the
    state the failing call left and whatever the fuel: no control has
    been created, no procedure installed, the loop not entered.  The
    errors of the six control creations are dropped: once the dialog
    window exists, every return carries a nil error. *)
Theorem TwoTextInputDialog_creation_failure (fuel : nat)
    (title label1 label2 defaultValue1 defaultValue2 : string)
    (s s1 : M) (hInstance : Z) (e1 : error) (r : option (Z * error)) :
  open_dialog_window os_call title s = ((hInstance, e1, r), s1) →
  (∀ e, e1 = Some e →
     TwoTextInputDialog os_call code fuel title label1 label2
       defaultValue1 defaultValue2 s
     = Some ((EmptyString, EmptyString, false,
              Some (Wrapped "failed to get module handle" e)), s1))
  ∧ (∀ h e, r = Some (h, Some e) →
     TwoTextInputDialog os_call code fuel title label1 label2
       defaultValue1 defaultValue2 s
     = Some ((EmptyString, EmptyString, false,
              Some (Wrapped "failed to create dialog" e)), s1))
  ∧ (∀ h res s', r = Some (h, None) →
     TwoTextInputDialog os_call code fuel title label1 label2
       defaultValue1 defaultValue2 s = Some (res, s') →
     res.2 = None).
Proof.
  intros Hopen. unfold open_dialog_window in Hopen. unfold TwoTextInputDialog.
  rewrite bind_total. rewrite bind_St in Hopen.
  destruct (inWorld (getModuleHandleCurrentProcess os_call) s) as [[hI err] s0].
  simpl in *. destruct err as [e0|].
  { injection Hopen as <- <- <- <-. repeat split; [|done..].
    intros e ?. by simplify_eq. }
  do 4 (rewrite bind_total; rewrite bind_St in Hopen;
        match type of Hopen with
        | context [ (inWorld ?m ?st).1 ] =>
            destruct (inWorld m st) as [? ?]
        end; simpl in * ).
  rewrite bind_total; rewrite bind_St in Hopen.
  match type of Hopen with
  | context [ (inWorld ?m ?st).1 ] =>
      destruct (inWorld m st) as [[dialogHWnd err] s6]
  end; simpl in *.
  injection Hopen as <- <- <- <-.
  repeat split; [done | |].
  - intros h e ?. by simplify_eq.
  - intros h res s' ?. simplify_eq.
    match goal with
    | |- ?m s6 = Some (res, s') → _ =>
        cut (returns (λ res : string * string * bool * error, res.2 = None) m)
    end.
    { intros H Hrun. by eapply H. }
    repeat returns_step; done.
Qed.

(** *** The call returns when its loop does *)

Lemma lor_total {A B} (m : St M A) (f : nat → A → Partial M B) (s : M) :
  (∀ a s1, loops_or_returns os_call code (λ fuel, f fuel a) s1) →
  loops_or_returns os_call code (λ fuel, total m ≫= f fuel) s.
Proof.
  unfold loops_or_returns. intros H.
  destruct (H (m s).1 (m s).2) as [H1|(st & s0 & H1)]; [left|right].
  - intros fuel. rewrite bind_total. apply H1.
  - exists st, s0. intros fuel. rewrite bind_total. apply H1.
Qed.

Lemma lor_ret {A} (a : A) (s : M) :
  loops_or_returns os_call code (λ _, mret a : Partial M A) s.
Proof. left. by intros _. Qed.

Lemma lor_bind_ret {A B} (a : A) (f : nat → A → Partial M B) (s : M) :
  loops_or_returns os_call code (λ fuel, f fuel a) s →
  loops_or_returns os_call code (λ fuel, mret a ≫= f fuel) s.
Proof. done. Qed.

Lemma lor_assoc {A B C} (m : Partial M A) (g : A → Partial M B)
    (f : nat → B → Partial M C) (s : M) :
  loops_or_returns os_call code (λ fuel, m ≫= λ a, g a ≫= f fuel) s →
  loops_or_returns os_call code (λ fuel, (m ≫= g) ≫= f fuel) s.
Proof.
  assert (Heq : ∀ fuel, ((m ≫= g) ≫= f fuel) s = (m ≫= λ a, g a ≫= f fuel) s).
  { intros fuel. unfold mbind, Partial_bind. by destruct (m s) as [[a s1]|]. }
  unfold loops_or_returns. intros [H|(st & s0 & H)]; [left|right].
  - intros fuel. rewrite Heq. apply H.
  - exists st, s0. intros fuel. rewrite Heq. apply H.
Qed.

Lemma always_ret {A} (a : A) : always_returns (mret a : Partial M A).
Proof. by intros s. Qed.

Lemma always_total {A} (m : St M A) : always_returns (total m).
Proof. by intros s. Qed.

Lemma always_bind {A B} (m : Partial M A) (f : A → Partial M B) :
  always_returns m → (∀ a, always_returns (f a)) → always_returns (m ≫= f).
Proof.
  intros Hm Hf s. unfold mbind, Partial_bind. specialize (Hm s).
  destruct (m s) as [[a s1]|]; [apply Hf | done].
Qed.

Lemma lor_loop {B} (st : Z) (f : () → Partial M B) (s : M) :
  (∀ u, always_returns (f u)) →
  loops_or_returns os_call code
    (λ fuel, modal_loop os_call code fuel st ≫= f) s.
Proof.
  intros Hf. right. exists st, s. intros fuel.
  unfold mbind, Partial_bind.
  destruct (modal_loop os_call code fuel st s) as [[u s1]|]; [|done].
  split; [|done]. intros H. by destruct (Hf u s1).
Qed.

(** A dialog call fails to return only while its modal loop is still
    running: either it returns whatever the fuel (a creation failure),
    or it returns with exactly the fuel with which the loop it entered
    returns. *)
Lemma TwoTextInputDialog_loops_or_returns
    (title label1 label2 defaultValue1 defaultValue2 : string) (s : M) :
  loops_or_returns os_call code
    (λ fuel, TwoTextInputDialog os_call code fuel title label1 label2
               defaultValue1 defaultValue2) s.
Proof.
  unfold TwoTextInputDialog. revert s.
  repeat lazymatch goal with
    | |- ∀ s, loops_or_returns _ _ (λ _, mret _) s => intros ?; apply lor_ret
    | |- ∀ s, loops_or_returns _ _ (λ fuel, mret _ ≫= _) s =>
        let x := fresh in intros x; apply lor_bind_ret; revert x
    | |- ∀ s, loops_or_returns _ _ (λ fuel, (_ ≫= _) ≫= _) s =>
        let x := fresh in intros x; apply lor_assoc; revert x
    | |- ∀ s, loops_or_returns _ _ (λ fuel, total _ ≫= _) s =>
        intros ?; apply lor_total; intros ?
    | |- ∀ s, loops_or_returns _ _ (λ fuel, (if ?c then _ else _) ≫= _) s =>
        destruct c
    | |- ∀ s, loops_or_returns _ _ (λ fuel, match ?e with _ => _ end) s =>
        destruct e
    end.
  all: intros ?; apply lor_loop; intros ?.
  all: repeat first
         [ apply always_ret
         | apply always_total
         | apply always_bind; [|intros ?]
         | match goal with
           | |- always_returns (match ?e with _ => _ end) => destruct e
           end ].
Qed.

(** With [modal_loop_exits]: once the dialog is up, the call returns
    exactly when, within the fuel, the dialog is done, the deadline
    has passed, or the retrieval reports quit or an error. *)
Lemma TwoTextInputDialog_returns_iff
    (title label1 label2 defaultValue1 defaultValue2 : string) (s : M) :
  (∀ fuel, TwoTextInputDialog os_call code fuel title label1 label2
             defaultValue1 defaultValue2 s ≠ None)
  ∨ ∃ startTick s0, ∀ fuel,
      TwoTextInputDialog os_call code fuel title label1 label2
        defaultValue1 defaultValue2 s ≠ None
      ↔ ∃ (k : nat) (sk s1 : M) (why : ModalExit),
          (k < fuel)%nat
          ∧ modal_rounds os_call code startTick k s0 sk
          ∧ modal_exit os_call startTick sk s1 why.
Proof.
  destruct (TwoTextInputDialog_loops_or_returns title label1 label2
              defaultValue1 defaultValue2 s) as [H|(st & s0 & H)];
    [by left|right].
  exists st, s0. intros fuel. rewrite H. split.
  - intros Hrun.
    destruct (modal_loop os_call code fuel st s0) as [[[] s1]|] eqn:Hloop;
      [|done].
    apply modal_loop_exits in Hloop as (k & sk & why & Hk & Hr & He).
    by exists k, sk, s1, why.
  - intros (k & sk & s1 & why & Hk & Hr & He).
    assert (Hloop : modal_loop os_call code fuel st s0 = Some ((), s1)).
    { apply modal_loop_exits. by exists k, sk, why. }
    by rewrite Hloop.
Qed.

(** The notifications of [DestroyWindow] never make the dialog's
    procedure destroy a window: which [DestroyWindow] the procedures
    below it reach makes no difference. *)
Lemma destroy_notify_closed (D D' : Z → St M error) (hwnd : Z) (s : M) :
  DestroyWindow_ os_call code D hwnd s = DestroyWindow_ os_call code D' hwnd s.
Proof.
  assert (Hcp : ∀ cp msg st, msg ≠ WM_CLOSE →
            call_ClassProc os_call code D cp hwnd msg 0 0 st
            = call_ClassProc os_call code D' cp hwnd msg 0 0 st).
  { intros cp msg st Hmsg. destruct cp; [done | | done].
    unfold call_ClassProc, dialogGlobalWndProc_. rewrite !bind_St.
    destruct (getDialogWndProc hwnd st).1 as [[e1 e2|ref]|]; [|done..].
    unfold call_DlgProc, TwoTextInputDialog_func.
    destruct (msg =? WM_COMMAND); [done|].
    by destruct (Z.eqb_spec msg WM_CLOSE). }
  assert (Hu : user32_DestroyWindow_ os_call code D hwnd s
               = user32_DestroyWindow_ os_call code D' hwnd s).
  { unfold user32_DestroyWindow_. repeat (rewrite bind_St; cbv beta).
    destruct (_ =? 0); [done|]. repeat (rewrite bind_St; cbv beta).
    by rewrite !Hcp by (intros Heq; discriminate Heq). }
  unfold DestroyWindow_. rewrite !bind_St. by rewrite Hu.
Qed.

End DialogFacts.

(** ** The main registry over a dialog call

    Messages the modal loop dispatches to windows of other classes run
    their procedures as usual; a trampolined window's procedure can
    change the registry.  When the OS routes nothing to the trampoline
    ([calm]) the registry after a dialog call is the registry before
    it. *)

Section RegistryFrame.
Context {U OS : Type}.
Variable os_call : ∀ T, syscall T → OS → T * OS.
Variable code : nat → Z → Z → Z → Z → St (World U OS) Z.
Variable calm : OS → Prop.
Hypothesis calm_step :
  ∀ T (c : syscall T) (o : OS), calm o → calm (os_call T c o).2.
Hypothesis calm_route :
  ∀ (h : Z) (o : OS), calm o →
    (os_call ClassProc (SysWindowProc h) o).1 ≠ ProcGlobalWndProc.

Local Abbreviation M := (Machine U OS).

Lemma stays_sys {T} (c : syscall T) :
  stays calm (sys os_call c : St (World U OS) T).
Proof.
  intros w Hw. unfold sys. specialize (calm_step T c (os w) Hw).
  by destruct (os_call T c (os w)).
Qed.

Lemma stays_ret {A} (a : A) : stays calm (mret a : St (World U OS) A).
Proof. by intros w Hw. Qed.

Lemma stays_bind {A B} (m : St (World U OS) A) (f : A → St (World U OS) B) :
  stays calm m → (∀ a, stays calm (f a)) → stays calm (m ≫= f).
Proof.
  intros Hm Hf w Hw. rewrite bind_St.
  destruct (Hm w Hw) as [Hc Hr].
  destruct (Hf (m w).1 (m w).2 Hc) as [Hc' Hr'].
  split; [done | congruence].
Qed.

Ltac stays_step :=
  repeat first
    [ apply stays_sys
    | apply stays_ret
    | apply stays_bind; [|intros ?]
    | match goal with
      | |- stays _ (match ?e with _ => _ end) => destruct e
      end ].

Lemma stays_GetLastError :
  stays calm (GetLastError os_call : St (World U OS) error).
Proof. unfold GetLastError. stays_step. Qed.

Hint Resolve stays_GetLastError : core.

Ltac stays_wrapper :=
  unfold getModuleHandleCurrentProcess, CreateWindowExW, GetMessageW,
    TranslateMessage, GetWindowTextW, SetFocus, PostMessageW, ShowWindowW,
    IsWindowW, GetTickCount, ScaleX, ScaleY, ScaleSize, CreateFontW,
    SetWindowFontW, DefWindowProcW;
  stays_step; auto.

Local Abbreviation steady := (steady calm).

Section Steady.
Variable reg : gmap Z nat.

Lemma steady_inWorld {A} (m : St (World U OS) A) :
  stays calm m → steady reg (inWorld m).
Proof.
  intros Hm s (Hc & Hr & Hn). unfold inWorld.
  destruct (Hm (world s) Hc) as [Hc' Hr'].
  destruct (m (world s)) as [a w]. unfold settled. simpl in *.
  repeat split; [done | congruence | done].
Qed.

Lemma steady_ret {A} (a : A) : steady reg (mret a : St M A).
Proof. by intros s Hs. Qed.

Lemma steady_bind {A B} (m : St M A) (f : A → St M B) :
  steady reg m → (∀ a, steady reg (f a)) → steady reg (m ≫= f).
Proof. intros Hm Hf s Hs. rewrite bind_St. by apply Hf, Hm. Qed.

Lemma steady_set_locals (f : Locals → Locals) :
  steady reg (set_locals f : St M ()).
Proof. by intros s Hs. Qed.

Ltac steady_step :=
  repeat first
    [ assumption
    | match goal with
      | H : ∀ h, steady _ (?D h) |- steady _ (?D _) => apply H
      end
    | apply steady_ret
    | apply steady_set_locals
    | apply steady_inWorld; solve [stays_wrapper]
    | apply steady_bind; [|intros ?]
    | match goal with
      | |- steady _ (match ?e with _ => _ end) => destruct e
      end ].

Lemma steady_TwoTextInputDialog_func (D : Z → St M error)
    (e1 e2 hwnd msg wParam lParam : Z) :
  (∀ h, steady reg (D h)) →
  steady reg (TwoTextInputDialog_func os_call D e1 e2 hwnd msg wParam lParam).
Proof. intros HD. unfold TwoTextInputDialog_func. steady_step. Qed.

Lemma steady_dialogGlobalWndProc_ (D : Z → St M error)
    (hwnd msg wParam lParam : Z) :
  (∀ h, steady reg (D h)) →
  steady reg (dialogGlobalWndProc_ os_call code D hwnd msg wParam lParam).
Proof.
  intros HD s Hs. unfold dialogGlobalWndProc_, getDialogWndProc.
  rewrite bind_St. simpl.
  destruct (dialogWndProcs s !! hwnd) as [[e1 e2|ref]|] eqn:Hlook; simpl.
  - by apply steady_TwoTextInputDialog_func.
  - destruct Hs as (_ & _ & Hn). by destruct (Hn hwnd ref).
  - apply steady_inWorld; [stays_wrapper | done].
Qed.

Lemma steady_call_ClassProc (D : Z → St M error) (cp : ClassProc)
    (hwnd msg wParam lParam : Z) :
  (∀ h, steady reg (D h)) →
  cp ≠ ProcGlobalWndProc →
  steady reg (call_ClassProc os_call code D cp hwnd msg wParam lParam).
Proof.
  intros HD Hcp. destruct cp; [done | | ]; simpl.
  - by apply steady_dialogGlobalWndProc_.
  - apply steady_inWorld. stays_wrapper.
Qed.

Lemma route_settled (hwnd : Z) (s : M) :
  settled calm reg s →
  (inWorld (sys os_call (SysWindowProc hwnd)) s).1 ≠ ProcGlobalWndProc.
Proof.
  intros (Hc & _). specialize (calm_route hwnd (os (world s)) Hc).
  unfold inWorld, sys. by destruct (os_call ClassProc _ (os (world s))).
Qed.

Lemma steady_user32_DestroyWindow_ (D : Z → St M error) (hwnd : Z) :
  (∀ h, steady reg (D h)) →
  steady reg (user32_DestroyWindow_ os_call code D hwnd).
Proof.
  intros HD s Hs. unfold user32_DestroyWindow_.
  pose proof (route_settled hwnd s Hs) as Hroute.
  assert (Hs1 : settled calm reg (inWorld (sys os_call (SysWindowProc hwnd)) s).2)
    by (apply steady_inWorld; [stays_wrapper | done]).
  rewrite bind_St.
  destruct (inWorld (sys os_call (SysWindowProc hwnd)) s) as [cp s1].
  simpl in Hroute, Hs1. simpl. revert s1 Hs1.
  apply (steady_bind (inWorld (sys os_call (SysDestroyWindow hwnd)))).
  { apply steady_inWorld. stays_wrapper. }
  intros r1. destruct (r1 =? 0); [apply steady_ret|].
  pose proof (λ m, steady_call_ClassProc D cp hwnd m 0 0 HD Hroute) as Hcall.
  repeat (apply steady_bind; [apply Hcall | intros ?]). apply steady_ret.
Qed.

Lemma steady_DestroyWindow_ (D : Z → St M error) (hwnd : Z) :
  (∀ h, steady reg (D h)) →
  steady reg (DestroyWindow_ os_call code D hwnd).
Proof.
  intros HD. unfold DestroyWindow_.
  pose proof (steady_user32_DestroyWindow_ D hwnd HD). steady_step.
Qed.

Lemma steady_DestroyWindow (hwnd : Z) :
  steady reg (DestroyWindow os_call code hwnd).
Proof.
  apply steady_DestroyWindow_. intros h. unfold DestroyWindow_quiet.
  steady_step.
Qed.

Lemma steady_DispatchMessageW (msg : MSG) :
  steady reg (DispatchMessageW os_call code msg).
Proof.
  intros s Hs. unfold DispatchMessageW, user32_DispatchMessageW_.
  pose proof (route_settled (HWnd msg) s Hs) as Hroute.
  assert (Hs1 : settled calm reg
                  (inWorld (sys os_call (SysWindowProc (HWnd msg))) s).2)
    by (apply steady_inWorld; [stays_wrapper | done]).
  rewrite bind_St.
  destruct (inWorld (sys os_call (SysWindowProc (HWnd msg))) s) as [cp s1].
  simpl in *. apply steady_call_ClassProc; [|done..].
  apply steady_DestroyWindow.
Qed.

Lemma holds_ret {A} (a : A) (P : A → Prop) :
  P a → holds calm reg (mret a : Partial M A) P.
Proof. by intros HP s a' s' Hs [= <- <-]. Qed.

Lemma holds_bind {A B} (m : Partial M A) (f : A → Partial M B)
    (P : A → Prop) (Q : B → Prop) :
  holds calm reg m P → (∀ a, P a → holds calm reg (f a) Q) →
  holds calm reg (m ≫= f) Q.
Proof.
  intros Hm Hf s b s' Hs Hrun.
  apply bind_Some in Hrun as (a & s1 & Hma & Hfa).
  destruct (Hm s a s1 Hs Hma) as [Hs1 HP]. by eapply Hf.
Qed.

Lemma holds_total {A} (m : St M A) :
  steady reg m → holds calm reg (total m) (λ _, True).
Proof. intros Hm s a s' Hs [= Hrun]. specialize (Hm s Hs). by rewrite Hrun in Hm. Qed.

Lemma holds_bind_total {A B} (m : St M A) (f : A → Partial M B) (Q : B → Prop) :
  steady reg m → (∀ a, holds calm reg (f a) Q) →
  holds calm reg (total m ≫= f) Q.
Proof.
  intros Hm Hf. eapply holds_bind; [by apply holds_total | by intros a _].
Qed.

Lemma holds_bind_ret {A B} (a : A) (f : A → Partial M B) (Q : B → Prop) :
  holds calm reg (f a) Q → holds calm reg (mret a ≫= f) Q.
Proof. intros Hf s b s' Hs Hrun. by eapply Hf. Qed.

Lemma holds_bind_assoc {A B C} (m : Partial M A) (g : A → Partial M B)
    (f : B → Partial M C) (Q : C → Prop) :
  holds calm reg (m ≫= λ a, g a ≫= f) Q → holds calm reg ((m ≫= g) ≫= f) Q.
Proof.
  intros H s c s' Hs Hrun. eapply H; [done|].
  unfold mbind, Partial_bind in *. by destruct (m s) as [[a s1]|].
Qed.

Lemma holds_bind_setDialogWndProc {B} (hwnd : Z) (proc : option DlgProc)
    (f : option DlgProc → Partial M B) (Q : B → Prop) :
  (∀ ref, proc ≠ Some (ClientClosure ref)) →
  (∀ old, (∀ ref, old ≠ Some (ClientClosure ref)) → holds calm reg (f old) Q) →
  holds calm reg (total (setDialogWndProc hwnd proc) ≫= f) Q.
Proof.
  intros Hproc Hf s b s' (Hc & Hr & Hn) Hrun. rewrite bind_total in Hrun.
  assert (Hold : (setDialogWndProc hwnd proc s).1 = dialogWndProcs s !! hwnd)
    by (by destruct proc).
  rewrite Hold in Hrun.
  eapply (Hf (dialogWndProcs s !! hwnd)); [apply Hn | | exact Hrun].
  repeat split; [by destruct proc | by destruct proc |].
  intros h ref. destruct proc as [p|]; simpl.
  - destruct (decide (hwnd = h)) as [->|Hne].
    + rewrite lookup_insert_eq. intros [= ->]. by destruct (Hproc ref).
    + rewrite lookup_insert_ne by done. apply Hn.
  - destruct (decide (hwnd = h)) as [->|Hne].
    + by rewrite lookup_delete_eq.
    + rewrite lookup_delete_ne by done. apply Hn.
Qed.

Ltac holds_step :=
  lazymatch goal with
  | |- holds _ _ (mret _) _ => by apply holds_ret
  | |- holds _ _ (mret _ ≫= _) _ => apply holds_bind_ret
  | |- holds _ _ ((_ ≫= _) ≫= _) _ => apply holds_bind_assoc
  | |- holds _ _ (total (setDialogWndProc _ _) ≫= _) _ =>
      apply holds_bind_setDialogWndProc; [by intros ? | intros ? ?]
  | |- holds _ _ (total _ ≫= _) _ =>
      apply holds_bind_total;
      [ first [ apply steady_DestroyWindow
              | apply steady_DispatchMessageW
              | by intros ? ?
              | apply steady_inWorld; solve [stays_wrapper] ]
      | intros ? ]
  | |- holds _ _ ((if ?c then _ else _) ≫= _) _ => destruct c
  | |- holds _ _ (match ?e with _ => _ end) _ => destruct e
  end.

Lemma holds_modal_loop (fuel : nat) (startTick : Z) :
  holds calm reg (modal_loop os_call code fuel startTick) (λ _, True).
Proof.
  induction fuel as [|fuel IH]; [by intros s a s' _ ?|].
  cbn [modal_loop]. repeat holds_step. apply IH.
Qed.

Lemma holds_TwoTextInputDialog (fuel : nat)
    (title label1 label2 defaultValue1 defaultValue2 : string) :
  holds calm reg
    (TwoTextInputDialog os_call code fuel title label1 label2
       defaultValue1 defaultValue2) (λ _, True).
Proof.
  unfold TwoTextInputDialog.
  repeat holds_step.
  all: (eapply holds_bind; [apply holds_modal_loop | intros ? _]).
  all: repeat holds_step.
Qed.

End Steady.

(** On a calm OS, with no client closure in the dialog table, a dialog
    call returns with the main registry it started with. *)
Lemma TwoTextInputDialog_keeps_wndProcByHWND (fuel : nat)
    (title label1 label2 defaultValue1 defaultValue2 : string)
    (s s' : M) (res : string * string * bool * error) :
  calm (os (world s)) →
  no_client (dialogWndProcs s) →
  TwoTextInputDialog os_call code fuel title label1 label2
    defaultValue1 defaultValue2 s = Some (res, s') →
  wndProcByHWND (world s') = wndProcByHWND (world s).
Proof.
  intros Hc Hn Hrun.
  by destruct (holds_TwoTextInputDialog (wndProcByHWND (world s)) fuel title
                 label1 label2 defaultValue1 defaultValue2 s res s'
                 (conj Hc (conj eq_refl Hn)) Hrun) as [(_ & ? & _) _].
Qed.

End RegistryFrame.

(** ** What a dialog call can change in the main registry

    The dialog's own code never writes [wndProcByHWND].  While its
    modal loop runs, the procedures of the other windows of the thread
    run as usual, and the trampoline is one of them: it removes the
    entry of a window that receives [WM_NCDESTROY], and the client's
    procedures it calls do what they do.  So a property [I] of the
    world survives a dialog call when the system calls keep it and the
    trampoline keeps it for the windows the OS routes to it ([H]). *)

Section InvariantFrame.
Context {U OS : Type}.
Variable os_call : ∀ T, syscall T → OS → T * OS.
Variable code : nat → Z → Z → Z → Z → St (World U OS) Z.
Variable I : World U OS → Prop.
Variable H : Z → Prop.
Hypothesis I_sys :
  ∀ T (c : syscall T) (w : World U OS), I w → I (sys os_call c w).2.
Hypothesis I_route :
  ∀ (h : Z) (w : World U OS), I w →
    (os_call ClassProc (SysWindowProc h) (os w)).1 = ProcGlobalWndProc → H h.
Hypothesis I_proc :
  ∀ (h msg wParam lParam : Z) (w : World U OS), H h → I w →
    I (globalWndProc os_call code h msg wParam lParam w).2.

Local Abbreviation M := (Machine U OS).

Lemma inv_sys {T} (c : syscall T) :
  keeps_inv I (sys os_call c : St (World U OS) T).
Proof. intros w Hw. by apply I_sys. Qed.

Lemma inv_ret {A} (a : A) : keeps_inv I (mret a : St (World U OS) A).
Proof. by intros w Hw. Qed.

Lemma inv_bind {A B} (m : St (World U OS) A) (f : A → St (World U OS) B) :
  keeps_inv I m → (∀ a, keeps_inv I (f a)) → keeps_inv I (m ≫= f).
Proof. intros Hm Hf w Hw. rewrite bind_St. by apply Hf, Hm. Qed.

Ltac inv_step :=
  repeat first
    [ apply inv_sys
    | apply inv_ret
    | apply inv_bind; [|intros ?]
    | match goal with
      | |- keeps_inv _ (match ?e with _ => _ end) => destruct e
      end ].

Lemma inv_GetLastError :
  keeps_inv I (GetLastError os_call : St (World U OS) error).
Proof. unfold GetLastError. inv_step. Qed.

Hint Resolve inv_GetLastError : core.


























End InvariantFrame.







(** *** The dialog on concrete desks *)

(** C3.  What the code returns on the three ways out that are not an
    accept.  A cancel activation ([WM_COMMAND] with [IDCANCEL]) returns
    cancelled = true and no error.  An activation of the close control
    ([WM_CLOSE], answered by [DestroyWindow] and so [WM_DESTROY]) and
    the expiry of the 30-second timeout (the clock reads 1000 at loop
    entry, 1010 before a paint message, 32000 after it) return
    cancelled = false and no error. *)
Theorem TwoTextInputDialog_cancelled_only_on_IDCANCEL :
  fst <$> run_dialog 5 (dialog_desk [0; 1; 2]
                          [(1, msg_to 0x5000 WM_COMMAND IDCANCEL)]) ∅
    = Some (EmptyString, EmptyString, true, None)
  ∧ fst <$> run_dialog 5 (dialog_desk [0; 1; 2]
                            [(1, msg_to 0x5000 WM_CLOSE 0)]) ∅
    = Some (EmptyString, EmptyString, false, None)
  ∧ fst <$> run_dialog 5 (dialog_desk [1000; 1010; 32000]
                            [(1, msg_to 0x5000 0x000F 0)]) ∅
    = Some (EmptyString, EmptyString, false, None).
Proof. split; [|split]; vm_compute; reflexivity. Qed.

(** The accept path, the quit sentinel and a retrieval error. *)
Example TwoTextInputDialog_other_exits :
  fst <$> run_dialog 5 (dialog_desk [0; 1; 2]
                          [(1, msg_to 0x5000 WM_COMMAND IDOK)]) ∅
    = Some ("alice", "secret", false, None)
  ∧ fst <$> run_dialog 5 (dialog_desk [0; 1; 2] [(0, msg_to 0 0x0012 7)]) ∅
    = Some (EmptyString, EmptyString, false, None)
  ∧ fst <$> run_dialog 5 (dialog_desk [0; 1; 2] []) ∅
    = Some (EmptyString, EmptyString, false, None).
Proof. split; [|split]; vm_compute; reflexivity. Qed.

(** C4, as stated, fails: the creation of the first control (and of
    every other one) is refused by the OS, and the call still enters its
    loop, reads the clock twice, and returns no error. *)
Lemma TwoTextInputDialog_control_failure_ignored :
  let s := dialog_machine controls_refused_desk ∅ in
  let s1 := (open_dialog_window desk_call "t" s).2 in
  (inWorld (CreateWindowExW desk_call 0 "STATIC" "a"
              (With 0 (Z.lor WS_VISIBLE WS_CHILD))
              10 10 100 20 0x5000 0 0x400000 0) s1).1
    = (0, Some (Errno 1400))
  ∧ fst <$> run_dialog 1 controls_refused_desk ∅
    = Some (EmptyString, EmptyString, false, None)
  ∧ (λ r, d_ticks (os (world r.2))) <$> run_dialog 1 controls_refused_desk ∅
    = Some [].
Proof. split; [|split]; vm_compute; reflexivity. Qed.

Lemma TwoTextInputDialog_creation_failure_witness :
  run_dialog 0 window_refused_desk ∅
  = Some ((EmptyString, EmptyString, false,
           Some (Wrapped "failed to create dialog" (Errno 1407))),
          dialog_machine window_refused_desk ∅).
Proof.
  assert (Hopen : open_dialog_window desk_call "t"
                    (dialog_machine window_refused_desk ∅)
                  = ((0x400000, None, Some (0, Some (Errno 1407))),
                     dialog_machine window_refused_desk ∅))
    by (vm_compute; reflexivity).
  exact (proj1 (proj2 (TwoTextInputDialog_creation_failure desk_call test_code
                         0 "t" "a" "b" "x" "y" _ _ _ _ _ Hopen))
           0 (Errno 1407) eq_refl).
Defined.

Lemma TwoTextInputDialog_restores_dialogWndProcs_witness :
  match run_dialog 5 (dialog_desk [0; 1; 2] [(1, msg_to 0x5000 WM_COMMAND IDOK)])
          {[ 0x5000 := ClientClosure 7 ]} with
  | Some (res, s') =>
      res = ("alice", "secret", false, None)
      ∧ dialogWndProcs s' = {[ 0x5000 := ClientClosure 7 ]}
  | None => False
  end.
Proof.
  unfold run_dialog.
  destruct (TwoTextInputDialog _ _ _ _ _ _ _ _ _) as [[res s']|] eqn:Hrun.
  - split;
      [|exact (TwoTextInputDialog_restores_dialogWndProcs _ _ _ _ _ _ _ _ _ _ _ Hrun)].
    vm_compute in Hrun. by injection Hrun as <- _.
  - vm_compute in Hrun. discriminate Hrun.
Defined.

Lemma no_trampolined_step (T : Type) (c : syscall T) (d : Desk) :
  no_trampolined d → no_trampolined (desk_call T c d).2.
Proof.
  unfold no_trampolined. intros Hd.
  destruct c; simpl; try done.
  - by destruct (d_created d).
  - by destruct (d_queue d).
  - by destruct (mem hwnd (d_alive d)).
  - by destruct (d_ticks d).
Qed.

Lemma no_trampolined_route (h : Z) (d : Desk) :
  no_trampolined d →
  (desk_call ClassProc (SysWindowProc h) d).1 ≠ ProcGlobalWndProc.
Proof.
  unfold no_trampolined. intros Hd. simpl. rewrite Hd. simpl.
  by destruct (mem h (d_dialogs d)).
Qed.

(** The registry frame on a desk: the test's registration survives a
    dialog that is accepted. *)
Example TwoTextInputDialog_keeps_test_registration :
  match TwoTextInputDialog desk_call test_code 5 "t" "a" "b" "x" "y"
          (mkMachine
             (mkWorld (wndProcByHWND test_world) (mkTestVars 0 false)
                (dialog_desk [0; 1; 2] [(1, msg_to 0x5000 WM_COMMAND IDOK)]))
             ∅ (mkLocals EmptyString EmptyString false 0)) with
  | Some (_, s') => (getWndProc test_hwnd (world s')).1 = Some 0%nat
  | None => False
  end.
Proof.
  destruct (TwoTextInputDialog _ _ _ _ _ _ _ _ _) as [[res s']|] eqn:Hrun.
  - unfold getWndProc. simpl.
    pose proof (λ Hc Hn,
                  TwoTextInputDialog_keeps_wndProcByHWND desk_call test_code
                    no_trampolined no_trampolined_step no_trampolined_route
                    _ _ _ _ _ _ _ _ _ Hc Hn Hrun) as Hreg.
    simpl in Hreg. rewrite Hreg; [reflexivity | reflexivity |].
    intros h ref. by rewrite lookup_empty.
  - vm_compute in Hrun. discriminate Hrun.
Qed.

(** [MessageLoop] on a desk: one message for the test's window, then
    the quit sentinel carrying exit code 7; an empty queue is a
    retrieval error; one unit of fuel is not enough for two rounds. *)
Example MessageLoop_runs :
  (λ r, (r.1, called (heap (world r.2))))
    <$> MessageLoop desk_call test_code 5
          (loop_machine 0 [(1, msg_to test_hwnd 0x0400 1); (0, msg_to 0 0x0012 7)])
    = Some ((7, None), 1)
  ∧ fst <$> MessageLoop desk_call test_code 5 (loop_machine 5 [])
    = Some (0, Some (Errno 5))
  ∧ MessageLoop desk_call test_code 1
      (loop_machine 0 [(1, msg_to test_hwnd 0x0400 1); (0, msg_to 0 0x0012 7)])
    = None.
Proof. split; [|split]; vm_compute; reflexivity. Qed.

(** The exit code [PostQuitMessage] passes as [uintptr(exitCode)] comes
    back from [int32(msg.WParam)]. *)
Lemma int32_uintptr (exitCode : Z) :
  - 2 ^ 31 ≤ exitCode < 2 ^ 31 → int32 (uintptr exitCode) = exitCode.
Proof.
  intros Hrange. unfold int32, uintptr.
  destruct (Z.le_gt_cases 0 exitCode) as [Hpos|Hneg].
  - rewrite (Z.mod_small exitCode) by lia. rewrite Z.mod_small; lia.
  - replace (exitCode mod 2 ^ 64) with (exitCode + 2 ^ 64).
    + replace (exitCode + 2 ^ 64 + 2 ^ 31)
        with (exitCode + 2 ^ 31 + 2 ^ 32 * 2 ^ 32) by lia.
      rewrite Z.mod_add by lia. rewrite Z.mod_small; lia.
    + replace exitCode with (exitCode + 2 ^ 64 + (-1) * 2 ^ 64) at 2 by lia.
      rewrite Z.mod_add by lia. rewrite Z.mod_small; lia.
Qed.

(** * Properties of the further code *)

(** ** Window styles *)

Ltac bitwise :=
  apply Z.bits_inj'; intros ? ?;
  repeat first [rewrite Z.land_spec | rewrite Z.lor_spec | rewrite Z.ldiff_spec
               | rewrite Z.bits_0].

Lemma Has_spec (s bits : Z) :
  Has s bits = true ↔ ∀ n, 0 ≤ n → Z.testbit bits n = true → Z.testbit s n = true.
Proof.
  unfold Has. rewrite Z.eqb_eq. split.
  - intros Heq n Hn Hbit.
    assert (Hb : Z.testbit (Z.land s bits) n = Z.testbit bits n) by by rewrite Heq.
    rewrite Z.land_spec, Hbit in Hb. by destruct (Z.testbit s n).
  - intros Hall. bitwise.
    destruct (Z.testbit bits _) eqn:Hbit; [|by rewrite andb_false_r].
    by rewrite Hall.
Qed.

Lemma uint32_bits (x : Z) :
  0 ≤ x < 2 ^ 32 ↔ 0 ≤ x ∧ ∀ n, 32 ≤ n → Z.testbit x n = false.
Proof.
  split.
  - intros [H0 Hlt]. split; [done|]. intros n Hn.
    destruct (Z.eq_dec x 0) as [->|Hnz]; [apply Z.bits_0|].
    apply Z.bits_above_log2; [done|].
    assert (Z.log2 x < 32) by (apply Z.log2_lt_pow2; lia). lia.
  - intros [H0 Hbits]. split; [done|].
    destruct (Z.eq_dec x 0) as [->|Hnz]; [lia|].
    destruct (Z.lt_ge_cases x (2 ^ 32)) as [|Hge]; [done|].
    assert (Hlog : 32 ≤ Z.log2 x) by (apply Z.log2_le_pow2; lia).
    pose proof (Z.bit_log2 x ltac:(lia)) as Hbit.
    rewrite Hbits in Hbit by done. done.
Qed.

(** X1.  After [With], [Has] finds every bit of the mask just set,
    and every mask it found before. *)
Theorem Has_With (s bits other : Z) :
  Has (With s bits) bits = true
  ∧ (Has s other = true → Has (With s bits) other = true)
  ∧ Has s (Z.lor bits other) = Has s bits && Has s other.
Proof.
  split; [|split].
  - apply Has_spec. intros n Hn Hbit. unfold With.
    by rewrite Z.lor_spec, Hbit, orb_true_r.
  - rewrite !Has_spec. intros Hall n Hn Hbit. unfold With.
    by rewrite Z.lor_spec, Hall.
  - apply Bool.eq_iff_eq_true. rewrite andb_true_iff, !Has_spec. split.
    + intros Hall. split; intros n Hn Hbit; apply Hall; try done;
        rewrite Z.lor_spec, Hbit; by rewrite ?orb_true_r.
    + intros [Hb Ho] n Hn Hbit. rewrite Z.lor_spec in Hbit.
      apply orb_true_iff in Hbit as [Hbit|Hbit]; auto.
Qed.

(** TestWindowStyle_WithWithoutHas, from the laws. *)
Lemma Has_With_witness :
  Has (With 0 (Z.lor WS_VISIBLE WS_SYSMENU)) WS_VISIBLE = true
  ∧ Has (With 0 (Z.lor WS_VISIBLE WS_SYSMENU)) WS_SYSMENU = true
  ∧ Has (With (With 0 WS_VISIBLE) WS_CAPTION) WS_VISIBLE = true.
Proof.
  pose proof (Has_With 0 (Z.lor WS_VISIBLE WS_SYSMENU) 0) as (Hset & _ & _).
  pose proof (Has_With (With 0 (Z.lor WS_VISIBLE WS_SYSMENU))
                WS_VISIBLE WS_SYSMENU) as (_ & _ & Hsplit).
  rewrite Hsplit in Hset. apply andb_true_iff in Hset as [Hv Hs].
  split; [exact Hv|]. split; [exact Hs|].
  apply (proj1 (proj2 (Has_With (With 0 WS_VISIBLE) WS_CAPTION WS_VISIBLE))).
  reflexivity.
Defined.

(** X2.  After [Without], [Has] of a non-empty mask that was cleared
    is false; [Has] of the empty mask is true on every style; a mask
    that shares no bit with the cleared one is found exactly when it
    was found before. *)
Theorem Has_Without (s bits other : Z) :
  (bits ≠ 0 → Has (Without s bits) bits = false)
  ∧ Has s 0 = true
  ∧ (Z.land other bits = 0 → Has (Without s bits) other = Has s other).
Proof.
  repeat split.
  - intros Hne. unfold Has, Without. apply Z.eqb_neq. intros Heq.
    apply Hne. rewrite <- Heq. bitwise.
    by destruct (Z.testbit s _), (Z.testbit bits _).
  - unfold Has. by rewrite Z.land_0_r.
  - intros Hdisj. unfold Has, Without. f_equal. bitwise.
    match goal with
    | n : Z |- _ =>
        assert (Hb : Z.testbit (Z.land other bits) n = false)
          by (by rewrite Hdisj, Z.bits_0);
        rewrite Z.land_spec in Hb
    end.
    by destruct (Z.testbit s _), (Z.testbit bits _), (Z.testbit other _).
Qed.

Lemma Has_Without_witness :
  WS_VISIBLE ≠ 0
  ∧ Z.land WS_SYSMENU WS_VISIBLE = 0
  ∧ Has (Without (With 0 (Z.lor WS_VISIBLE WS_SYSMENU)) WS_VISIBLE) WS_VISIBLE
    = false
  ∧ Has (Without (With 0 (Z.lor WS_VISIBLE WS_SYSMENU)) WS_VISIBLE) WS_SYSMENU
    = true.
Proof.
  split; [discriminate|]. split; [reflexivity|].
  destruct (Has_Without (With 0 (Z.lor WS_VISIBLE WS_SYSMENU))
              WS_VISIBLE WS_SYSMENU) as (Hclear & _ & Hkeep).
  split; [apply Hclear; discriminate|].
  rewrite Hkeep by reflexivity. reflexivity.
Defined.

(** X3.  [With] and [Without] of the same mask undo each other up to
    that mask: clearing after setting is clearing, setting after
    clearing is setting, and a style that had none of the bits comes
    back unchanged from setting and clearing them.  Both keep a style
    inside [uint32]. *)
Theorem With_Without (s bits : Z) :
  Without (With s bits) bits = Without s bits
  ∧ With (Without s bits) bits = With s bits
  ∧ (Z.land s bits = 0 → Without (With s bits) bits = s)
  ∧ (0 ≤ s < 2 ^ 32 → 0 ≤ bits < 2 ^ 32 →
     0 ≤ With s bits < 2 ^ 32 ∧ 0 ≤ Without s bits < 2 ^ 32).
Proof.
  split; [|split; [|split]].
  - unfold With, Without. bitwise.
    by destruct (Z.testbit s _), (Z.testbit bits _).
  - unfold With, Without. bitwise.
    by destruct (Z.testbit s _), (Z.testbit bits _).
  - intros Hdisj. unfold With, Without. bitwise.
    match goal with
    | n : Z |- _ =>
        assert (Hb : Z.testbit (Z.land s bits) n = false)
          by (by rewrite Hdisj, Z.bits_0);
        rewrite Z.land_spec in Hb
    end.
    by destruct (Z.testbit s _), (Z.testbit bits _).
  - intros Hs Hb. unfold With, Without.
    apply uint32_bits in Hs as [Hs0 Hs]. apply uint32_bits in Hb as [Hb0 Hb].
    split; apply uint32_bits; split.
    + apply Z.lor_nonneg; lia.
    + intros n Hn. by rewrite Z.lor_spec, Hs, Hb.
    + apply Z.ldiff_nonneg; lia.
    + intros n Hn. by rewrite Z.ldiff_spec, Hs.
Qed.

Lemma With_Without_witness :
  Z.land WS_CHILD WS_VISIBLE = 0
  ∧ Without (With WS_CHILD WS_VISIBLE) WS_VISIBLE = WS_CHILD
  ∧ 0 ≤ With WS_CHILD WS_VISIBLE < 2 ^ 32.
Proof.
  split; [reflexivity|].
  destruct (With_Without WS_CHILD WS_VISIBLE) as (_ & _ & Hback & Hrange).
  split; [apply Hback; reflexivity|].
  apply Hrange; unfold WS_CHILD, WS_VISIBLE; lia.
Defined.

(** ** The registry and the trampoline, further *)

Section MoreRegistryFacts.
Context {U OS : Type}.
Variable os_call : ∀ T, syscall T → OS → T * OS.
Variable code : nat → Z → Z → Z → Z → St (World U OS) Z.
Variable globalWndProcPtr : Z.

(** X4.  What [getWndProc] finds after a [setWndProc]: at the handle
    written, the procedure written (nothing after a nil); at any other
    handle, what it found before. *)
Theorem getWndProc_after_setWndProc (h1 h2 : Z) (proc : option nat)
    (w : World U OS) :
  (getWndProc h2 (setWndProc h1 proc w).2).1
  = if decide (h1 = h2) then proc else (getWndProc h2 w).1.
Proof.
  unfold getWndProc, setWndProc. destruct proc as [p|]; simpl.
  - rewrite lookup_insert. by destruct (decide (h1 = h2)).
  - rewrite lookup_delete. by destruct (decide (h1 = h2)).
Qed.

(** X5.  Writes to two different handles can be done in either
    order. *)
Theorem setWndProc_commute (h1 h2 : Z) (p1 p2 : option nat) (w : World U OS) :
  h1 ≠ h2 →
  (setWndProc h2 p2 (setWndProc h1 p1 w).2).2
  = (setWndProc h1 p1 (setWndProc h2 p2 w).2).2.
Proof.
  intros Hne. unfold setWndProc. destruct p1 as [q1|], p2 as [q2|]; simpl; f_equal.
  - by apply insert_insert_ne.
  - by rewrite delete_insert_ne.
  - by rewrite delete_insert_ne.
  - apply delete_delete.
Qed.

Lemma globalWndProc_WM_NCDESTROY_gone (hwnd wParam lParam : Z)
    (w : World U OS) :
  wndProcByHWND (globalWndProc os_call code hwnd WM_NCDESTROY wParam lParam w).2
  !! hwnd = None.
Proof.
  unfold globalWndProc, getWndProc. st_unfold.
  destruct (wndProcByHWND w !! hwnd) as [p|] eqn:Hreg.
  - destruct (code p hwnd WM_NCDESTROY wParam lParam w) as [ret w1].
    rewrite Z.eqb_refl. simpl. apply lookup_delete_eq.
  - unfold DefWindowProcW. by rewrite sys_wndProcByHWND.
Qed.

(** X6.  Once [WM_NCDESTROY] has gone through the trampoline for a
    handle, registered or not, the handle has no entry, and the next
    message for it takes the default path. *)
Theorem globalWndProc_after_WM_NCDESTROY (hwnd wParam lParam : Z)
    (msg wParam' lParam' : Z) (w : World U OS) :
  (getWndProc hwnd
     (globalWndProc os_call code hwnd WM_NCDESTROY wParam lParam w).2).1 = None
  ∧ globalWndProc os_call code hwnd msg wParam' lParam'
      (globalWndProc os_call code hwnd WM_NCDESTROY wParam lParam w).2
    = DefWindowProcW os_call hwnd msg wParam' lParam'
        (globalWndProc os_call code hwnd WM_NCDESTROY wParam lParam w).2.
Proof.
  pose proof (globalWndProc_WM_NCDESTROY_gone hwnd wParam lParam w) as Hgone.
  revert Hgone.
  generalize (globalWndProc os_call code hwnd WM_NCDESTROY wParam lParam w).2.
  intros w1 Hgone. split; [exact Hgone|].
  unfold globalWndProc, getWndProc. st_unfold. by rewrite Hgone.
Qed.

(** X7.  [CreateWindowExW] refuses a class name or a window name with
    a NUL byte with [EINVAL], before any system call. *)
Theorem CreateWindowExW_NUL (exStyle : Z) (className windowName : string)
    (style x y width height parent menu instance param : Z) (w : World U OS) :
  has_nul className = true ∨ has_nul windowName = true →
  CreateWindowExW os_call exStyle className windowName style x y width height
    parent menu instance param w
  = ((0, Some EINVAL), w).
Proof.
  intros Hnul. unfold CreateWindowExW, UTF16PtrFromString.
  destruct (has_nul className); [done|].
  destruct Hnul as [|Hnul]; [done|]. by rewrite Hnul.
Qed.

(** X8.  [CreateWindowExW] never returns a handle together with an
    error: the handle is 0 or the error is nil. *)
Theorem CreateWindowExW_handle_or_error (exStyle : Z)
    (className windowName : string)
    (style x y width height parent menu instance param : Z) (w : World U OS) :
  (CreateWindowExW os_call exStyle className windowName style x y width height
     parent menu instance param w).1.1 = 0
  ∨ (CreateWindowExW os_call exStyle className windowName style x y width
       height parent menu instance param w).1.2 = None.
Proof.
  unfold CreateWindowExW.
  destruct (UTF16PtrFromString className); [by left|].
  destruct (UTF16PtrFromString windowName); [by left|].
  rewrite bind_St. destruct (_ =? 0); [left|by right].
  by rewrite bind_St.
Qed.

(** X9.  The exit code given to [PostQuitMessage], which passes
    [uintptr(exitCode)] to the OS, is what [MessageLoop] returns when
    the quit message carrying it is retrieved first. *)
Theorem MessageLoop_quit_exit_code (fuel : nat) (exitCode : Z)
    (s s' : Machine U OS) (m1 : MSG) (err : error) :
  - 2 ^ 31 ≤ exitCode < 2 ^ 31 →
  inWorld (GetMessageW os_call MSG_zero 0 0 0) s = ((m1, (0, err)), s') →
  WParam m1 = uintptr exitCode →
  MessageLoop os_call code (S fuel) s = Some ((exitCode, None), s').
Proof.
  intros Hrange Hget Hw. unfold MessageLoop. rewrite MessageLoop_from_S, Hget.
  simpl. by rewrite Hw, int32_uintptr.
Qed.

(** X10.  [DestroyWindow] of a window whose class procedure is the
    trampoline, when the OS destroys it, returns nil and leaves the
    handle without an entry in the registry: the window's procedure
    has received [WM_DESTROY] and [WM_NCDESTROY], and the trampoline
    has cleaned up. *)
Theorem DestroyWindow_unregisters (hwnd : Z) (s : Machine U OS) (o1 o2 : OS)
    (r1 : Z) :
  os_call ClassProc (SysWindowProc hwnd) (os (world s)) = (ProcGlobalWndProc, o1) →
  os_call Z (SysDestroyWindow hwnd) o1 = (r1, o2) →
  r1 ≠ 0 →
  (DestroyWindow os_call code hwnd s).1 = None
  ∧ wndProcByHWND (world (DestroyWindow os_call code hwnd s).2) !! hwnd = None.
Proof.
  intros Hroute Hdestroy Hr1.
  cut (∃ s', DestroyWindow os_call code hwnd s = (None, s')
             ∧ wndProcByHWND (world s') !! hwnd = None).
  { intros (s' & -> & Hgone). by split. }
  unfold DestroyWindow, DestroyWindow_, user32_DestroyWindow_. st_unfold.
  unfold inWorld at 1. unfold sys at 1. rewrite Hroute.
  unfold inWorld at 1. unfold sys at 1. cbn [os world]. rewrite Hdestroy.
  destruct (Z.eqb_spec r1 0) as [|_]; [done|]. cbn [call_ClassProc].
  destruct (inWorld (globalWndProc os_call code hwnd WM_DESTROY 0 0) _)
    as [r2 st].
  unfold inWorld.
  pose proof (globalWndProc_WM_NCDESTROY_gone hwnd 0 0 (world st)) as Hgone.
  destruct (globalWndProc os_call code hwnd WM_NCDESTROY 0 0 (world st))
    as [r3 w3].
  destruct (Z.eqb_spec r1 0) as [|_]; [done|]. by eexists.
Qed.

(** X11.  What [GetMessageW] returns: the result is an [int32]; an
    error comes only with the result -1; and the message returned is
    the one the OS wrote. *)
Theorem GetMessageW_results (msg : MSG) (hwnd lo hi : Z) (w : World U OS) :
  let r := (GetMessageW os_call msg hwnd lo hi w).1 in
  - 2 ^ 31 ≤ r.2.1 < 2 ^ 31
  ∧ (r.2.2 = None ∨ r.2.1 = -1)
  ∧ r.1 = (sys os_call (SysGetMessageW msg hwnd lo hi) w).1.2
  ∧ r.2.1 = int32 (sys os_call (SysGetMessageW msg hwnd lo hi) w).1.1.
Proof.
  unfold GetMessageW. st_unfold.
  destruct (sys os_call (SysGetMessageW msg hwnd lo hi) w) as [[r1 msg'] w1].
  assert (Hrange : - 2 ^ 31 ≤ int32 r1 < 2 ^ 31).
  { unfold int32. pose proof (Z.mod_pos_bound (r1 + 2 ^ 31) (2 ^ 32)). lia. }
  destruct (Z.eqb_spec (int32 r1) (-1)) as [Heq|Hne].
  - destruct (GetLastError os_call w1) as [err w2]. simpl.
    split; [done|]. split; [by right|done].
  - simpl. split; [done|]. split; [by left|done].
Qed.

Lemma keeps_registry_sys {T} (c : syscall T) :
  keeps_registry (sys os_call c : St (World U OS) T).
Proof. intros w. apply sys_wndProcByHWND. Qed.

Lemma keeps_registry_ret {A} (a : A) :
  keeps_registry (mret a : St (World U OS) A).
Proof. by intros w. Qed.

Lemma keeps_registry_bind {A B} (m : St (World U OS) A)
    (f : A → St (World U OS) B) :
  keeps_registry m → (∀ a, keeps_registry (f a)) → keeps_registry (m ≫= f).
Proof.
  intros Hm Hf w. rewrite bind_St. by rewrite Hf, Hm.
Qed.

Lemma keeps_registry_GetLastError :
  keeps_registry (GetLastError os_call : St (World U OS) error).
Proof.
  apply keeps_registry_bind; [apply keeps_registry_sys|].
  intros ?. apply keeps_registry_ret.
Qed.

Lemma keeps_registry_getModuleHandleCurrentProcess :
  keeps_registry (getModuleHandleCurrentProcess os_call
                    : St (World U OS) (Z * error)).
Proof.
  apply keeps_registry_bind; [apply keeps_registry_sys|]. intros r1.
  destruct (r1 =? 0); [|apply keeps_registry_ret].
  apply keeps_registry_bind; [apply keeps_registry_GetLastError|].
  intros ?. apply keeps_registry_ret.
Qed.

Lemma keeps_registry_registerClassExW (wcx : option WNDCLASSEXW) :
  keeps_registry (registerClassExW os_call wcx : St (World U OS) (Z * error)).
Proof.
  destruct wcx as [wcx|]; [|apply keeps_registry_ret]. unfold registerClassExW.
  apply keeps_registry_bind; [apply keeps_registry_sys|]. intros r1.
  destruct (negb (r1 =? 0)); [apply keeps_registry_ret|].
  apply keeps_registry_bind; [apply keeps_registry_GetLastError|].
  intros [[errno| |]|]; try apply keeps_registry_ret.
  destruct (errno =? ERROR_CLASS_ALREADY_EXISTS); apply keeps_registry_ret.
Qed.

Lemma keeps_registry_CreateWindowExW (exStyle : Z)
    (className windowName : string)
    (style x y width height parent menu instance param : Z) :
  keeps_registry (CreateWindowExW os_call exStyle className windowName style
                    x y width height parent menu instance param
                    : St (World U OS) (Z * error)).
Proof.
  unfold CreateWindowExW.
  destruct (UTF16PtrFromString className); [apply keeps_registry_ret|].
  destruct (UTF16PtrFromString windowName); [apply keeps_registry_ret|].
  apply keeps_registry_bind; [apply keeps_registry_sys|]. intros r1.
  destruct (r1 =? 0); [|apply keeps_registry_ret].
  apply keeps_registry_bind; [apply keeps_registry_GetLastError|].
  intros ?. apply keeps_registry_ret.
Qed.

Lemma CreateMessageOnlyWindow_run (className windowName : string)
    (proc : option nat) (w w' : World U OS) (hwnd : Z) (err : error) :
  CreateMessageOnlyWindow os_call globalWndProcPtr className windowName proc w
  = ((hwnd, err), w') →
  (err ≠ None ∧ hwnd = 0 ∧ wndProcByHWND w' = wndProcByHWND w)
  ∨ (err = None
     ∧ w' = (match proc with
             | Some _ => setWndProc hwnd proc
             | None => mret ()
             end
               (mkWorld (wndProcByHWND w) (heap w') (os w'))).2).
Proof.
  unfold CreateMessageOnlyWindow. destruct (isEmpty className).
  { intros [= <- <- <-]. left. by split. }
  rewrite bind_St.
  pose proof (keeps_registry_getModuleHandleCurrentProcess w) as H1.
  destruct (getModuleHandleCurrentProcess os_call w) as [[hInstance e1] w1].
  simpl in H1. cbn [fst snd].
  destruct e1 as [e1|];
    [intros [= <- <- <-]; left; split; [done|]; split; [done|congruence]|].
  destruct (UTF16PtrFromString className) as [e2|];
    [intros [= <- <- <-]; left; split; [done|]; split; [done|congruence]|].
  rewrite bind_St.
  match goal with
  | |- context [registerClassExW os_call ?x w1] =>
      pose proof (keeps_registry_registerClassExW x w1) as H2;
      destruct (registerClassExW os_call x w1) as [[atom e3] w2]
  end.
  simpl in H2. cbn [fst snd].
  destruct e3 as [e3|];
    [intros [= <- <- <-]; left; split; [done|]; split; [done|congruence]|].
  rewrite bind_St.
  match goal with
  | |- context [CreateWindowExW os_call ?a ?b ?c ?d ?e ?f ?g ?h ?i ?j ?k ?l w2] =>
      pose proof (keeps_registry_CreateWindowExW a b c d e f g h i j k l w2)
        as H3;
      destruct (CreateWindowExW os_call a b c d e f g h i j k l w2)
        as [[h0 e4] w3]
  end.
  simpl in H3. cbn [fst snd].
  destruct e4 as [e4|];
    [intros [= <- <- <-]; left; split; [done|]; split; [done|congruence]|].
  destruct w3 as [reg3 heap3 os3]. simpl in H3.
  destruct proc as [p|]; rewrite bind_St; simpl; intros [= <- <- <-];
    right; (split; [done|]); simpl; congruence.
Qed.

(** X12.  What [CreateMessageOnlyWindow] does to the registry: when it
    returns an error the handle is 0 and the registry is as before;
    when it returns no error, the registry is the one before with the
    procedure given stored under the handle returned, and unchanged
    when the procedure is nil. *)
Theorem CreateMessageOnlyWindow_registry (className windowName : string)
    (proc : option nat) (w w' : World U OS) (hwnd : Z) (err : error) :
  CreateMessageOnlyWindow os_call globalWndProcPtr className windowName proc w
  = ((hwnd, err), w') →
  match err with
  | Some _ => hwnd = 0 ∧ wndProcByHWND w' = wndProcByHWND w
  | None =>
      wndProcByHWND w'
      = match proc with
        | Some p => <[hwnd := p]> (wndProcByHWND w)
        | None => wndProcByHWND w
        end
  end.
Proof.
  intros Hrun.
  destruct (CreateMessageOnlyWindow_run _ _ _ _ _ _ _ Hrun)
    as [(Herr & Hh & Hreg)|[-> Hw']].
  - by destruct err.
  - rewrite Hw'. by destruct proc.
Qed.

(** X13.  A window made by [CreateMessageOnlyWindow] with a procedure
    is served by it: a message other than [WM_NCDESTROY] that reaches
    the trampoline for the handle returned is answered by exactly that
    procedure. *)
Theorem CreateMessageOnlyWindow_then_globalWndProc
    (className windowName : string) (p : nat) (w w' : World U OS) (hwnd : Z)
    (msg wParam lParam : Z) :
  CreateMessageOnlyWindow os_call globalWndProcPtr className windowName
    (Some p) w = ((hwnd, None), w') →
  msg ≠ WM_NCDESTROY →
  globalWndProc os_call code hwnd msg wParam lParam w'
  = code p hwnd msg wParam lParam w'.
Proof.
  intros Hrun Hmsg.
  destruct (CreateMessageOnlyWindow_run _ _ _ _ _ _ _ Hrun)
    as [(Herr & _)|[_ Hreg]]; [done|].
  assert (Hp : wndProcByHWND w' !! hwnd = Some p).
  { rewrite Hreg. simpl. apply lookup_insert_eq. }
  unfold globalWndProc, getWndProc. st_unfold. rewrite Hp.
  destruct (code p hwnd msg wParam lParam w') as [ret w1].
  by destruct (Z.eqb_spec msg WM_NCDESTROY).
Qed.

(** X14.  [CreateMessageOnlyWindow] can report success with the null
    handle.  When the OS refuses the window and its last-error code is
    0, [CreateWindowExW] returns (0, nil); the call then stores the
    procedure under handle 0 and returns (0, nil). *)
Theorem CreateMessageOnlyWindow_null_handle (className windowName : string)
    (p : nat) (w : World U OS) (hInstance atom : Z) (o1 o2 o3 o4 : OS) :
  isEmpty className = false →
  has_nul className = false →
  has_nul windowName = false →
  os_call Z SysGetModuleHandleW (os w) = (hInstance, o1) →
  hInstance ≠ 0 →
  os_call Z (SysRegisterClassExW
               (mkWNDCLASSEXW (uint32 sizeof_WNDCLASSEXW) 0 globalWndProcPtr
                  0 0 hInstance 0 0 0 None (Some className) 0)) o1
  = (atom, o2) →
  atom ≠ 0 →
  os_call Z (SysCreateWindowExW
               (mkCREATE 0 className windowName 0 0 0 0 0
                  HWND_MESSAGE 0 hInstance 0)) o2 = (0, o3) →
  os_call Z SysGetLastError o3 = (0, o4) →
  CreateMessageOnlyWindow os_call globalWndProcPtr className windowName
    (Some p) w
  = ((0, None), mkWorld (<[0 := p]> (wndProcByHWND w)) (heap w) o4).
Proof.
  intros Hne Hnul1 Hnul2 Hmod HhInst Hreg Hatom Hcreate Herr.
  unfold CreateMessageOnlyWindow, getModuleHandleCurrentProcess,
    registerClassExW, CreateWindowExW, GetLastError, UTF16PtrFromString,
    setWndProc, sys.
  st_unfold. rewrite Hne, Hnul1, Hnul2, Hmod.
  destruct (Z.eqb_spec hInstance 0) as [|_]; [done|].
  cbn -[uint32 HWND_MESSAGE]. 
  replace (uint32 sizeof_WNDCLASSEXW =? 0) with false by done.
  rewrite Hreg.
  destruct (Z.eqb_spec atom 0) as [|_]; [done|].
  cbn -[uint32 HWND_MESSAGE].
  change (uint32 0) with 0. change (uintptr 0) with 0.
  rewrite Hcreate. cbn. rewrite Herr. reflexivity.
Qed.

End MoreRegistryFacts.

(** ** The further registry facts on a desk *)

Lemma setWndProc_commute_witness :
  (setWndProc 2 None (setWndProc 1 (Some 7%nat) test_world).2).2
  = (setWndProc 1 (Some 7%nat) (setWndProc 2 None test_world).2).2.
Proof. apply (setWndProc_commute 1 2 (Some 7%nat) None test_world). lia. Defined.

Lemma CreateWindowExW_NUL_witness :
  CreateWindowExW desk_call 0 "c" nul_name 0 0 0 0 0 0 0 0 0 msgwin_world
  = ((0, Some EINVAL), msgwin_world).
Proof.
  apply (CreateWindowExW_NUL desk_call 0 "c" nul_name 0 0 0 0 0 0 0 0 0
           msgwin_world).
  right. reflexivity.
Defined.

Lemma MessageLoop_quit_exit_code_witness :
  fst <$> MessageLoop desk_call test_code 1 quit_machine = Some (-1, None).
Proof.
  erewrite (MessageLoop_quit_exit_code desk_call test_code 0 (-1) quit_machine);
    [reflexivity | lia | vm_compute; reflexivity | reflexivity].
Defined.

Lemma DestroyWindow_unregisters_witness :
  (DestroyWindow desk_call test_code test_hwnd trampolined_machine).1 = None
  ∧ wndProcByHWND
      (world (DestroyWindow desk_call test_code test_hwnd trampolined_machine).2)
    !! test_hwnd = None.
Proof.
  eapply (DestroyWindow_unregisters desk_call test_code test_hwnd
            trampolined_machine);
    [vm_compute; reflexivity | vm_compute; reflexivity | discriminate].
Defined.

Lemma CreateMessageOnlyWindow_registry_witness :
  wndProcByHWND
    (CreateMessageOnlyWindow desk_call 0x1000 "win32utils.TrayIcon" "Tray Icon"
       (Some 0%nat) msgwin_world).2
  = <[0x7000 := 0%nat]> (wndProcByHWND msgwin_world).
Proof.
  apply (CreateMessageOnlyWindow_registry desk_call 0x1000 "win32utils.TrayIcon"
           "Tray Icon" (Some 0%nat) msgwin_world _ 0x7000 None).
  vm_compute. reflexivity.
Defined.

Lemma CreateMessageOnlyWindow_then_globalWndProc_witness :
  ∃ w', CreateMessageOnlyWindow desk_call 0x1000 "win32utils.TrayIcon"
          "Tray Icon" (Some 0%nat) msgwin_world = ((0x7000, None), w')
        ∧ globalWndProc desk_call test_code 0x7000 WM_USER 1 2 w'
          = test_code 0%nat 0x7000 WM_USER 1 2 w'.
Proof.
  eexists. split; [vm_compute; reflexivity|].
  eapply (CreateMessageOnlyWindow_then_globalWndProc desk_call test_code 0x1000
            "win32utils.TrayIcon" "Tray Icon" 0%nat msgwin_world);
    [vm_compute; reflexivity | discriminate].
Defined.

Lemma CreateMessageOnlyWindow_null_handle_witness :
  CreateMessageOnlyWindow desk_call 0x1000 "win32utils.TrayIcon" "Tray Icon"
    (Some 0%nat) (mkWorld ∅ (mkTestVars 0 false) desk0)
  = ((0, None), mkWorld (<[0 := 0%nat]> ∅) (mkTestVars 0 false) desk0).
Proof.
  apply (CreateMessageOnlyWindow_null_handle desk_call 0x1000
           "win32utils.TrayIcon" "Tray Icon" 0%nat
           (mkWorld ∅ (mkTestVars 0 false) desk0) 0x400000 0xC001
           desk0 desk0 desk0 desk0);
    first [reflexivity | discriminate].
Defined.

(** ** The dialog's variables under the callbacks *)

Section LocalsFacts.
Context {U OS : Type}.
Variable os_call : ∀ T, syscall T → OS → T * OS.
Variable code : nat → Z → Z → Z → Z → St (World U OS) Z.

Local Abbreviation M := (Machine U OS).

Lemma locals_step_refl (l : Locals) : locals_step l l.
Proof. unfold locals_step. auto. Qed.

Lemma locals_step_trans (l1 l2 l3 : Locals) :
  locals_step l1 l2 → locals_step l2 l3 → locals_step l1 l3.
Proof.
  unfold locals_step. intros (Hd & Hc) (Hd' & Hc').
  split.
  - destruct Hd' as [->|]; auto.
  - destruct Hc' as [->|]; auto.
Qed.

Lemma moves_inWorld {A} (m : St (World U OS) A) :
  moves locals_step (inWorld m : St M A).
Proof.
  intros s. unfold inWorld. destruct (m (world s)). apply locals_step_refl.
Qed.

Lemma moves_ret {A} (a : A) : moves locals_step (mret a : St M A).
Proof. intros s. apply locals_step_refl. Qed.

Lemma moves_bind {A B} (m : St M A) (f : A → St M B) :
  moves locals_step m → (∀ a, moves locals_step (f a)) →
  moves locals_step (m ≫= f).
Proof.
  intros Hm Hf s. rewrite bind_St.
  eapply locals_step_trans; [apply Hm | apply Hf].
Qed.

Lemma moves_getDialogWndProc (hwnd : Z) :
  moves locals_step (getDialogWndProc hwnd : St M (option DlgProc)).
Proof. intros s. apply locals_step_refl. Qed.

Lemma moves_done :
  moves locals_step
    (set_locals (λ l, mkLocals (result1 l) (result2 l) (cancelled l) 1)
       : St M ()).
Proof. intros s. unfold locals_step. simpl. auto. Qed.

Lemma moves_cancelled :
  moves locals_step
    (set_locals (λ l, mkLocals (result1 l) (result2 l) true (done l))
       : St M ()).
Proof. intros s. unfold locals_step. simpl. auto. Qed.

Lemma moves_result1 (text : string) :
  moves locals_step
    (set_locals (λ l, mkLocals text (result2 l) (cancelled l) (done l))
       : St M ()).
Proof. intros s. unfold locals_step. simpl. auto. Qed.

Lemma moves_result2 (text : string) :
  moves locals_step
    (set_locals (λ l, mkLocals (result1 l) text (cancelled l) (done l))
       : St M ()).
Proof. intros s. unfold locals_step. simpl. auto. Qed.

Ltac moves_step :=
  repeat first
    [ assumption
    | match goal with
      | H : ∀ h, moves _ (?D h) |- moves _ (?D _) => apply H
      end
    | apply moves_ret
    | apply moves_inWorld
    | apply moves_done
    | apply moves_cancelled
    | apply moves_result1
    | apply moves_result2
    | apply moves_getDialogWndProc
    | apply moves_bind; [|intros ?]
    | match goal with
      | |- moves _ (let '(_, _) := ?e in _) => destruct e
      end ].

Section MovesCallbacks.
Variable D : Z → St M error.
Hypothesis moves_D : ∀ h, moves locals_step (D h).

Lemma moves_TwoTextInputDialog_func (e1 e2 hwnd msg wParam lParam : Z) :
  moves locals_step
    (TwoTextInputDialog_func os_call D e1 e2 hwnd msg wParam lParam).
Proof.
  unfold TwoTextInputDialog_func.
  destruct (msg =? WM_COMMAND).
  - destruct (int32 (Z.land wParam 0xFFFF) =? IDOK); [moves_step|].
    destruct (int32 (Z.land wParam 0xFFFF) =? IDCANCEL); moves_step.
  - destruct (msg =? WM_CLOSE); [moves_step|].
    destruct (msg =? WM_DESTROY); moves_step.
Qed.

Lemma moves_dialogGlobalWndProc_ (hwnd msg wParam lParam : Z) :
  moves locals_step
    (dialogGlobalWndProc_ os_call code D hwnd msg wParam lParam).
Proof.
  unfold dialogGlobalWndProc_.
  apply moves_bind; [apply moves_getDialogWndProc|].
  intros [[e1 e2|ref]|]; simpl; [|apply moves_inWorld..].
  apply moves_TwoTextInputDialog_func.
Qed.

Lemma moves_call_ClassProc (cp : ClassProc) (hwnd msg wParam lParam : Z) :
  moves locals_step
    (call_ClassProc os_call code D cp hwnd msg wParam lParam).
Proof.
  destruct cp; simpl; [apply moves_inWorld| |apply moves_inWorld].
  apply moves_dialogGlobalWndProc_.
Qed.

Lemma moves_DestroyWindow_ (hwnd : Z) :
  moves locals_step (DestroyWindow_ os_call code D hwnd).
Proof.
  unfold DestroyWindow_, user32_DestroyWindow_.
  apply moves_bind; [|intros r1; destruct (r1 =? 0); moves_step].
  apply moves_bind; [apply moves_inWorld|]. intros cp.
  apply moves_bind; [apply moves_inWorld|]. intros r1.
  destruct (r1 =? 0); [apply moves_ret|].
  apply moves_bind; [apply moves_call_ClassProc|]. intros _.
  apply moves_bind; [apply moves_call_ClassProc|]. intros _.
  apply moves_ret.
Qed.

End MovesCallbacks.

Lemma moves_DestroyWindow (hwnd : Z) :
  moves locals_step (DestroyWindow os_call code hwnd).
Proof.
  apply moves_DestroyWindow_. intros h. unfold DestroyWindow_quiet.
  apply moves_bind; [apply moves_inWorld|]. intros r1.
  destruct (r1 =? 0); [apply moves_inWorld|apply moves_ret].
Qed.

(** X15.  No callback resets a flag of a running dialog.  Whatever
    the window and the message, after [dialogGlobalWndProc], after
    [DispatchMessageW] and after [DestroyWindow] the variable [done]
    is as it was or 1, and [cancelled] is as it was or true: the
    dialog's procedure, the one callback that writes them, only ever
    sets them. *)
Theorem DispatchMessageW_locals (hwnd msg wParam lParam : Z) (m : MSG)
    (s : M) :
  locals_step (locals s)
    (locals (dialogGlobalWndProc os_call code hwnd msg wParam lParam s).2)
  ∧ locals_step (locals s) (locals (DispatchMessageW os_call code m s).2)
  ∧ locals_step (locals s) (locals (DestroyWindow os_call code hwnd s).2).
Proof.
  split; [|split].
  - apply moves_dialogGlobalWndProc_. apply moves_DestroyWindow.
  - unfold DispatchMessageW, user32_DispatchMessageW_.
    apply moves_bind; [apply moves_inWorld|]. intros cp.
    apply moves_call_ClassProc. apply moves_DestroyWindow.
  - apply moves_DestroyWindow.
Qed.

(** X16.  The deadline of the modal loop across a wrap of the tick
    counter.  When the clock has advanced by [d] milliseconds since
    [startTick], its reading wrapped to 32 bits, a round of a dialog
    that is not done ends the loop exactly when [d] exceeds 30000,
    then without retrieving a message; otherwise the round goes on to
    retrieve one. *)
Theorem modal_loop_deadline (fuel : nat) (startTick d now : Z) (s s1 : M) :
  done (locals s) = 0 →
  inWorld (GetTickCount os_call) s = (now, s1) →
  0 ≤ d < 2 ^ 32 →
  now = uint32 (startTick + d) →
  modal_loop os_call code (S fuel) startTick s
  = if timeoutMs <? d then Some ((), s1)
    else
      let '(msg, (ret, _), s2) :=
        inWorld (GetMessageW os_call MSG_zero 0 0 0) s1 in
      if ret =? 0 then Some ((), s2)
      else if ret =? -1 then Some ((), s2)
      else modal_loop os_call code fuel startTick
             (DispatchMessageW os_call code msg
                (inWorld (TranslateMessage os_call msg) s2).2).2.
Proof.
  intros Hdone Htick Hd ->. rewrite modal_loop_S, Hdone, Htick. simpl.
  replace (uint32 (uint32 (startTick + d) - startTick)) with d; [done|].
  unfold uint32. rewrite Zminus_mod_idemp_l.
  replace (startTick + d - startTick) with d by lia.
  symmetry. by apply Z.mod_small.
Qed.

(** X17.  No callback edits the dialog table.  Whatever the message,
    [WM_NCDESTROY] included, the table after [dialogGlobalWndProc] is
    the table before it, and so it is after [DispatchMessageW] and
    [DestroyWindow]: unlike [globalWndProc], the dialog's dispatcher
    does not drop the entry of a destroyed window. *)
Theorem dialogGlobalWndProc_keeps_dialogWndProcs (hwnd msg wParam lParam : Z)
    (m : MSG) (s : M) :
  dialogWndProcs (dialogGlobalWndProc os_call code hwnd msg wParam lParam s).2
  = dialogWndProcs s
  ∧ dialogWndProcs (DispatchMessageW os_call code m s).2 = dialogWndProcs s
  ∧ dialogWndProcs (DestroyWindow os_call code hwnd s).2 = dialogWndProcs s.
Proof.
  split; [|split].
  - unfold dialogGlobalWndProc.
    apply keeps_bind; [apply keeps_getDialogWndProc|].
    intros [[e1 e2|ref]|]; simpl; [|apply keeps_inWorld..].
    apply keeps_TwoTextInputDialog_func. apply keeps_DestroyWindow.
  - apply keeps_DispatchMessageW.
  - apply keeps_DestroyWindow.
Qed.

End LocalsFacts.

Lemma modal_loop_deadline_witness :
  fst <$> modal_loop desk_call test_code 1 (2 ^ 32 - 10)
            (dialog_machine
               (dialog_desk [29991] [(1, msg_to 0x5000 WM_COMMAND IDOK)]) ∅)
  = Some ().
Proof.
  erewrite (modal_loop_deadline desk_call test_code 0 (2 ^ 32 - 10) 30001 29991);
    [reflexivity | reflexivity | vm_compute; reflexivity | lia | reflexivity].
Defined.

(** ** The registry across a dialog call *)

Section RegistryFrameFacts.
Context {U OS : Type}.
Variable os_call : ∀ T, syscall T → OS → T * OS.
Variable code : nat → Z → Z → Z → Z → St (World U OS) Z.
Variable calm : OS → Prop.
Hypothesis calm_step :
  ∀ T (c : syscall T) (o : OS), calm o → calm (os_call T c o).2.
Hypothesis calm_route :
  ∀ (h : Z) (o : OS), calm o →
    (os_call ClassProc (SysWindowProc h) o).1 ≠ ProcGlobalWndProc.

(** X18.  A dialog call and the windows of the client.  On an OS that
    routes nothing to the trampoline and stays so ([calm]), and with
    no client closure in the dialog table, a dialog call that returns
    leaves every handle of the main registry with the procedure it
    had, the OS calm, and the dialog table without client closure: a
    second dialog call starts from the same footing. *)
Theorem TwoTextInputDialog_registry_frame (fuel : nat)
    (title label1 label2 defaultValue1 defaultValue2 : string)
    (s s' : Machine U OS) (res : string * string * bool * error) :
  calm (os (world s)) →
  no_client (dialogWndProcs s) →
  TwoTextInputDialog os_call code fuel title label1 label2
    defaultValue1 defaultValue2 s = Some (res, s') →
  (∀ h, (getWndProc h (world s')).1 = (getWndProc h (world s)).1)
  ∧ calm (os (world s'))
  ∧ no_client (dialogWndProcs s').
Proof.
  intros Hc Hn Hrun.
  destruct (holds_TwoTextInputDialog os_call code calm calm_step calm_route
              (wndProcByHWND (world s)) fuel title
              label1 label2 defaultValue1 defaultValue2 s res s'
              (conj Hc (conj eq_refl Hn)) Hrun) as [(Hc' & Hreg & Hn') _].
  split; [|done]. intros h. unfold getWndProc. simpl. by rewrite Hreg.
Qed.

End RegistryFrameFacts.

Lemma TwoTextInputDialog_registry_frame_witness :
  match TwoTextInputDialog desk_call test_code 5 "t" "a" "b" "x" "y"
          accepted_machine with
  | Some (_, s') => (getWndProc test_hwnd (world s')).1 = Some 0%nat
  | None => False
  end.
Proof.
  destruct (TwoTextInputDialog _ _ _ _ _ _ _ _ _) as [[res s']|] eqn:Hrun.
  - assert (Hn : no_client (dialogWndProcs accepted_machine)).
    { intros h ref. simpl. rewrite lookup_empty. discriminate. }
    rewrite (proj1 (TwoTextInputDialog_registry_frame desk_call test_code
                      no_trampolined no_trampolined_step no_trampolined_route
                      5 "t" "a" "b" "x" "y" accepted_machine s' res
                      eq_refl Hn Hrun) test_hwnd).
    reflexivity.
  - vm_compute in Hrun. discriminate Hrun.
Defined.

(** ** The notification area and the window of [CreateWindowInstance] *)

Section ShellFacts.
Context {U OS : Type}.
Variable os_call : ∀ T, syscall T → OS → T * OS.
Variable os_more : ∀ T, syscall_more T → OS → T * OS.
Variable code : nat → Z → Z → Z → Z → St (World U OS) Z.

Lemma sys_more_wndProcByHWND {T} (c : syscall_more T) (w : World U OS) :
  wndProcByHWND (sys_more os_more c w).2 = wndProcByHWND w.
Proof. unfold sys_more. by destruct (os_more T c (os w)). Qed.

Lemma sys_more_heap {T} (c : syscall_more T) (w : World U OS) :
  heap (sys_more os_more c w).2 = heap w.
Proof. unfold sys_more. by destruct (os_more T c (os w)). Qed.

(** X19.  The error of [ShellNotifyIconW], from the result of the
    system call and the last-error code read after it.  The call
    fails, with the last-error code as a [syscall.Errno], exactly when
    the system call returns 0 and the code is not 0.  A system call
    that returns 0 with last-error code 0 is reported as a success:
    the error "ShellNotifyIconW failed" is never returned. *)
Theorem ShellNotifyIconW_error (dwMessage : Z)
    (lpData : option NOTIFYICONDATAW) (w : World U OS) (r1 e : Z) (o1 o2 : OS) :
  os_more Z (SysShellNotifyIconW (uintptr dwMessage) (fill_CbSize lpData)) (os w)
  = (r1, o1) →
  os_call Z SysGetLastError o1 = (e, o2) →
  (ShellNotifyIconW os_call os_more dwMessage lpData w).1.2
  = (if (r1 =? 0) && negb (e =? 0) then Some (Errno e) else None)
  ∧ (ShellNotifyIconW os_call os_more dwMessage lpData w).1.2
    ≠ Some (ErrorString "ShellNotifyIconW failed").
Proof.
  intros Hcall Herr.
  cut ((ShellNotifyIconW os_call os_more dwMessage lpData w).1.2
       = (if (r1 =? 0) && negb (e =? 0) then Some (Errno e) else None)).
  { intros ->. split; [done|]. by destruct (_ && _). }
  unfold ShellNotifyIconW, GetLastError, sys_more, sys. st_unfold.
  rewrite Hcall. destruct (Z.eqb_spec r1 0) as [_|_]; [|done].
  cbn [negb andb os]. rewrite Herr.
  unfold ne_ERROR_SUCCESS, ERROR_SUCCESS.
  by destruct (Z.eqb_spec e 0) as [->|?]; simpl;
    [|destruct (Z.eqb_spec e 0)].
Qed.

(** X20.  The size field under [ShellNotifyIconW], whatever the
    outcome of the call: a structure with [CbSize] 0 comes back with
    the size of the structure there, any other [CbSize] is kept, no
    other field changes, and the structure that comes back is the one
    the OS was given. *)
Theorem ShellNotifyIconW_CbSize (dwMessage : Z) (d : NOTIFYICONDATAW)
    (w : World U OS) :
  ∃ d' : NOTIFYICONDATAW,
    (ShellNotifyIconW os_call os_more dwMessage (Some d) w).1.1 = Some d'
    ∧ fill_CbSize (Some d) = Some d'
    ∧ nid_CbSize d'
      = (if nid_CbSize d =? 0 then sizeof_NOTIFYICONDATAW else nid_CbSize d)
    ∧ nid_CbSize d' ≠ 0
    ∧ set_nid_CbSize (nid_CbSize d) d' = d
    ∧ fill_CbSize (Some d') = Some d'.
Proof.
  assert (Hfill : ∃ d', fill_CbSize (Some d) = Some d'
            ∧ nid_CbSize d'
              = (if nid_CbSize d =? 0 then sizeof_NOTIFYICONDATAW
                 else nid_CbSize d)
            ∧ nid_CbSize d' ≠ 0
            ∧ set_nid_CbSize (nid_CbSize d) d' = d
            ∧ fill_CbSize (Some d') = Some d').
  { unfold fill_CbSize. destruct (Z.eqb_spec (nid_CbSize d) 0) as [Hz|Hnz].
    - eexists. split; [done|]. simpl. repeat split; [done|].
      destruct d. simpl in *. by subst.
    - exists d. split; [done|]. split; [done|]. split; [done|].
      split; [by destruct d|]. by destruct (Z.eqb_spec (nid_CbSize d) 0). }
  destruct Hfill as (d' & Hd' & Hrest). exists d'. split; [|by split].
  unfold ShellNotifyIconW. st_unfold. rewrite Hd'.
  destruct (sys_more os_more _ w) as [r1 w1].
  destruct (negb (r1 =? 0)); [done|].
  destruct (GetLastError os_call w1) as [err w2].
  by destruct (ne_ERROR_SUCCESS err).
Qed.

(** X21.  Destroying a window made by [CreateWindowInstance].  When
    the handle is registered with the function literal of
    [CreateWindowInstance], the window's class procedure is the
    trampoline and the OS destroys the window, [DestroyWindow] returns
    nil after exactly this: a quit message with exit code 0 is posted
    (the literal's answer to [WM_DESTROY]), [WM_NCDESTROY] gets the
    default handling, and the handle's entry is removed from the
    registry.  Nothing else of the program's state changes. *)
Theorem DestroyWindow_CreateWindowInstance (hwnd : Z) (p : nat)
    (s : Machine U OS) (o1 o2 o3 o4 : OS) (r1 rq rd : Z) :
  wndProcByHWND (world s) !! hwnd = Some p →
  (∀ h msg wParam lParam,
     code p h msg wParam lParam
     = CreateWindowInstance_func os_call os_more h msg wParam lParam) →
  os_call ClassProc (SysWindowProc hwnd) (os (world s)) = (ProcGlobalWndProc, o1) →
  os_call Z (SysDestroyWindow hwnd) o1 = (r1, o2) →
  r1 ≠ 0 →
  os_more Z (SysPostQuitMessage 0) o2 = (rq, o3) →
  os_call Z (SysDefWindowProcW hwnd WM_NCDESTROY 0 0) o3 = (rd, o4) →
  DestroyWindow os_call code hwnd s
  = (None,
     mkMachine
       (mkWorld (delete hwnd (wndProcByHWND (world s))) (heap (world s)) o4)
       (dialogWndProcs s) (locals s)).
Proof.
  intros Hreg Hcode Hroute Hdestroy Hr1 Hquit Hdef.
  unfold DestroyWindow, DestroyWindow_, user32_DestroyWindow_. st_unfold.
  unfold inWorld at 1. unfold sys at 1. rewrite Hroute.
  unfold inWorld at 1. unfold sys at 1. cbn [os world]. rewrite Hdestroy.
  destruct (Z.eqb_spec r1 0) as [|_]; [done|]. cbn [call_ClassProc].
  unfold inWorld, globalWndProc, getWndProc. st_unfold. cbn [world wndProcByHWND].
  rewrite Hreg, !Hcode.
  unfold CreateWindowInstance_func, PostQuitMessage, DefWindowProcW,
    deleteWndProc, sys_more, sys.
  st_unfold. cbn. change (uintptr 0) with 0. rewrite Hquit. cbn.
  rewrite Hreg, Hcode.
  unfold CreateWindowInstance_func, DefWindowProcW, sys. cbn.
  rewrite Hdef. cbn.
  by destruct (Z.eqb_spec r1 0).
Qed.

End ShellFacts.

(** ** Popup menus and tray icons *)

Section HeapFrame.
Context {U OS : Type}.
Variable os_call : ∀ T, syscall T → OS → T * OS.
Variable os_more : ∀ T, syscall_more T → OS → T * OS.

Local Abbreviation W := (World U OS).

Lemma keeps_heap_sys {T} (c : syscall T) : keeps_heap (sys os_call c : St W T).
Proof. intros w. apply sys_heap. Qed.

Lemma keeps_heap_sys_more {T} (c : syscall_more T) :
  keeps_heap (sys_more os_more c : St W T).
Proof. intros w. apply sys_more_heap. Qed.

Lemma keeps_registry_sys_more {T} (c : syscall_more T) :
  keeps_registry (sys_more os_more c : St W T).
Proof. intros w. apply sys_more_wndProcByHWND. Qed.

Lemma keeps_heap_ret {A} (a : A) : keeps_heap (mret a : St W A).
Proof. by intros w. Qed.

Lemma keeps_heap_bind {A B} (m : St W A) (f : A → St W B) :
  keeps_heap m → (∀ a, keeps_heap (f a)) → keeps_heap (m ≫= f).
Proof. intros Hm Hf w. rewrite bind_St. by rewrite Hf, Hm. Qed.

Lemma keeps_heap_setWndProc (hwnd : Z) (proc : option nat) :
  keeps_heap (setWndProc hwnd proc : St W ()).
Proof. intros w. unfold setWndProc. by destruct proc. Qed.

End HeapFrame.

Ltac frame_step :=
  repeat first
    [ apply keeps_heap_ret | apply keeps_registry_ret
    | apply keeps_heap_sys | apply keeps_registry_sys
    | apply keeps_heap_sys_more | apply keeps_registry_sys_more
    | apply keeps_heap_setWndProc
    | apply keeps_heap_bind; [|intros ?]
    | apply keeps_registry_bind; [|intros ?]
    | match goal with
      | |- keeps_heap (match ?e with _ => _ end) => destruct e
      | |- keeps_registry (match ?e with _ => _ end) => destruct e
      end ].

Section TrayFacts.
Context {V OS : Type}.
Variable os_call : ∀ T, syscall T → OS → T * OS.
Variable os_more : ∀ T, syscall_more T → OS → T * OS.
Variable globalWndProcPtr : Z.

Local Abbreviation W := (World (TrayHeap V) OS).

Variable item_code : nat → Z → St W ().
Variable tray_code : nat → Z → St W ().
Variable tray_proc : nat → nat.
Variable onClick_func : option nat → nat.
Variable UTF16FromString : string → option (list Z).

Lemma AppendMenuW_frame (h flags id : Z) (label : string) :
  keeps_heap (AppendMenuW os_call os_more h flags id label : St W error)
  ∧ keeps_registry (AppendMenuW os_call os_more h flags id label : St W error).
Proof. split; unfold AppendMenuW, GetLastError; frame_step. Qed.

Lemma CreateMessageOnlyWindow_heap (className windowName : string)
    (proc : option nat) :
  keeps_heap (CreateMessageOnlyWindow os_call globalWndProcPtr className
                windowName proc : St W (Z * error)).
Proof.
  unfold CreateMessageOnlyWindow, getModuleHandleCurrentProcess,
    registerClassExW, CreateWindowExW, GetLastError.
  frame_step.
Qed.

(** One run of [AddItem], by the outcome of [AppendMenuW]. *)
Lemma PopupMenu_AddItem_run (m : nat) (label : string) (callback : option nat)
    (w : W) :
  let pm := default PopupMenu_zero (menus (heap w) !! m) in
  let pm1 := mkPopupMenu (hMenu pm) (items pm) (int32 (nextID pm + 1)) in
  ∃ (err : error) (w1 : W),
    heap w1 = heap (store_menu m pm1 w).2
    ∧ wndProcByHWND w1 = wndProcByHWND w
    ∧ PopupMenu_AddItem os_call os_more m label callback w
      = match err with
        | Some e => (Some (0, Some e), w1)
        | None =>
            match callback with
            | Some cb =>
                match items pm with
                | Some it =>
                    (Some (nextID pm, None),
                     (store_menu m
                        (mkPopupMenu (hMenu pm) (Some (<[nextID pm := cb]> it))
                           (int32 (nextID pm + 1))) w1).2)
                | None => (None, w1)
                end
            | None => (Some (nextID pm, None), w1)
            end
        end.
Proof.
  intros pm pm1. unfold PopupMenu_AddItem, load_menu. st_unfold.
  fold pm. fold pm1.
  destruct (store_menu m pm1 w) as [[] w0] eqn:Hstore.
  assert (Hw0 : w0 = (store_menu m pm1 w).2) by by rewrite Hstore.
  pose proof (AppendMenuW_frame (hMenu pm1) (Z.lor MFT_STRING MF_ENABLED)
                (uint32 (nextID pm)) label) as [Hh Hr].
  specialize (Hh w0). specialize (Hr w0).
  destruct (AppendMenuW os_call os_more (hMenu pm1) _ _ label w0)
    as [err w1].
  cbn [fst snd] in *. exists err, w1.
  split; [done|]. split; [by rewrite Hr, Hw0|].
  destruct err as [e|]; [done|]. destruct callback as [cb|]; [|done].
  cbn [items pm1]. destruct (items pm) as [it|]; [|done].
  by destruct (store_menu m _ w1) as [[] w2].
Qed.

(** X22.  [AddItem] on a live menu whose identifiers are those handed
    out so far.  It does not panic; it uses up one identifier whether
    or not the OS accepts the item; on success it returns the
    identifier, which no item had, and stores the callback under it
    (nothing for a nil callback); on failure it returns 0 and the
    items are as before.  The identifiers in use stay those handed
    out so far, and no other menu changes. *)
Theorem PopupMenu_AddItem_ids (m : nat) (label : string)
    (callback : option nat) (w w' : W) (pm : PopupMenu) (it : gmap Z nat)
    (res : option (Z * error)) :
  menus (heap w) !! m = Some pm →
  items pm = Some it →
  ids_below pm →
  1000 ≤ nextID pm < 2 ^ 31 - 1 →
  PopupMenu_AddItem os_call os_more m label callback w = (res, w') →
  ∃ pm' : PopupMenu,
    menus (heap w') !! m = Some pm'
    ∧ hMenu pm' = hMenu pm
    ∧ nextID pm' = nextID pm + 1
    ∧ ids_below pm'
    ∧ (∀ m', m' ≠ m → menus (heap w') !! m' = menus (heap w) !! m')
    ∧ match res with
      | Some (id, None) =>
          id = nextID pm
          ∧ it !! id = None
          ∧ items pm' = Some (match callback with
                              | Some cb => <[id := cb]> it
                              | None => it
                              end)
      | Some (id, Some _) => id = 0 ∧ items pm' = Some it
      | None => False
      end.
Proof.
  intros Hm Hit Hbelow Hnext Hrun.
  destruct (PopupMenu_AddItem_run m label callback w)
    as (err & w1 & Hheap & _ & Hrun').
  rewrite Hrun in Hrun'. rewrite Hm in Hrun', Hheap.
  cbv [default from_option id] in Hrun', Hheap.
  assert (Hwrap : int32 (nextID pm + 1) = nextID pm + 1).
  { unfold int32. rewrite Z.mod_small; lia. }
  rewrite Hwrap in *. rewrite Hit in *.
  assert (Hfresh : it !! nextID pm = None).
  { destruct (it !! nextID pm) eqn:Hl; [|done].
    destruct (Hbelow it (nextID pm) Hit ltac:(by eexists)). lia. }
  destruct err as [e|]; [|destruct callback as [cb|]];
    injection Hrun' as -> ->.
  - eexists. rewrite Hheap. simpl. rewrite lookup_insert_eq.
    split; [done|]. split; [done|]. split; [done|].
    split; [|split; [|done]].
    + intros it' id [= <-] Hin. destruct (Hbelow it id Hit Hin). simpl. lia.
    + intros m' Hne. by rewrite lookup_insert_ne.
  - eexists. simpl. rewrite lookup_insert_eq.
    split; [done|]. split; [done|]. split; [done|].
    split; [|split; [|done]].
    + intros it' id [= <-] Hin. simpl.
      destruct (decide (id = nextID pm)) as [->|Hne]; [lia|].
      rewrite lookup_insert_ne in Hin by done.
      destruct (Hbelow it id Hit Hin). lia.
    + intros m' Hne. rewrite lookup_insert_ne by done. rewrite Hheap. simpl.
      by rewrite lookup_insert_ne.
  - eexists. rewrite Hheap. simpl. rewrite lookup_insert_eq.
    split; [done|]. split; [done|]. split; [done|].
    split; [|split; [|done]].
    + intros it' id [= <-] Hin. destruct (Hbelow it id Hit Hin). simpl. lia.
    + intros m' Hne. by rewrite lookup_insert_ne.
Qed.

Lemma PopupMenu_AddSeparator_frame (m : nat) :
  keeps_heap (PopupMenu_AddSeparator os_call os_more m : St W error).
Proof.
  unfold PopupMenu_AddSeparator. apply keeps_heap_bind; [by intros w|].
  intros pm. apply AppendMenuW_frame.
Qed.

Lemma commands_cons (item : TrayMenuItem) (rest : list TrayMenuItem) :
  commands (item :: rest)
  = if IsSeparator item then commands rest else item :: commands rest.
Proof.
  unfold commands. rewrite filter_cons. by destruct (IsSeparator item).
Qed.

Lemma buildMenu_range_run (m : nat) (l : list TrayMenuItem) :
  ∀ (w w' : W) (pm : PopupMenu) (it : gmap Z nat),
    menus (heap w) !! m = Some pm →
    items pm = Some it →
    - 2 ^ 31 ≤ nextID pm →
    nextID pm + Z.of_nat (length (commands l)) < 2 ^ 31 →
    buildMenu_range os_call os_more onClick_func m l w = (Some None, w') →
    ∃ it' : gmap Z nat,
      menus (heap w') !! m
      = Some (mkPopupMenu (hMenu pm) (Some it')
                (nextID pm + Z.of_nat (length (commands l))))
      ∧ (∀ (k : nat) item, commands l !! k = Some item →
           it' !! (nextID pm + Z.of_nat k)
           = Some (onClick_func (OnClick item)))
      ∧ (∀ id, id < nextID pm
               ∨ nextID pm + Z.of_nat (length (commands l)) ≤ id →
           it' !! id = it !! id).
Proof.
  induction l as [|item rest IH]; intros w w' pm it Hm Hit Hlo Hhi.
  - simpl. intros [= <-]. exists it. rewrite Z.add_0_r.
    split; [by destruct pm; simpl in *; subst|]. by split.
  - rewrite commands_cons in *. cbn [buildMenu_range].
    destruct (IsSeparator item).
    + rewrite bind_St.
      pose proof (PopupMenu_AddSeparator_frame m w) as Hheap.
      destruct (PopupMenu_AddSeparator os_call os_more m w) as [err w1].
      cbn [fst snd] in *. destruct err as [e|]; [done|].
      intros Hrun. apply (IH w1 w' pm it); [by rewrite Hheap|done..].
    + cbn [length] in Hhi. rewrite bind_St.
      destruct (PopupMenu_AddItem_run m
                  (if isEmpty (Icon item) then Label item
                   else Icon item +:+ " " +:+ Label item)
                  (Some (onClick_func (OnClick item))) w)
        as (err & w1 & Hheap & _ & Hrun).
      rewrite Hrun. rewrite Hm in Hheap |- *.
      cbv [default from_option id] in Hheap |- *. rewrite Hit.
      destruct err as [e|]; [done|]. cbn [fst snd].
      assert (Hwrap : int32 (nextID pm + 1) = nextID pm + 1).
      { unfold int32. rewrite Z.mod_small; lia. }
      rewrite Hwrap. intros Hrest.
      eapply (IH _ w'
                (mkPopupMenu (hMenu pm)
                   (Some (<[nextID pm := onClick_func (OnClick item)]> it))
                   (nextID pm + 1))
                (<[nextID pm := onClick_func (OnClick item)]> it))
        in Hrest as (it' & Hm' & Hcmd & Hout);
        [|simpl; apply lookup_insert_eq|done|simpl; lia|simpl; lia].
      simpl in Hm', Hcmd, Hout. exists it'. split; [|split].
      * rewrite Hm'. do 2 f_equal. cbn [length]. lia.
      * intros [|k] item' Hk.
        -- injection Hk as <-. rewrite Z.add_0_r.
           rewrite Hout by lia. apply lookup_insert_eq.
        -- replace (nextID pm + Z.of_nat (S k))
             with (nextID pm + 1 + Z.of_nat k) by lia.
           by apply Hcmd.
      * intros id Hid. cbn [length] in Hid.
        rewrite Hout by lia. apply lookup_insert_ne. lia.
Qed.

(** X23.  The identifiers [buildMenu] gives out.  On a menu as
    [NewPopupMenu] makes it (no item, next identifier 1000), a
    [buildMenu] that returns nil has stored, for the k-th item of the
    configuration that is not a separator, the function literal over
    that item's [OnClick] under the identifier 1000 + k; no other
    identifier has a callback, and the next identifier is 1000 plus
    the number of such items. *)
Theorem buildMenu_ids (m : nat) (MenuItems : list TrayMenuItem) (w w' : W)
    (pm : PopupMenu) :
  menus (heap w) !! m = Some pm →
  items pm = Some ∅ →
  nextID pm = 1000 →
  1000 + Z.of_nat (length (commands MenuItems)) < 2 ^ 31 →
  buildMenu os_call os_more onClick_func (Some m) MenuItems w
  = (Some None, w') →
  ∃ it' : gmap Z nat,
    menus (heap w') !! m
    = Some (mkPopupMenu (hMenu pm) (Some it')
              (1000 + Z.of_nat (length (commands MenuItems))))
    ∧ (∀ (k : nat) item, commands MenuItems !! k = Some item →
         it' !! (1000 + Z.of_nat k) = Some (onClick_func (OnClick item)))
    ∧ (∀ id, id < 1000
             ∨ 1000 + Z.of_nat (length (commands MenuItems)) ≤ id →
         it' !! id = None).
Proof.
  intros Hm Hit Hnext Hlen Hrun. cbn [buildMenu] in Hrun.
  apply (buildMenu_range_run m MenuItems w w' pm ∅ Hm Hit) in Hrun
    as (it' & Hm' & Hcmd & Hout); [|lia..].
  rewrite Hnext in *. exists it'. split; [done|]. split; [done|].
  intros id Hid. by rewrite Hout.
Qed.

(** X24.  From [AddItem] to the callback.  After an [AddItem] with a
    callback has returned an identifier for the menu of a tray icon, a
    [WM_COMMAND] whose low word is that identifier, arriving through
    the trampoline at a window registered with the function literal of
    [NewTrayIcon] for that tray icon, calls the callback with the
    identifier and answers 0. *)
Theorem PopupMenu_AddItem_then_WM_COMMAND
    (code : nat → Z → Z → Z → Z → St W Z) (ti m p cb : nat) (t : TrayIcon)
    (label : string) (w w' : W) (id hwnd wParam lParam : Z) :
  trays (heap w) !! ti = Some t →
  ti_menu t = Some m →
  ti_msgID t ≠ WM_COMMAND →
  PopupMenu_AddItem os_call os_more m label (Some cb) w
  = (Some (id, None), w') →
  wndProcByHWND w' !! hwnd = Some p →
  (∀ h msg a b,
     code p h msg a b
     = defaultTrayWndProc os_call os_more item_code tray_code h msg a b ti) →
  int32 (Z.land wParam 0xFFFF) = id →
  globalWndProc os_call code hwnd WM_COMMAND wParam lParam w'
  = (0, (item_code cb id w').2).
Proof.
  intros Ht Hmenu Hmsg Hrun Hreg Hcode Hid.
  destruct (PopupMenu_AddItem_run m label (Some cb) w)
    as (err & w1 & Hheap & _ & Hrun').
  rewrite Hrun in Hrun'. destruct err as [e|]; [done|].
  destruct (items (default PopupMenu_zero (menus (heap w) !! m)))
    as [it|] eqn:Hit; [|done].
  injection Hrun' as Hid' Hw'.
  assert (Ht' : trays (heap w') !! ti = Some t).
  { rewrite Hw'. simpl. by rewrite Hheap. }
  assert (Hcb : PopupMenu_GetCallback m id w' = (Some cb, w')).
  { unfold PopupMenu_GetCallback, load_menu. st_unfold. rewrite Hw' at 1.
    simpl. rewrite lookup_insert_eq. simpl. by rewrite Hid', lookup_insert_eq. }
  assert (Hproc : defaultTrayWndProc os_call os_more item_code tray_code
                    hwnd WM_COMMAND wParam lParam ti w'
                  = (0, (item_code cb id w').2)).
  { unfold defaultTrayWndProc. rewrite bind_St. unfold load_tray.
    rewrite Ht'. cbn [default from_option Datatypes.id fst snd].
    destruct (Z.eqb_spec WM_COMMAND (ti_msgID t)) as [Heq|_];
      [by rewrite Heq in Hmsg|].
    change (WM_COMMAND =? WM_COMMAND) with true. cbn iota.
    rewrite Hmenu, Hid. rewrite !bind_St. by rewrite Hcb. }
  unfold globalWndProc, getWndProc. st_unfold. by rewrite Hreg, Hcode, Hproc.
Qed.

(** X25.  What the procedure of a tray icon leaves alone.  The tray
    message, [WM_COMMAND] and [WM_DESTROY] are answered 0, whatever
    the callbacks do.  Without a tray callback the tray message
    changes nothing: a right click shows no menu even when one is set
    up.  A [WM_COMMAND] for which the menu holds no callback, or with
    no menu, changes nothing either, and is not passed on to
    [DefWindowProcW]. *)
Theorem defaultTrayWndProc_handled (hwnd msg wParam lParam : Z) (ti : nat)
    (t : TrayIcon) (w : W) :
  trays (heap w) !! ti = Some t →
  (msg = ti_msgID t ∨ msg = WM_COMMAND ∨ msg = WM_DESTROY →
   (defaultTrayWndProc os_call os_more item_code tray_code
      hwnd msg wParam lParam ti w).1 = 0)
  ∧ (msg = ti_msgID t → ti_callback t = None →
     defaultTrayWndProc os_call os_more item_code tray_code
       hwnd msg wParam lParam ti w = (0, w))
  ∧ (msg = WM_COMMAND → ti_msgID t ≠ WM_COMMAND →
     match ti_menu t with
     | Some m =>
         (PopupMenu_GetCallback m (int32 (Z.land wParam 0xFFFF)) w).1 = None
     | None => True
     end →
     defaultTrayWndProc os_call os_more item_code tray_code
       hwnd msg wParam lParam ti w = (0, w)).
Proof.
  intros Ht. unfold defaultTrayWndProc. rewrite bind_St.
  unfold load_tray. rewrite Ht. cbn [default from_option id fst snd].
  split; [|split].
  - intros Hmsg. destruct (Z.eqb_spec msg (ti_msgID t)) as [_|Hne].
    + destruct (ti_callback t) as [cb|]; [|done].
      rewrite bind_St.
      generalize (tray_code cb (uint32 lParam) w).2. intros w1.
      rewrite bind_St. by rewrite bind_St.
    + destruct (Z.eqb_spec msg WM_COMMAND) as [_|Hne'].
      * by rewrite bind_St.
      * destruct (Z.eqb_spec msg WM_DESTROY) as [_|Hne''].
        -- by rewrite bind_St.
        -- by destruct Hmsg as [?|[?|?]].
  - intros -> Hcb. rewrite Z.eqb_refl. by rewrite Hcb.
  - intros -> Hne Hnone.
    destruct (Z.eqb_spec WM_COMMAND (ti_msgID t)) as [Heq|_];
      [by rewrite Heq in Hne|].
    simpl. rewrite bind_St. destruct (ti_menu t) as [m|]; [|done].
    rewrite bind_St. unfold PopupMenu_GetCallback in *.
    rewrite bind_St in *. simpl in *. by rewrite Hnone.
Qed.

(** X26.  What [NewTrayIcon] makes.  On success there is a new tray
    icon, with the window created, the identifier given (1 for 0), the
    callback given, the message [WM_USER + 1] and no menu; its
    function literal is registered under the window's handle, and no
    other tray icon has changed.  On failure the error wraps the one
    of [CreateMessageOnlyWindow], the registry is as before and every
    tray icon there was is as it was. *)
Theorem NewTrayIcon_result (uid : Z) (callback : option nat) (w w' : W)
    (res : option nat * error) :
  NewTrayIcon os_call globalWndProcPtr tray_proc uid callback w = (res, w') →
  match res with
  | (Some ti, None) =>
      trays (heap w) !! ti = None
      ∧ (∃ hwnd,
           trays (heap w') !! ti
           = Some (mkTrayIcon hwnd (if uid =? 0 then 1 else uid) callback
                     (WM_USER + 1) None)
           ∧ wndProcByHWND w'
             = <[hwnd := tray_proc ti]> (wndProcByHWND w))
      ∧ (∀ ti', ti' ≠ ti → trays (heap w') !! ti' = trays (heap w) !! ti')
  | (None, Some (Wrapped "failed to create message window" _)) =>
      wndProcByHWND w' = wndProcByHWND w
      ∧ (∀ ti' t, trays (heap w) !! ti' = Some t →
           trays (heap w') !! ti' = Some t)
  | _ => False
  end.
Proof.
  unfold NewTrayIcon. rewrite bind_St.
  set (uid' := if uid =? 0 then 1 else uid).
  set (ti := fresh (dom (trays (heap w)))).
  assert (Hfresh : trays (heap w) !! ti = None).
  { apply not_elem_of_dom. apply is_fresh. }
  unfold new_tray. cbn [fst snd]. fold ti.
  set (w0 := (store_tray ti _ w).2).
  rewrite bind_St.
  pose proof (CreateMessageOnlyWindow_heap "win32utils.TrayIcon" "Tray Icon"
                (Some (tray_proc ti)) w0) as Hheap.
  destruct (CreateMessageOnlyWindow os_call globalWndProcPtr
              "win32utils.TrayIcon" "Tray Icon" (Some (tray_proc ti)) w0)
    as [[hwnd err] w1] eqn:Hrun.
  cbn [fst snd] in *.
  destruct (CreateMessageOnlyWindow_run os_call globalWndProcPtr _ _ _ _ _ _ _
              Hrun) as [(Herr & _ & Hreg)|[-> Hw1]].
  - destruct err as [e|]; [|done]. intros [= <- <-].
    split; [by rewrite Hreg|]. intros ti' t' Ht'. rewrite Hheap. subst w0.
    simpl. rewrite lookup_insert_ne; [done|]. intros <-. congruence.
  - rewrite bind_St. intros [= <- <-]. split; [done|]. split.
    + exists hwnd. simpl. rewrite lookup_insert_eq. split; [done|].
      rewrite Hw1. by simpl.
    + intros ti' Hne. simpl. rewrite lookup_insert_ne by done.
      rewrite Hheap. subst w0. simpl. by rewrite lookup_insert_ne.
Qed.

(** X27.  The tooltip [Add] hands to the shell.  The structure given
    to [ShellNotifyIconW] names the window and the identifier of the
    tray icon, carries its message and the icon, and sets the flags
    for message, icon and tip.  Its tip field holds the UTF-16 units
    of the tip: followed by NULs when there are fewer than 128 of
    them, and otherwise the first 128 of them, with no terminating NUL
    left in the field. *)
Theorem TrayIcon_Add_tip (ti : nat) (t : TrayIcon) (hIcon : Z) (tip : string)
    (units : list Z) (w : W) :
  trays (heap w) !! ti = Some t →
  UTF16FromString tip = Some (units ++ [0]) →
  ∃ d : NOTIFYICONDATAW,
    TrayIcon_Add os_call os_more UTF16FromString ti hIcon tip w
    = (ShellNotifyIconW os_call os_more NIM_ADD (Some d)
         ≫= λ r, mret r.2) w
    ∧ nid_HWnd d = ti_hwnd t ∧ nid_UID d = ti_uid t
    ∧ nid_UCallbackMessage d = ti_msgID t ∧ nid_HIcon d = hIcon
    ∧ nid_UFlags d = 7
    ∧ length (nid_SzTip d) = 128%nat
    ∧ ((length units < 128)%nat →
       nid_SzTip d = units ++ replicate (128 - length units) 0)
    ∧ ((128 ≤ length units)%nat → nid_SzTip d = take 128 units).
Proof.
  intros Ht Htip.
  exists (mkNOTIFYICONDATAW 0 (ti_hwnd t) (ti_uid t)
            (Z.lor (Z.lor NIF_MESSAGE NIF_ICON) NIF_TIP) (ti_msgID t) hIcon
            (copy_tip UTF16FromString tip (replicate 128 0)) 0 0
            (replicate 256 0) 0 (replicate 64 0) 0 0 0).
  split.
  - unfold TrayIcon_Add, buildNotifyIconData. rewrite !bind_St.
    unfold load_tray. cbn [fst snd]. rewrite Ht.
    cbn [default from_option id fst snd mret St_ret].
    cbn [nid_CbSize nid_HWnd nid_UID nid_SzTip nid_DwState nid_DwStateMask
         nid_SzInfo nid_TimeoutOrVersion nid_SzInfoTitle nid_DwInfoFlags
         nid_GUIDItem nid_HBalloonIcon].
    rewrite ?Ht. cbn [default from_option id].
    by destruct (ShellNotifyIconW _ _ _ _ _) as [[d' err] w1].
  - cbn [nid_HWnd nid_UID nid_UCallbackMessage nid_HIcon nid_UFlags nid_SzTip].
    do 5 (split; [done|]).
    unfold copy_tip. rewrite Htip. rewrite length_replicate.
    rewrite length_app. cbn [length].
    split; [|split].
    + rewrite length_app, length_take, length_drop, length_app, length_replicate.
      cbn [length]. lia.
    + intros Hlt. rewrite take_ge by (rewrite length_app; simpl; lia).
      rewrite <- app_assoc. f_equal. rewrite drop_replicate.
      replace (128 - length units)%nat
        with (S (128 - (length units + 1))) by lia.
      by rewrite length_app.
    + intros Hge. rewrite take_app_le by lia.
      rewrite drop_ge; [by rewrite app_nil_r|].
      rewrite length_replicate, length_app. lia.
Qed.

Lemma PopupMenu_Destroy_run (m : nat) (w : W) :
  let pm := default PopupMenu_zero (menus (heap w) !! m) in
  ∃ (err : error) (w1 : W),
    heap w1 = heap w
    ∧ wndProcByHWND w1 = wndProcByHWND w
    ∧ PopupMenu_Destroy os_call os_more m w
      = match err with
        | Some e => (Some e, w1)
        | None => (None, (store_menu m (mkPopupMenu 0 None (nextID pm)) w1).2)
        end.
Proof.
  intros pm. unfold PopupMenu_Destroy, load_menu. st_unfold. fold pm.
  assert (Hframe : keeps_heap (DestroyMenu os_call os_more (hMenu pm)
                                 : St W error)
                   ∧ keeps_registry (DestroyMenu os_call os_more (hMenu pm)
                                       : St W error)).
  { split; unfold DestroyMenu, GetLastError; frame_step. }
  destruct Hframe as [Hh Hr]. specialize (Hh w). specialize (Hr w).
  destruct (DestroyMenu os_call os_more (hMenu pm) w) as [err w1].
  exists err, w1. split; [done|]. split; [done|]. by destruct err.
Qed.

(** X28.  A destroyed menu.  After a [Destroy] that returned nil the
    menu's handle is 0, [GetCallback] finds no callback under any
    identifier, and an [AddItem] with a callback never succeeds: it
    returns an error, or, when the OS accepts the item, panics on the
    nil map.  A [Destroy] that returns an error leaves every menu as
    it was. *)
Theorem PopupMenu_Destroy_result (m : nat) (w w1 : W) (err : error) :
  PopupMenu_Destroy os_call os_more m w = (err, w1) →
  match err with
  | None =>
      hMenu (load_menu m w1).1 = 0
      ∧ (∀ itemID, (PopupMenu_GetCallback m itemID w1).1 = None)
      ∧ (∀ label cb,
           match (PopupMenu_AddItem os_call os_more m label (Some cb) w1).1 with
           | Some (_, None) => False
           | Some (id, Some _) => id = 0
           | None => True
           end)
  | Some _ => heap w1 = heap w
  end.
Proof.
  intros Hrun.
  destruct (PopupMenu_Destroy_run m w) as (err' & w0 & Hheap & _ & Hrun').
  rewrite Hrun in Hrun'.
  destruct err' as [e|]; injection Hrun' as Herr Hw1; subst err.
  { by rewrite Hw1. }
  assert (Hm : menus (heap w1) !! m
               = Some (mkPopupMenu 0 None
                         (nextID (default PopupMenu_zero (menus (heap w) !! m))))).
  { rewrite Hw1. simpl. apply lookup_insert_eq. }
  split; [|split].
  - unfold load_menu. simpl. by rewrite Hm.
  - intros itemID. unfold PopupMenu_GetCallback, load_menu. st_unfold.
    by rewrite Hm.
  - intros label cb.
    destruct (PopupMenu_AddItem_run m label (Some cb) w1)
      as (err & w2 & _ & _ & Hadd).
    rewrite Hadd, Hm. cbv [default from_option id items].
    by destruct err.
Qed.

(** X29.  [SetupMenu] makes one menu.  A [SetupMenu] that returned a
    menu returns the same menu when called again, without a system
    call and without any change of state.  When the tray icon had no
    menu, the menu returned is a new one, with no item and next
    identifier 1000; a [SetupMenu] that returns an error leaves the
    tray icons and the menus as they were. *)
Theorem TrayIcon_SetupMenu_once (ti : nat) (w w' : W)
    (res : option nat * error) :
  TrayIcon_SetupMenu os_call os_more ti w = (res, w') →
  match res with
  | (Some m, None) =>
      TrayIcon_SetupMenu os_call os_more ti w' = ((Some m, None), w')
      ∧ (ti_menu (load_tray ti w).1 = None →
         menus (heap w) !! m = None
         ∧ ∃ h, menus (heap w') !! m = Some (mkPopupMenu h (Some ∅) 1000))
  | (None, Some _) => heap w' = heap w
  | _ => False
  end.
Proof.
  unfold TrayIcon_SetupMenu at 1. unfold NewPopupMenu, new_menu, load_tray.
  st_unfold. set (t := default TrayIcon_zero (trays (heap w) !! ti)).
  assert (Hagain : ∀ (m : nat) (w1 : W),
            ti_menu (default TrayIcon_zero (trays (heap w1) !! ti)) = Some m →
            TrayIcon_SetupMenu os_call os_more ti w1 = ((Some m, None), w1)).
  { intros m w1 Hm. unfold TrayIcon_SetupMenu, load_tray. st_unfold.
    by rewrite Hm. }
  destruct (ti_menu t) as [m|] eqn:Hmenu.
  - intros [= <- <-]. split; [by apply Hagain|]. intros Hnone.
    unfold load_tray in Hnone. simpl in Hnone. fold t in Hnone. congruence.
  - assert (Hframe : keeps_heap (CreatePopupMenu os_call os_more
                                   : St W (Z * error))).
    { unfold CreatePopupMenu, GetLastError. frame_step. }
    specialize (Hframe w).
    destruct (CreatePopupMenu os_call os_more w) as [[h err] w0].
    cbn [fst snd] in Hframe. destruct err as [e|].
    + by intros [= <- <-].
    + set (m := fresh (dom (menus (heap w0)))).
      assert (Hfresh : menus (heap w) !! m = None).
      { subst m. rewrite Hframe. apply not_elem_of_dom. apply is_fresh. }
      unfold store_menu, store_tray. cbn [fst snd heap menus trays].
      intros [= <- <-]. split.
      * apply Hagain. simpl. by rewrite lookup_insert_eq.
      * intros _. split; [done|]. exists h. simpl. apply lookup_insert_eq.
Qed.

End TrayFacts.

(** ** Closing a tray icon *)

Section TrayCloseFacts.
Context {V OS : Type}.
Variable os_call : ∀ T, syscall T → OS → T * OS.
Variable os_more : ∀ T, syscall_more T → OS → T * OS.
Variable item_code : nat → Z → St (World (TrayHeap V) OS) ().
Variable tray_code : nat → Z → St (World (TrayHeap V) OS) ().
Variable code : nat → Z → Z → Z → Z → St (World (TrayHeap V) OS) Z.

Local Abbreviation W := (World (TrayHeap V) OS).

Lemma ShellNotifyIconW_frame (dwMessage : Z) (lpData : option NOTIFYICONDATAW) :
  keeps_heap (ShellNotifyIconW os_call os_more dwMessage lpData
                : St W (option NOTIFYICONDATAW * error))
  ∧ keeps_registry (ShellNotifyIconW os_call os_more dwMessage lpData
                      : St W (option NOTIFYICONDATAW * error)).
Proof. split; unfold ShellNotifyIconW, GetLastError; frame_step. Qed.

Lemma DestroyMenu_frame (h : Z) :
  keeps_heap (DestroyMenu os_call os_more h : St W error)
  ∧ keeps_registry (DestroyMenu os_call os_more h : St W error).
Proof. split; unfold DestroyMenu, GetLastError; frame_step. Qed.

Lemma PopupMenu_Destroy_frame (m : nat) (w : W) :
  wndProcByHWND (PopupMenu_Destroy os_call os_more m w).2 = wndProcByHWND w
  ∧ trays (heap (PopupMenu_Destroy os_call os_more m w).2) = trays (heap w).
Proof.
  unfold PopupMenu_Destroy, load_menu. st_unfold.
  destruct (DestroyMenu_frame
              (hMenu (default PopupMenu_zero (menus (heap w) !! m))))
    as [Hh Hr].
  specialize (Hh w). specialize (Hr w).
  destruct (DestroyMenu os_call os_more _ w) as [err w1].
  cbn [fst snd] in *. destruct err as [e|]; simpl; by rewrite Hh, Hr.
Qed.

Lemma TrayIcon_Close_cleanup_run (ti : nat) (t : TrayIcon) (w : W) :
  trays (heap w) !! ti = Some t →
  wndProcByHWND (TrayIcon_Close_cleanup os_call os_more ti w).2
  = wndProcByHWND w
  ∧ trays (heap (TrayIcon_Close_cleanup os_call os_more ti w).2) !! ti
    = Some (mkTrayIcon (ti_hwnd t) (ti_uid t) (ti_callback t) (ti_msgID t)
              None).
Proof.
  intros Ht. unfold TrayIcon_Close_cleanup. rewrite bind_St.
  assert (Hremove : wndProcByHWND (TrayIcon_Remove os_call os_more ti w).2
                    = wndProcByHWND w
                    ∧ heap (TrayIcon_Remove os_call os_more ti w).2 = heap w).
  { unfold TrayIcon_Remove, buildNotifyIconData, load_tray. st_unfold.
    match goal with
    | |- context [ShellNotifyIconW os_call os_more ?a ?b w] =>
        destruct (ShellNotifyIconW_frame a b) as [Hh Hr];
        specialize (Hh w); specialize (Hr w);
        destruct (ShellNotifyIconW os_call os_more a b w) as [[d err] w1]
    end.
    by split. }
  destruct Hremove as [Hr Hh].
  generalize dependent (TrayIcon_Remove os_call os_more ti w).2.
  intros w1 <- Hh. rewrite bind_St. unfold load_tray. rewrite Hh, Ht.
  cbn [default from_option id fst snd].
  destruct (ti_menu t) as [m|] eqn:Hmenu.
  - rewrite bind_St. destruct (PopupMenu_Destroy_frame m w1) as [Hr' Ht'].
    simpl. rewrite Hr'. split; [done|]. apply lookup_insert_eq.
  - simpl. split; [done|]. rewrite Hh, Ht. destruct t. simpl in *. by subst.
Qed.

(** X30.  Closing a tray icon ends the message loop.  For a tray
    icon whose window is registered with the function literal of
    [NewTrayIcon] and has the trampoline as class procedure, a [Close]
    on which the OS destroys the window returns nil, whatever became
    of removing the icon and destroying the menu.  By then the tray
    icon has no menu, the window's procedure has answered
    [WM_DESTROY] by posting a quit message with exit code 0 and
    [WM_NCDESTROY] by the default handling, and the handle has left
    the registry. *)
Theorem TrayIcon_Close_quits (ti p : nat) (t : TrayIcon)
    (s : Machine (TrayHeap V) OS) (w1 : W) (o1 o2 o3 o4 : OS) (r1 rq rd : Z) :
  trays (heap (world s)) !! ti = Some t →
  ti_msgID t = WM_USER + 1 →
  wndProcByHWND (world s) !! ti_hwnd t = Some p →
  (∀ h msg a b,
     code p h msg a b
     = defaultTrayWndProc os_call os_more item_code tray_code h msg a b ti) →
  (TrayIcon_Close_cleanup os_call os_more ti (world s)).2 = w1 →
  os_call ClassProc (SysWindowProc (ti_hwnd t)) (os w1)
  = (ProcGlobalWndProc, o1) →
  os_call Z (SysDestroyWindow (ti_hwnd t)) o1 = (r1, o2) →
  r1 ≠ 0 →
  os_more Z (SysPostQuitMessage 0) o2 = (rq, o3) →
  os_call Z (SysDefWindowProcW (ti_hwnd t) WM_NCDESTROY 0 0) o3 = (rd, o4) →
  TrayIcon_Close os_call os_more code ti s
  = (None,
     mkMachine
       (mkWorld (delete (ti_hwnd t) (wndProcByHWND (world s))) (heap w1) o4)
       (dialogWndProcs s) (locals s))
  ∧ trays (heap w1) !! ti
    = Some (mkTrayIcon (ti_hwnd t) (ti_uid t) (ti_callback t) (ti_msgID t)
              None).
Proof.
  intros Ht Hmsg Hreg Hcode Hw1 Hroute Hdestroy Hr1 Hquit Hdef.
  destruct (TrayIcon_Close_cleanup_run ti t (world s) Ht) as [Hreg1 Ht1].
  rewrite Hw1 in Hreg1, Ht1. split; [|done].
  rewrite <- Hreg1 in Hreg |- *.
  assert (Hclose : TrayIcon_Close os_call os_more code ti s
                   = DestroyWindow os_call code (ti_hwnd t)
                       (mkMachine w1 (dialogWndProcs s) (locals s))).
  { unfold TrayIcon_Close. st_unfold. unfold inWorld.
    destruct (TrayIcon_Close_cleanup os_call os_more ti (world s))
      as [[] w1'].
    simpl in Hw1. subst w1'. unfold load_tray. cbn [world]. by rewrite Ht1. }
  rewrite Hclose. clear Hclose Hreg1 Hw1 Ht.
  assert (Hproc : ∀ msg w,
            msg ≠ WM_USER + 1 → msg ≠ WM_COMMAND →
            trays (heap w) !! ti
            = Some (mkTrayIcon (ti_hwnd t) (ti_uid t) (ti_callback t)
                      (ti_msgID t) None) →
            code p (ti_hwnd t) msg 0 0 w
            = if msg =? WM_DESTROY then
                (0, (sys_more os_more (SysPostQuitMessage 0) w).2)
              else DefWindowProcW os_call (ti_hwnd t) msg 0 0 w).
  { intros msg w Hm1 Hm2 Hw. rewrite Hcode.
    unfold defaultTrayWndProc. rewrite bind_St. unfold load_tray. rewrite Hw.
    cbn [default from_option id ti_msgID ti_menu fst snd]. rewrite Hmsg.
    destruct (Z.eqb_spec msg (WM_USER + 1)) as [|_]; [done|].
    destruct (Z.eqb_spec msg WM_COMMAND) as [|_]; [done|].
    destruct (msg =? WM_DESTROY); [|done].
    unfold PostQuitMessage. by rewrite !bind_St. }
  destruct w1 as [reg1 heap1 os1]. cbn [os wndProcByHWND heap] in *.
  assert (Hd : globalWndProc os_call code (ti_hwnd t) WM_DESTROY 0 0
                 (mkWorld reg1 heap1 o2)
               = (0, mkWorld reg1 heap1 o3)).
  { unfold globalWndProc, getWndProc. st_unfold. cbn [wndProcByHWND].
    rewrite Hreg, Hproc by done. change (WM_DESTROY =? WM_DESTROY) with true.
    cbn iota. unfold sys_more. cbn [os]. by rewrite Hquit. }
  assert (Hn : globalWndProc os_call code (ti_hwnd t) WM_NCDESTROY 0 0
                 (mkWorld reg1 heap1 o3)
               = (rd, mkWorld (delete (ti_hwnd t) reg1) heap1 o4)).
  { unfold globalWndProc, getWndProc. st_unfold. cbn [wndProcByHWND].
    rewrite Hreg, Hproc by done.
    change (WM_NCDESTROY =? WM_DESTROY) with false. cbn iota.
    unfold DefWindowProcW, sys. cbn [os]. by rewrite Hdef. }
  unfold DestroyWindow, DestroyWindow_, user32_DestroyWindow_. st_unfold.
  unfold inWorld at 1. unfold sys at 1. cbn [world os]. rewrite Hroute.
  unfold inWorld at 1. unfold sys at 1. cbn [os world]. rewrite Hdestroy.
  destruct (Z.eqb_spec r1 0) as [|_]; [done|]. cbn [call_ClassProc].
  unfold inWorld. cbn [world wndProcByHWND heap dialogWndProcs locals].
  rewrite Hd. cbn [world]. rewrite Hn.
  by destruct (Z.eqb_spec r1 0).
Qed.

End TrayCloseFacts.

(** ** Menus and tray icons on a desk *)

Lemma ShellNotifyIconW_error_witness :
  (ShellNotifyIconW desk_call shell_call NIM_DELETE
     (Some NOTIFYICONDATAW_zero) (world_err 0)).1.2 = None
  ∧ (ShellNotifyIconW desk_call shell_call NIM_DELETE
       (Some NOTIFYICONDATAW_zero) (world_err 5)).1.2 = Some (Errno 5).
Proof.
  split.
  - apply (proj1 (ShellNotifyIconW_error desk_call shell_call NIM_DELETE
                    (Some NOTIFYICONDATAW_zero) (world_err 0) 0 0
                    (os (world_err 0)) (os (world_err 0))
                    eq_refl eq_refl)).
  - apply (proj1 (ShellNotifyIconW_error desk_call shell_call NIM_DELETE
                    (Some NOTIFYICONDATAW_zero) (world_err 5) 0 5
                    (os (world_err 5)) (os (world_err 5))
                    eq_refl eq_refl)).
Defined.

Lemma DestroyWindow_CreateWindowInstance_witness :
  (λ r, (r.1, wndProcByHWND (world r.2) !! 0x7000,
         d_queue (os (world r.2))))
    (DestroyWindow desk_call shell_code 0x7000 instance_machine)
  = (None, None, [(0, msg_to 0 0x0012 0)]).
Proof.
  erewrite (DestroyWindow_CreateWindowInstance desk_call shell_call shell_code
              0x7000 O instance_machine); cycle 1.
  - reflexivity.
  - intros. reflexivity.
  - vm_compute. reflexivity.
  - vm_compute. reflexivity.
  - discriminate.
  - vm_compute. reflexivity.
  - vm_compute. reflexivity.
  - vm_compute. reflexivity.
Defined.

Lemma PopupMenu_AddItem_ids_witness :
  ∃ pm' : PopupMenu,
    menus (heap (PopupMenu_AddItem desk_call shell_call O "Quit" (Some 6%nat)
                   menu_world).2) !! O = Some pm'
    ∧ nextID pm' = 1002
    ∧ items pm' = Some (<[1001 := 6%nat]> {[ 1000 := 5%nat ]}).
Proof.
  destruct (PopupMenu_AddItem_ids desk_call shell_call O "Quit" (Some 6%nat)
              menu_world
              (PopupMenu_AddItem desk_call shell_call O "Quit" (Some 6%nat)
                 menu_world).2
              (mkPopupMenu 0x9000 (Some {[ 1000 := 5%nat ]}) 1001)
              {[ 1000 := 5%nat ]} (Some (1001, None)))
    as (pm' & Hm & _ & Hnext & _ & _ & _ & _ & Hitems).
  - reflexivity.
  - reflexivity.
  - intros it id [= <-] [cb Hcb]. simpl.
    apply lookup_singleton_Some in Hcb as [<- _]. lia.
  - simpl. lia.
  - vm_compute. reflexivity.
  - exists pm'. split; [exact Hm|]. split; [exact Hnext|exact Hitems].
Defined.

Lemma buildMenu_ids_witness :
  ∃ it' : gmap Z nat,
    menus (heap (buildMenu desk_call shell_call test_onClick_func (Some O)
                   test_MenuItems new_menu_world).2) !! O
    = Some (mkPopupMenu 0x9000 (Some it') 1002)
    ∧ it' !! 1000 = Some 2%nat
    ∧ it' !! 1001 = Some 0%nat
    ∧ it' !! 1002 = None.
Proof.
  destruct (buildMenu_ids desk_call shell_call test_onClick_func O
              test_MenuItems new_menu_world
              (buildMenu desk_call shell_call test_onClick_func (Some O)
                 test_MenuItems new_menu_world).2
              (mkPopupMenu 0x9000 (Some ∅) 1000))
    as (it' & Hm & Hcmd & Hout).
  - reflexivity.
  - reflexivity.
  - reflexivity.
  - simpl. lia.
  - vm_compute. reflexivity.
  - exists it'. split; [exact Hm|]. split; [|split].
    + apply (Hcmd O (mkTrayMenuItem "Open" (Some 1%nat) false EmptyString)).
      reflexivity.
    + apply (Hcmd 1%nat (mkTrayMenuItem "Quit" None false "x")). reflexivity.
    + apply Hout. right. simpl. lia.
Defined.

Lemma PopupMenu_AddItem_then_WM_COMMAND_witness :
  globalWndProc desk_call shell_code 0x7000 WM_COMMAND 1001 0
    (PopupMenu_AddItem desk_call shell_call O "Quit" (Some 6%nat) menu_world).2
  = (0, (count_code 6%nat 1001
           (PopupMenu_AddItem desk_call shell_call O "Quit" (Some 6%nat)
              menu_world).2).2).
Proof.
  apply (PopupMenu_AddItem_then_WM_COMMAND desk_call shell_call count_code
           count_code shell_code O O 1%nat 6%nat
           (mkTrayIcon 0x7000 1 None (WM_USER + 1) (Some O))
           "Quit" menu_world).
  - reflexivity.
  - reflexivity.
  - discriminate.
  - vm_compute. reflexivity.
  - vm_compute. reflexivity.
  - intros. reflexivity.
  - reflexivity.
Defined.

Lemma defaultTrayWndProc_handled_witness :
  defaultTrayWndProc desk_call shell_call count_code count_code
    0x7000 (WM_USER + 1) 0 WM_RBUTTONDOWN O menu_world
  = (0, menu_world).
Proof.
  apply (proj1 (proj2 (defaultTrayWndProc_handled desk_call shell_call
                         count_code count_code 0x7000 (WM_USER + 1) 0
                         WM_RBUTTONDOWN O
                         (mkTrayIcon 0x7000 1 None (WM_USER + 1) (Some O))
                         menu_world eq_refl)));
    reflexivity.
Defined.

Lemma NewTrayIcon_result_witness :
  trays (heap (tray_world msgwin_desk)) !! O = None
  ∧ (∃ hwnd,
       trays (heap (NewTrayIcon desk_call 0x1000 S 0 (Some 3%nat)
                      (tray_world msgwin_desk)).2) !! O
       = Some (mkTrayIcon hwnd 1 (Some 3%nat) (WM_USER + 1) None)
       ∧ wndProcByHWND (NewTrayIcon desk_call 0x1000 S 0 (Some 3%nat)
                          (tray_world msgwin_desk)).2
         = <[hwnd := 1%nat]> (wndProcByHWND (tray_world msgwin_desk)))
  ∧ (∀ ti', ti' ≠ O →
       trays (heap (NewTrayIcon desk_call 0x1000 S 0 (Some 3%nat)
                      (tray_world msgwin_desk)).2) !! ti'
       = trays (heap (tray_world msgwin_desk)) !! ti').
Proof.
  apply (NewTrayIcon_result desk_call 0x1000 S 0 (Some 3%nat)
           (tray_world msgwin_desk)
           (NewTrayIcon desk_call 0x1000 S 0 (Some 3%nat)
              (tray_world msgwin_desk)).2
           (Some O, None)).
  vm_compute. reflexivity.
Defined.

Lemma TrayIcon_Add_tip_witness :
  ∃ d : NOTIFYICONDATAW,
    TrayIcon_Add desk_call shell_call ascii_UTF16FromString O 0xF00 "hi"
      menu_world
    = (ShellNotifyIconW desk_call shell_call NIM_ADD (Some d)
         ≫= λ r, mret r.2) menu_world
    ∧ nid_SzTip d = [104; 105] ++ replicate 126 0.
Proof.
  destruct (TrayIcon_Add_tip desk_call shell_call ascii_UTF16FromString O
              (mkTrayIcon 0x7000 1 None (WM_USER + 1) (Some O)) 0xF00 "hi"
              [104; 105] menu_world eq_refl eq_refl)
    as (d & Hrun & _ & _ & _ & _ & _ & _ & Hshort & _).
  exists d. split; [exact Hrun|]. apply Hshort. simpl. lia.
Defined.

Lemma TrayIcon_Close_quits_witness :
  (λ r, (r.1, wndProcByHWND (world r.2) !! 0x7000,
         d_queue (os (world r.2))))
    (TrayIcon_Close desk_call shell_call shell_code O tray_machine)
  = (None, None, [(0, msg_to 0 0x0012 0)]).
Proof.
  edestruct (TrayIcon_Close_quits desk_call shell_call count_code count_code
               shell_code O 1%nat
               (mkTrayIcon 0x7000 1 None (WM_USER + 1) (Some O))
               tray_machine) as [Hrun _].
  - reflexivity.
  - reflexivity.
  - reflexivity.
  - intros. reflexivity.
  - reflexivity.
  - vm_compute. reflexivity.
  - vm_compute. reflexivity.
  - discriminate.
  - vm_compute. reflexivity.
  - vm_compute. reflexivity.
  - rewrite Hrun. vm_compute. reflexivity.
Defined.

Lemma PopupMenu_Destroy_result_witness :
  hMenu (load_menu O (PopupMenu_Destroy desk_call shell_call O menu_world).2).1
  = 0
  ∧ (PopupMenu_GetCallback O 1000
       (PopupMenu_Destroy desk_call shell_call O menu_world).2).1 = None.
Proof.
  pose proof (PopupMenu_Destroy_result desk_call shell_call O menu_world
                (PopupMenu_Destroy desk_call shell_call O menu_world).2 None
                eq_refl) as (Hh & Hcb & _).
  split; [exact Hh|apply Hcb].
Defined.

Lemma TrayIcon_SetupMenu_once_witness :
  TrayIcon_SetupMenu desk_call shell_call O
    (TrayIcon_SetupMenu desk_call shell_call O (tray_world msgwin_desk)).2
  = ((Some O, None),
     (TrayIcon_SetupMenu desk_call shell_call O (tray_world msgwin_desk)).2).
Proof.
  apply (TrayIcon_SetupMenu_once desk_call shell_call O
           (tray_world msgwin_desk)
           (TrayIcon_SetupMenu desk_call shell_call O
              (tray_world msgwin_desk)).2
           (Some O, None)).
  vm_compute. reflexivity.
Defined.
